(** * Maintenance-check scheduling and delayed-check detection

    A shallow embedding of the scheduling core of the device-check tool:
    - the key-value helper [kv_store.ts] ([set], [get], [del], [getByPrefix]);
    - the edge-function handlers [POST /weekly-plans],
      [PUT /checks/:checkId/complete] and [GET /delayed-checks];
    - the week-number helpers of the server and of the React components,
      and the overdue classification of [DelayedDevices.tsx].

    Documents are JSON values, JavaScript numbers are integers ([Z]) with
    [None] standing for [NaN], a [Date] is its time value (milliseconds since
    the epoch, [None] for an invalid date) and the host time zone is a fixed
    offset [tza] in milliseconds. *)

From Stdlib Require Import ZArith QArith Qround String Ascii List Lia.
From stdpp Require Import gmap strings list fin_maps pretty.

#[local] Set Warnings "-register-all,-clear-no-such-hyp".
#[local] Open Scope string_scope.
#[local] Open Scope Z_scope.

(* ===================================================================== *)
(** ** JavaScript values *)
(* ===================================================================== *)

Module JS.

(** A JSON document.  JSON numbers are restricted to integers. *)
Inductive json :=
  | JNull
  | JBool (b : bool)
  | JNum (n : Z)
  | JStr (s : string)
  | JArr (l : list json)
  | JObj (m : gmap string json).

(** A JavaScript value that came out of a JSON document or of a missing
    property: [None] is [undefined]. *)
Abbreviation jsval := (option json).

(** A JavaScript number with integral value: [None] is [NaN]. *)
Abbreviation number := (option Z).

Inductive exn :=
  | TypeError (msg : string)
  | RangeError (msg : string)
  | Error (msg : string).

Inductive result (A : Type) :=
  | Ok (a : A)
  | Throw (e : exn).
Arguments Ok {A} a.
Arguments Throw {A} e.

(** [!v] is [negb (ToBoolean v)]. *)
Definition ToBoolean (v : jsval) : bool :=
  match v with
  | None | Some JNull => false
  | Some (JBool b) => b
  | Some (JNum n) => negb (n =? 0)
  | Some (JStr s) => negb (String.eqb s EmptyString)
  | Some (JArr _) | Some (JObj _) => true
  end.

(** [a || b] *)
Definition or_else (a b : jsval) : jsval := if ToBoolean a then a else b.

Fixpoint skip_zeros (l : list ascii) : list ascii :=
  match l with
  | "0"%char :: r => skip_zeros r
  | _ => l
  end.

(** The exponent form [d.ddde+n] of an integer: its digits without the
    trailing zeros, a point after the first one, and the number of digits
    that follow the first as exponent. *)
Definition exponent_form (z : Z) : string :=
  let digits := list_ascii_of_string (pretty (Z.abs z)) in
  let exponent := pretty (Z.of_nat (length digits) - 1) in
  let sign := if z <? 0 then "-" else EmptyString in
  match rev (skip_zeros (rev digits)) with
  | [] => "0"
  | [d] => sign +:+ String d ("e+" +:+ exponent)
  | d :: r => sign +:+ String d ("." +:+ string_of_list_ascii r +:+ "e+" +:+ exponent)
  end.

(** [Number::toString]: an integer is printed with all its digits below
    [10^21] and in exponent form from there on. *)
Definition Number_toString (n : number) : string :=
  match n with
  | None => "NaN"
  | Some z =>
      if Z.abs z <? 1000000000000000000000 then pretty z else exponent_form z
  end.

(** Template-literal conversion [`${v}`] of a JSON value. *)
Fixpoint ToString_json (v : json) : string :=
  match v with
  | JNull => "null"
  | JBool true => "true"
  | JBool false => "false"
  | JNum n => Number_toString (Some n)
  | JStr s => s
  | JArr l =>
      String.concat ","
        (List.map (fun x => match x with JNull => EmptyString | _ => ToString_json x end) l)
  | JObj _ => "[object Object]"
  end.

Definition ToString (v : jsval) : string :=
  match v with
  | None => "undefined"
  | Some j => ToString_json j
  end.

(** Property read [v.k] for a property name that is neither an index nor
    [length]: [null.k] and [undefined.k] throw, primitives and arrays have
    no such property. *)
Definition get_prop (v : jsval) (k : string) : result jsval :=
  match v with
  | None => Throw (TypeError "Cannot read properties of undefined")
  | Some JNull => Throw (TypeError "Cannot read properties of null")
  | Some (JObj m) => Ok (m !! k)
  | Some _ => Ok None
  end.

(** Optional chaining [v?.k]. *)
Definition get_prop_opt (v : jsval) (k : string) : jsval :=
  match v with
  | Some (JObj m) => m !! k
  | _ => None
  end.

Definition index_fields {A} (f : A -> json) (l : list A) : gmap string json :=
  list_to_map (imap (fun i x => (pretty i, f x)) l).

(** Strings hold UTF-8: a character (code point) is a byte followed by its
    continuation bytes, the bytes [10xxxxxx]. *)
Definition is_continuation (c : ascii) : bool :=
  let n := nat_of_ascii c in ((128 <=? n) && (n <? 192))%nat.

Fixpoint skip_continuation (l : list ascii) : list ascii :=
  match l with
  | c :: r => if is_continuation c then skip_continuation r else l
  | [] => []
  end.

(** The characters of a string, in order. *)
Fixpoint code_points (l : list ascii) : list string :=
  match l with
  | [] => []
  | c :: r =>
      match code_points r with
      | g :: gs =>
          if match r with d :: _ => is_continuation d | [] => false end
          then String c g :: gs
          else String c EmptyString :: g :: gs
      | [] => [String c EmptyString]
      end
  end.

(** The values a string yields when iterated: its characters. *)
Definition chars (s : string) : list json :=
  List.map JStr (code_points (list_ascii_of_string s)).

(** Own enumerable properties copied by the spread [{...v}]; those of a
    string are its characters (its UTF-16 code units, which are the
    characters as long as the string stays on the Basic Multilingual
    Plane). *)
Definition spread (v : jsval) : gmap string json :=
  match v with
  | Some (JObj m) => m
  | Some (JArr l) => index_fields id l
  | Some (JStr s) => index_fields id (chars s)
  | _ => ∅
  end.

(** An object-literal entry [k: v].  A property whose value is [undefined]
    does not survive serialisation of the document (the upsert body and
    [c.json] both go through JSON), so it is recorded as absent. *)
Definition set_field (k : string) (v : jsval) (m : gmap string json)
  : gmap string json :=
  match v with
  | Some x => <[k := x]> m
  | None => delete k m
  end.

(** Values produced by [for (const x of v)]. *)
Definition iterate (v : jsval) : result (list json) :=
  match v with
  | Some (JArr l) => Ok l
  | Some (JStr s) => Ok (chars s)
  | _ => Throw (TypeError "value is not iterable")
  end.

(** *** Numeric conversions *)

Definition is_white (c : ascii) : bool :=
  let n := nat_of_ascii c in
  ((n =? 32) || (n =? 9) || (n =? 10) || (n =? 11) || (n =? 12) || (n =? 13))%nat.

Fixpoint skip_white (l : list ascii) : list ascii :=
  match l with
  | c :: r => if is_white c then skip_white r else l
  | [] => []
  end.

Definition trim (l : list ascii) : list ascii :=
  rev (skip_white (rev (skip_white l))).

(** Value of a digit in the given radix, if it is one. *)
Definition digit_val (radix : Z) (c : ascii) : option Z :=
  let n := Z.of_nat (nat_of_ascii c) in
  let v := if (48 <=? n) && (n <=? 57) then Some (n - 48)
           else if (97 <=? n) && (n <=? 122) then Some (n - 87)
           else if (65 <=? n) && (n <=? 90) then Some (n - 55)
           else None in
  match v with
  | Some d => if d <? radix then Some d else None
  | None => None
  end.

(** Longest prefix of digits, most significant first: accumulated value and
    how many digits were read. *)
Fixpoint read_digits (radix : Z) (l : list ascii) (acc : Z) (count : nat)
  : Z * nat * list ascii :=
  match l with
  | c :: r =>
      match digit_val radix c with
      | Some d => read_digits radix r (acc * radix + d) (S count)
      | None => (acc, count, l)
      end
  | [] => (acc, count, [])
  end.

Definition strip_sign (l : list ascii) : Z * list ascii :=
  match l with
  | "-"%char :: r => (-1, r)
  | "+"%char :: r => (1, r)
  | _ => (1, l)
  end.

Definition strip_hex (l : list ascii) : option (list ascii) :=
  match l with
  | "0"%char :: "x"%char :: r => Some r
  | "0"%char :: "X"%char :: r => Some r
  | _ => None
  end.

(** [parseInt(s)] without a radix argument. *)
Definition parseInt_string (s : string) : number :=
  let (sign, l) := strip_sign (skip_white (list_ascii_of_string s)) in
  let (radix, l) := match strip_hex l with
                    | Some r => (16, r)
                    | None => (10, l)
                    end in
  match read_digits radix l 0 0 with
  | (_, O, _) => None
  | (n, _, _) => Some (sign * n)
  end.

Definition parseInt (v : jsval) : number := parseInt_string (ToString v).

(** A radix prefix of a numeric literal: [0x], [0o] or [0b]. *)
Definition strip_radix (l : list ascii) : option (Z * list ascii) :=
  match l with
  | "0"%char :: "x"%char :: r | "0"%char :: "X"%char :: r => Some (16, r)
  | "0"%char :: "o"%char :: r | "0"%char :: "O"%char :: r => Some (8, r)
  | "0"%char :: "b"%char :: r | "0"%char :: "B"%char :: r => Some (2, r)
  | _ => None
  end.

(** An unsigned decimal literal: digits, an optional fraction and an optional
    exponent, with at least one digit before the exponent.  The result is
    the pair [(m, e)] of the literal [m * 10^e]. *)
Definition read_decimal (l : list ascii) : option (Z * Z) :=
  let '(whole, n1, r1) := read_digits 10 l 0 0 in
  let '(m, n2, r2) :=
    match r1 with
    | "."%char :: r => read_digits 10 r whole 0
    | _ => (whole, O, r1)
    end in
  match (n1 + n2)%nat with
  | O => None
  | _ =>
      match r2 with
      | [] => Some (m, - Z.of_nat n2)
      | c :: r =>
          if Ascii.eqb c "e" || Ascii.eqb c "E" then
            let (sign, r') := strip_sign r in
            match read_digits 10 r' 0 0 with
            | (e, S _, []) => Some (m, sign * e - Z.of_nat n2)
            | _ => None
            end
          else None
      end
  end.

(** The integer [m * 10^e], when it is one. *)
Definition scale (m e : Z) : number :=
  if 0 <=? e then Some (m * 10 ^ e)
  else if m mod 10 ^ (- e) =? 0 then Some (m / 10 ^ (- e))
  else None.

(** String-to-number conversion: a decimal literal with an optional sign, or
    a hexadecimal, octal or binary literal with its prefix; the empty string
    converts to 0.  Numbers are integers here: a literal whose value is an
    integer converts to it (["2.0"], ["2."] and ["1e1"] are 2, 2 and 10);
    a literal whose value is a fraction, and [Infinity], have no integral
    value and lie outside this model, as do the rounding and the overflow
    of floating-point numbers. *)
Definition StringToNumber (s : string) : number :=
  let l := trim (list_ascii_of_string s) in
  match l with
  | [] => Some 0
  | _ =>
      match strip_radix l with
      | Some (radix, r) =>
          match read_digits radix r 0 0 with
          | (n, S _, []) => Some n
          | _ => None
          end
      | None =>
          let (sign, r) := strip_sign l in
          match read_decimal r with
          | Some (m, e) => scale (sign * m) e
          | None => None
          end
      end
  end.

Definition ToNumber (v : jsval) : number :=
  match v with
  | None => None
  | Some JNull => Some 0
  | Some (JBool b) => Some (if b then 1 else 0)
  | Some (JNum n) => Some n
  | Some (JStr s) => StringToNumber s
  | Some (JArr l) => StringToNumber (ToString_json (JArr l))
  | Some (JObj _) => None
  end.

(** Arithmetic on numbers: [NaN] is absorbing. *)
Definition num_add (a b : number) : number := x ← a; y ← b; Some (x + y).
Definition num_sub (a b : number) : number := x ← a; y ← b; Some (x - y).
Definition num_mul (a b : number) : number := x ← a; y ← b; Some (x * y).
(** [a % b]: the sign of the result is the sign of the dividend. *)
Definition num_rem (a b : number) : number :=
  x ← a; y ← b; if y =? 0 then None else Some (Z.rem x y).

(** [a || b] on numbers: 0 and [NaN] are falsy. *)
Definition num_or (a b : number) : number :=
  match a with
  | Some 0 | None => b
  | _ => a
  end.

(** Comparisons: any comparison with [NaN] is false. *)
Definition num_lt (a b : number) : bool :=
  match a, b with Some x, Some y => x <? y | _, _ => false end.
Definition num_le (a b : number) : bool :=
  match a, b with Some x, Some y => x <=? y | _, _ => false end.
Definition num_gt (a b : number) : bool := num_lt b a.
(** [a === b] on numbers. *)
Definition num_eq (a b : number) : bool :=
  match a, b with Some x, Some y => x =? y | _, _ => false end.

(** [Math.round] and [Math.ceil] of an exact quotient. *)
Definition Math_round (q : Q) : Z := Qfloor (q + (1 # 2)).
Definition Math_ceil (q : Q) : Z := Qceiling q.

(** [v === 'literal'] *)
Definition is_string (v : jsval) (s : string) : bool :=
  match v with
  | Some (JStr x) => String.eqb x s
  | _ => false
  end.

End JS.

(* ===================================================================== *)
(** ** Dates *)
(* ===================================================================== *)

(** The time-value arithmetic behind the [Date] methods the code calls. *)
Module JsDate.
Import JS.

Definition msPerDay : Z := 86400000.
Definition msPerHour : Z := 3600000.
Definition msPerMinute : Z := 60000.
Definition msPerSecond : Z := 1000.

Definition Day (t : Z) : Z := t / msPerDay.
Definition TimeWithinDay (t : Z) : Z := t mod msPerDay.

Definition DayFromYear (y : Z) : Z :=
  365 * (y - 1970) + (y - 1969) / 4 - (y - 1901) / 100 + (y - 1601) / 400.

Definition isLeap (y : Z) : bool :=
  if negb (y mod 4 =? 0) then false
  else if negb (y mod 100 =? 0) then true
  else (y mod 400 =? 0).

Definition DaysInYear (y : Z) : Z := if isLeap y then 366 else 365.

(** The year of a day number, through the 400/100/4/1-year cycles counted
    from 1 January of year 1 (day -719162). *)
Definition YearFromDay (d : Z) : Z :=
  let z := d + 719162 in
  let n400 := z / 146097 in
  let r400 := z mod 146097 in
  let n100 := Z.min (r400 / 36524) 3 in
  let r100 := r400 - n100 * 36524 in
  let n4 := r100 / 1461 in
  let r4 := r100 mod 1461 in
  let n1 := Z.min (r4 / 365) 3 in
  1 + 400 * n400 + 100 * n100 + 4 * n4 + n1.

Definition YearFromTime (t : Z) : Z := YearFromDay (Day t).
Definition InLeapYear (t : Z) : Z := if isLeap (YearFromTime t) then 1 else 0.
Definition DayWithinYear (t : Z) : Z := Day t - DayFromYear (YearFromTime t).

(** Day within the year on which month [mn] (0-11) starts. *)
Definition monthStart (mn leap : Z) : Z :=
  if mn =? 0 then 0
  else if mn =? 1 then 31
  else if mn =? 2 then 59 + leap
  else if mn =? 3 then 90 + leap
  else if mn =? 4 then 120 + leap
  else if mn =? 5 then 151 + leap
  else if mn =? 6 then 181 + leap
  else if mn =? 7 then 212 + leap
  else if mn =? 8 then 243 + leap
  else if mn =? 9 then 273 + leap
  else if mn =? 10 then 304 + leap
  else 334 + leap.

Definition MonthFromTime (t : Z) : Z :=
  let d := DayWithinYear t in
  let l := InLeapYear t in
  if d <? 31 then 0
  else if d <? 59 + l then 1
  else if d <? 90 + l then 2
  else if d <? 120 + l then 3
  else if d <? 151 + l then 4
  else if d <? 181 + l then 5
  else if d <? 212 + l then 6
  else if d <? 243 + l then 7
  else if d <? 273 + l then 8
  else if d <? 304 + l then 9
  else if d <? 334 + l then 10
  else 11.

Definition DateFromTime (t : Z) : Z :=
  DayWithinYear t - monthStart (MonthFromTime t) (InLeapYear t) + 1.

Definition WeekDay (t : Z) : Z := (Day t + 4) mod 7.

Definition HourFromTime (t : Z) : Z := (t / msPerHour) mod 24.
Definition MinFromTime (t : Z) : Z := (t / msPerMinute) mod 60.
Definition SecFromTime (t : Z) : Z := (t / msPerSecond) mod 60.
Definition msFromTime (t : Z) : Z := t mod msPerSecond.

Definition MakeTime (h m s ms : Z) : Z :=
  h * msPerHour + m * msPerMinute + s * msPerSecond + ms.

(** Day number of day [dt] of month [month] of [year]; months outside 0-11
    carry into the year. *)
Definition MakeDay (year month dt : Z) : Z :=
  let ym := year + month / 12 in
  let mn := month mod 12 in
  DayFromYear ym + monthStart mn (if isLeap ym then 1 else 0) + dt - 1.

Definition MakeDate (day time : Z) : Z := day * msPerDay + time.

(** Two-digit years given to the [Date] constructor or to [Date.UTC] mean
    19xx. *)
Definition MakeFullYear (y : Z) : Z :=
  if (0 <=? y) && (y <=? 99) then 1900 + y else y.

Definition TimeClip (t : Z) : number :=
  if Z.abs t <=? 8640000000000000 then Some t else None.

(** A [Date] object: its time value, [None] when the date is invalid. *)
Abbreviation Date := (option Z).

(** [new Date(value)] for a number or another [Date]. *)
Definition new_Date (tv : number) : Date := t ← tv; TimeClip t.

Definition getTime (d : Date) : number := d.

(** [Date.UTC(year, month, date)] *)
Definition Date_UTC (year month date : number) : number :=
  y ← year; m ← month; dt ← date;
  TimeClip (MakeDate (MakeDay (MakeFullYear y) m dt) (MakeTime 0 0 0 0)).

Definition getUTCFullYear (d : Date) : number := t ← d; Some (YearFromTime t).
Definition getUTCDate (d : Date) : number := t ← d; Some (DateFromTime t).
Definition getUTCDay (d : Date) : number := t ← d; Some (WeekDay t).

Definition setUTCDate (d : Date) (date : number) : Date :=
  t ← d; dt ← date;
  TimeClip (MakeDate (MakeDay (YearFromTime t) (MonthFromTime t) dt)
                     (TimeWithinDay t)).

Definition pad (width : nat) (n : Z) : string :=
  let s := pretty n in
  String.concat EmptyString (List.repeat "0" (width - String.length s)) +:+ s.

Definition year_string (y : Z) : string :=
  if (0 <=? y) && (y <=? 9999) then pad 4 y
  else (if y <? 0 then "-" else "+") +:+ pad 6 (Z.abs y).

Definition ISOString (t : Z) : string :=
  year_string (YearFromTime t) +:+ "-" +:+ pad 2 (MonthFromTime t + 1)
  +:+ "-" +:+ pad 2 (DateFromTime t) +:+ "T" +:+ pad 2 (HourFromTime t)
  +:+ ":" +:+ pad 2 (MinFromTime t) +:+ ":" +:+ pad 2 (SecFromTime t)
  +:+ "." +:+ pad 3 (msFromTime t) +:+ "Z".

(** [toISOString()] throws on an invalid date. *)
Definition toISOString (d : Date) : result string :=
  match d with
  | None => Throw (RangeError "Invalid time value")
  | Some t => Ok (ISOString t)
  end.

(** *** Local time

    The host's zone is a fixed offset [tza] from UTC, in milliseconds. *)
Section LocalTime.
Variable tza : Z.

Definition LocalTime (t : Z) : Z := t + tza.
Definition UTC (t : Z) : Z := t - tza.

(** [new Date(year, month, date)] *)
Definition new_Date_ymd (year month date : number) : Date :=
  y ← year; m ← month; dt ← date;
  TimeClip (UTC (MakeDate (MakeDay (MakeFullYear y) m dt) (MakeTime 0 0 0 0))).

Definition getFullYear (d : Date) : number :=
  t ← d; Some (YearFromTime (LocalTime t)).
Definition getMonth (d : Date) : number :=
  t ← d; Some (MonthFromTime (LocalTime t)).
Definition getDate (d : Date) : number :=
  t ← d; Some (DateFromTime (LocalTime t)).
Definition getDay (d : Date) : number :=
  t ← d; Some (WeekDay (LocalTime t)).

Definition setHours (d : Date) (h m s ms : Z) : Date :=
  t ← d;
  let lt := LocalTime t in
  TimeClip (UTC (MakeDate (Day lt) (MakeTime h m s ms))).

Definition setDate (d : Date) (date : number) : Date :=
  t ← d; dt ← date;
  let lt := LocalTime t in
  TimeClip (UTC (MakeDate (MakeDay (YearFromTime lt) (MonthFromTime lt) dt)
                          (TimeWithinDay lt))).
End LocalTime.

End JsDate.

(* ===================================================================== *)
(** ** Week numbers *)
(* ===================================================================== *)

(** [getWeekNumber] of the edge function (also in
    [setup-test-delayed-notifications.js]). *)
Module Server_week.
Import JS JsDate.

Section getWeekNumber.
Variable tza : Z.

Definition getWeekNumber (date : Date) : number :=
  let tempDate := new_Date (getTime date) in
  let tempDate := setHours tza tempDate 0 0 0 0 in
  let tempDate :=
    setDate tza tempDate
      (num_sub (num_add (getDate tza tempDate) (Some 3))
               (num_rem (num_add (getDay tza tempDate) (Some 6)) (Some 7))) in
  let week1 := new_Date_ymd tza (getFullYear tza tempDate) (Some 0) (Some 4) in
  t ← getTime tempDate;
  w ← getTime week1;
  k ← num_rem (num_add (getDay tza week1) (Some 6)) (Some 7);
  Some (1 + Math_round
              ((inject_Z (t - w) / inject_Z 86400000 - 3 + inject_Z k) / 7)%Q).

(** The (year, week) pair as every caller forms it:
    [date.getFullYear()] next to [getWeekNumber(date)]. *)
Definition weekOf (date : Date) : number * number :=
  (getFullYear tza date, getWeekNumber date).
End getWeekNumber.

End Server_week.

(** [getWeekNumber] of the components ([DelayedDevices.tsx], the device-check
    screen, the dashboard and [WeeklyPlanner.tsx] carry the same text). *)
Module Client_week.
Import JS JsDate.

Section getWeekNumber.
Variable tza : Z.

Definition getWeekNumber (date : Date) : number :=
  let d := new_Date (Date_UTC (getFullYear tza date) (getMonth tza date)
                              (getDate tza date)) in
  let dayNum := num_or (getUTCDay d) (Some 7) in
  let d := setUTCDate d (num_sub (num_add (getUTCDate d) (Some 4)) dayNum) in
  let yearStart := new_Date (Date_UTC (getUTCFullYear d) (Some 0) (Some 1)) in
  t ← getTime d;
  y ← getTime yearStart;
  Some (Math_ceil ((inject_Z (t - y) / inject_Z 86400000 + 1) / 7)%Q).
End getWeekNumber.

End Client_week.

(** The ISO-8601 week date, on day numbers: weeks run Monday to Sunday and
    belong to the year their Thursday falls in. *)
Module IsoWeek.
Import JsDate.

(** The Thursday of the week of [day]. *)
Definition thursday (day : Z) : Z := day + 3 - (day + 3) mod 7.

(** The week-year: the calendar year of that Thursday. *)
Definition week_year (day : Z) : Z := YearFromDay (thursday day).

(** The week number: how many weeks that Thursday lies after 1 January of
    its year, counted from 1. *)
Definition week (day : Z) : Z :=
  (thursday day - DayFromYear (week_year day)) / 7 + 1.

(** The dates on which the week-number helpers are characterised: from
    8 January of year 100 (day [-682996]; earlier years run into the
    two-digit-year rule of the [Date] constructor) to ten days before the
    end of the time-value range (day [100000000]). *)
Definition first_day : Z := -682996.
Definition last_day : Z := 99999990.

Definition usual (tza t : Z) : Prop :=
  Z.abs tza <= msPerDay /\ first_day <= Day (t + tza) <= last_day.

End IsoWeek.

(* ===================================================================== *)
(** ** The key-value store *)
(* ===================================================================== *)

Module Kv.
Import JS.

(** One database request sent through the Supabase client. *)
Inductive db_request :=
  | Upsert (key : string) (value : json)
  | SelectEq (key : string)
  | DeleteEq (key : string)
  | SelectLike (pattern : string).

(** The process state a request handler works on: the rows of the KV table
    and how many times the system clock has been read. *)
Record world := World {
  rows : gmap string json;
  reads : nat
}.

(** A computation that may throw and that keeps the effects it had before
    throwing. *)
Definition M (A : Type) : Type := world -> result A * world.

Definition ret {A} (a : A) : M A := fun w => (Ok a, w).
Definition throw {A} (e : exn) : M A := fun w => (Throw e, w).
Definition bind {A B} (m : M A) (f : A -> M B) : M B :=
  fun w => match m w with
           | (Ok a, w') => f a w'
           | (Throw e, w') => (Throw e, w')
           end.
Definition lift {A} (r : result A) : M A := fun w => (r, w).

#[global] Instance M_ret : MRet M := @ret.
#[global] Instance M_bind : MBind M := fun A B f m => bind m f.

Fixpoint for_each {A} (l : list A) (body : A -> M unit) : M unit :=
  match l with
  | [] => ret tt
  | x :: r => body x;; for_each r body
  end.

(** [l.filter(p)] for a callback that may throw. *)
Fixpoint filter_r {A} (p : A -> result bool) (l : list A) : result (list A) :=
  match l with
  | [] => Ok []
  | x :: r =>
      match p x with
      | Throw e => Throw e
      | Ok b =>
          match filter_r p r with
          | Throw e => Throw e
          | Ok r' => Ok (if b then x :: r' else r')
          end
      end
  end.

(** *** The [like] filter

    The pattern language of SQL [LIKE] on UTF-8 text: [%] matches any
    sequence of characters, [_] exactly one character (a byte with its
    continuation bytes) and the backslash makes the next pattern character
    literal. *)

Fixpoint like_match (pat s : list ascii) {struct pat} : bool :=
  match pat with
  | [] => match s with [] => true | _ => false end
  | "%"%char :: pat' =>
      (fix any (s : list ascii) : bool :=
         like_match pat' s ||
         match s with
         | [] => false
         | _ :: s' => any s'
         end) s
  | "_"%char :: pat' =>
      match s with
      | [] => false
      | _ :: s' => like_match pat' (skip_continuation s')
      end
  | "\"%char :: pat' =>
      (* the escape character: the next pattern character is literal *)
      match pat' as q return (list ascii -> (list ascii -> bool) -> bool) with
      | [] => fun _ _ => false
      | c :: pat'' => fun s k =>
          match s with
          | [] => false
          | d :: s' => Ascii.eqb c d && k s'
          end
      end s (fun s' => match pat' with
                       | [] => false
                       | _ :: pat'' => like_match pat'' s'
                       end)
  | c :: pat' =>
      match s with
      | [] => false
      | d :: s' => Ascii.eqb c d && like_match pat' s'
      end
  end.

(** The REST layer in front of the table reads [*] in the value of a
    [like] filter as [%]. *)
Definition star (c : ascii) : ascii :=
  if Ascii.eqb c "*" then "%"%char else c.

(** [.like("key", pattern)] *)
Definition like (pattern key : string) : bool :=
  like_match (List.map star (list_ascii_of_string pattern))
             (list_ascii_of_string key).

(** *** The sample-data guard of [set] *)

Definition is_digit (c : ascii) : bool :=
  let n := nat_of_ascii c in ((48 <=? n) && (n <=? 57))%nat.

Definition eq_nocase (c : ascii) (upper lower : ascii) : bool :=
  Ascii.eqb c upper || Ascii.eqb c lower.

(** [/^EMP0\d+$/i.test(s)] *)
Definition sampleEmployeePattern_test (s : string) : bool :=
  match list_ascii_of_string s with
  | e :: m :: p :: z :: d :: r =>
      eq_nocase e "E" "e" && eq_nocase m "M" "m" && eq_nocase p "P" "p"
      && Ascii.eqb z "0" && forallb is_digit (d :: r)
  | _ => false
  end.

Definition sampleDeviceIds : list string :=
  ["HP-001"; "CBS-002"; "CNC-003"; "COMP-004"; "WS-005"].

(** [sampleDeviceIds.has(v)] *)
Definition sampleDeviceIds_has (v : jsval) : bool :=
  match v with
  | Some (JStr s) => existsb (String.eqb s) sampleDeviceIds
  | _ => false
  end.

(** [key.replace(/^user:/, '')] for a key that starts with [user:]. *)
Definition drop_user_prefix (key : string) : string :=
  substring 5 (String.length key - 5) key.

Section Store.
(** The [PREVENT_AUTO_SEED] environment flag. *)
Variable PREVENT_AUTO_SEED : bool.
(** What the database answers: [Some message] when the request fails. *)
Variable db_error : gmap string json -> db_request -> option string.

(** Does the guard at the head of [set] return before the upsert? *)
Definition guard_skips (key : string) (value : json) : bool :=
  if PREVENT_AUTO_SEED then
    if String.prefix "user:" key
       && (let emp := or_else (get_prop_opt (Some value) "employeeId")
                              (Some (JStr (drop_user_prefix key))) in
           ToBoolean emp && sampleEmployeePattern_test (ToString emp))
    then true
    else if String.prefix "device:" key
            && (let ident := get_prop_opt (Some value) "identificationNumber" in
                ToBoolean ident && sampleDeviceIds_has ident)
    then true
    else false
  else false.

Definition set (key : string) (value : json) : M unit :=
  fun w =>
    if guard_skips key value then (Ok tt, w)
    else
      match db_error (rows w) (Upsert key value) with
      | Some message => (Throw (Error message), w)
      | None => (Ok tt, World (<[key := value]> (rows w)) (reads w))
      end.

Definition get (key : string) : M jsval :=
  fun w =>
    match db_error (rows w) (SelectEq key) with
    | Some message => (Throw (Error message), w)
    | None => (Ok (rows w !! key), w)
    end.

Definition del (key : string) : M unit :=
  fun w =>
    match db_error (rows w) (DeleteEq key) with
    | Some message => (Throw (Error message), w)
    | None => (Ok tt, World (delete key (rows w)) (reads w))
    end.

Definition getByPrefix (prefix : string) : M (list json) :=
  fun w =>
    match db_error (rows w) (SelectLike (prefix +:+ "%")) with
    | Some message => (Throw (Error message), w)
    | None =>
        (Ok (List.map snd
               (List.filter (fun kv => like (prefix +:+ "%") (fst kv))
                            (map_to_list (rows w)))), w)
    end.
End Store.

End Kv.

(* ===================================================================== *)
(** ** The edge function *)
(* ===================================================================== *)

Module Server.
Import JS JsDate Kv.
Export Server_week.

#[global] Instance result_ret : MRet result := @Ok.
#[global] Instance result_bind : MBind result :=
  fun A B f r => match r with Ok a => f a | Throw e => Throw e end.

Record response := Response {
  status : Z;
  body : json
}.

(** Object literal: the entries of [fields], in order, on top of [base]. *)
Definition extend (base : gmap string json) (fields : list (string * jsval))
  : gmap string json :=
  fold_left (fun m kv => set_field (fst kv) (snd kv) m) fields base.

Definition object (fields : list (string * jsval)) : json :=
  JObj (extend ∅ fields).

Definition str (s : string) : jsval := Some (JStr s).

(** A number as [c.json] serialises it: [NaN] becomes [null]. *)
Definition num (n : number) : jsval :=
  match n with
  | Some z => Some (JNum z)
  | None => Some JNull
  end.

(** [c.json({ error: message }, code)] *)
Definition error_response (code : Z) (message : string) : response :=
  Response code (object [("error", str message)]).

Section Handlers.
Variable tza : Z.
Variable PREVENT_AUTO_SEED : bool.
Variable db_error : gmap string json -> db_request -> option string.
(** [clock n] is the time value the [n]-th reading of the system clock
    returns. *)
Variable clock : nat -> Z.

Let set := Kv.set PREVENT_AUTO_SEED db_error.
Let get := Kv.get db_error.
Let getByPrefix := Kv.getByPrefix db_error.

(** [new Date()] *)
Definition now : M Date :=
  fun w => (Ok (new_Date (Some (clock (reads w)))),
            World (rows w) (S (reads w))).

(** [try { ... } catch (error) { return c.json({ error: message }, 500) }] *)
Definition handler (message : string) (m : M response)
  : world -> response * world :=
  fun w => match m w with
           | (Ok r, w') => (r, w')
           | (Throw _, w') => (error_response 500 message, w')
           end.

(** *** [POST /weekly-plans] *)

Definition check_key (year week deviceId : string) : string :=
  "check:" +:+ year +:+ ":" +:+ week +:+ ":" +:+ deviceId.

Definition plan_key (year week : string) : string :=
  "plan:" +:+ year +:+ ":" +:+ week.

(** The [plan] object literal. *)
Definition new_plan (planId : string) (week year deviceIds assignedBy : jsval)
    (createdAt : string) : json :=
  object [("id", str planId); ("week", week); ("year", year);
          ("deviceIds", deviceIds); ("assignedBy", assignedBy);
          ("createdAt", str createdAt); ("status", str "planned")].

(** The [check] object literal of the loop. *)
Definition new_check (checkId : string) (deviceId : json)
    (week year : jsval) (assignedAt : string) (assignedBy : jsval) : json :=
  object [("id", str checkId); ("deviceId", Some deviceId);
          ("week", week); ("year", year); ("status", str "pending");
          ("assignedAt", str assignedAt); ("assignedBy", assignedBy)].

Definition weekly_plans_body (req : json) : M response :=
  week ← lift (get_prop (Some req) "week");
  year ← lift (get_prop (Some req) "year");
  deviceIds ← lift (get_prop (Some req) "deviceIds");
  assignedBy ← lift (get_prop (Some req) "assignedBy");
  let planId := plan_key (ToString year) (ToString week) in
  createdAt ← (d ← now; lift (toISOString d));
  let plan := new_plan planId week year deviceIds assignedBy createdAt in
  set planId plan;;
  ids ← lift (iterate deviceIds);
  for_each ids (fun deviceId =>
    let checkId :=
      check_key (ToString year) (ToString week) (ToString_json deviceId) in
    assignedAt ← (d ← now; lift (toISOString d));
    set checkId (new_check checkId deviceId week year assignedAt assignedBy));;
  mret (Response 200 (object [("success", Some (JBool true));
                              ("plan", Some plan)])).

Definition post_weekly_plans (req : json) : world -> response * world :=
  handler "Failed to create weekly plan" (weekly_plans_body req).

(** *** [PUT /checks/:checkId/complete] *)

(** The [updatedCheck] object literal. *)
Definition updated_check (check completedBy : jsval) (completedAt : string)
    (comment : jsval) : json :=
  JObj (extend (spread check)
          [("status", str "completed"); ("completedBy", completedBy);
           ("completedAt", str completedAt);
           ("comment", or_else comment (str EmptyString))]).

(** The [updatedDevice] object literal. *)
Definition updated_device (device : jsval) (completedAt : string)
    (completedBy : jsval) : json :=
  JObj (extend (spread device)
          [("lastCheckedAt", str completedAt);
           ("lastCheckedBy", completedBy)]).

(** [nextCheckDate]: a copy of [currentDate] moved by
    [plannedFrequency * 7] days of the month. *)
Definition next_check_date (currentDate : Date) (plannedFrequency : jsval)
  : Date :=
  let nextCheckDate := new_Date currentDate in
  setDate tza nextCheckDate
    (num_add (getDate tza currentDate)
             (num_mul (ToNumber plannedFrequency) (Some 7))).

(** The [nextCheck] object literal. *)
Definition next_check (nextCheckId : string) (deviceId : jsval)
    (nextWeek nextYear : number) (completedAt : string) : json :=
  object [("id", str nextCheckId); ("deviceId", deviceId);
          ("week", str (Number_toString nextWeek));
          ("year", str (Number_toString nextYear));
          ("status", str "pending"); ("assignedAt", str completedAt);
          ("assignedBy", str "system")].

Definition complete_response (updatedCheck : json) (nextCheckId : string)
    (nextWeek nextYear : number) (scheduledFor : string) : response :=
  Response 200
    (object [("success", Some (JBool true));
             ("check", Some updatedCheck);
             ("nextCheckScheduled",
              Some (object [("checkId", str nextCheckId);
                            ("week", num nextWeek);
                            ("year", num nextYear);
                            ("scheduledFor", str scheduledFor)]))]).

Definition complete_body (checkId : string) (req : json) : M response :=
  completedBy ← lift (get_prop (Some req) "completedBy");
  comment ← lift (get_prop (Some req) "comment");
  check ← get checkId;
  if negb (ToBoolean check) then mret (error_response 404 "Check not found")
  else
  deviceId ← lift (get_prop check "deviceId");
  (* [kv.get] takes [key: string]; a [deviceId] that is not a string
     reaches the query through the template conversion [`eq.${value}`] *)
  device ← get (ToString deviceId);
  if negb (ToBoolean device) then mret (error_response 404 "Device not found")
  else
  completedAt ← (d ← now; lift (toISOString d));
  let updatedCheck := updated_check check completedBy completedAt comment in
  set checkId updatedCheck;;
  let updatedDevice := updated_device device completedAt completedBy in
  set (ToString deviceId) updatedDevice;;
  currentDate ← now;
  plannedFrequency ← lift (get_prop device "plannedFrequency");
  let nextCheckDate := next_check_date currentDate plannedFrequency in
  let nextYear := getFullYear tza nextCheckDate in
  let nextWeek := getWeekNumber tza nextCheckDate in
  let nextCheckId :=
    check_key (Number_toString nextYear) (Number_toString nextWeek)
              (ToString deviceId) in
  set nextCheckId
      (next_check nextCheckId deviceId nextWeek nextYear completedAt);;
  scheduledFor ← lift (toISOString nextCheckDate);
  mret (complete_response updatedCheck nextCheckId nextWeek nextYear
                          scheduledFor).

Definition put_complete (checkId : string) (req : json)
  : world -> response * world :=
  handler "Failed to complete check" (complete_body checkId req).

(** *** [GET /delayed-checks] *)

(** The filter callback. *)
Definition is_delayed (currentYear currentWeek : number) (check : json)
  : result bool :=
  status ← get_prop (Some check) "status";
  if negb (is_string status "pending") then Ok false
  else
    year ← get_prop (Some check) "year";
    week ← get_prop (Some check) "week";
    let checkYear := parseInt year in
    let checkWeek := parseInt week in
    Ok (num_lt checkYear currentYear
        || (num_eq checkYear currentYear && num_lt checkWeek currentWeek)).

Definition delayed_checks_body : M response :=
  allChecks ← getByPrefix "check:";
  currentDate ← now;
  let currentYear := getFullYear tza currentDate in
  let currentWeek := getWeekNumber tza currentDate in
  delayedChecks ← lift (filter_r (is_delayed currentYear currentWeek) allChecks);
  mret (Response 200 (JArr delayedChecks)).

Definition get_delayed_checks : world -> response * world :=
  handler "Failed to fetch delayed checks" delayed_checks_body.
End Handlers.

End Server.

(* ===================================================================== *)
(** ** The delayed-devices screen *)
(* ===================================================================== *)

Module DelayedDevices.
Import JS JsDate.

Section Component.
(** The browser's offset from UTC and the time value [new Date()] gives. *)
Variable tza : Z.
Variable current : Z.

Definition getWeekNumber := Client_week.getWeekNumber tza.

(** [check] is the property map of a [DeviceCheck] object. *)
Definition getDaysOverdue (check : gmap string json) : number :=
  let checkYear := parseInt (check !! "year") in
  let checkWeek := parseInt (check !! "week") in
  let currentDate := new_Date (Some current) in
  let currentYear := getFullYear tza currentDate in
  let currentWeek := getWeekNumber currentDate in
  let weeksOverdue :=
    num_add (num_mul (num_sub currentYear checkYear) (Some 52))
            (num_sub currentWeek checkWeek) in
  num_mul weeksOverdue (Some 7).

Inductive badge := RecentlyOverdue | ModeratelyOverdue | CriticallyOverdue.

Definition getSeverityBadge (daysOverdue : number) : badge :=
  if num_le daysOverdue (Some 7) then RecentlyOverdue
  else if num_le daysOverdue (Some 14) then ModeratelyOverdue
  else CriticallyOverdue.

(** The category the reducer of [groupedChecks] files a check under. *)
Definition category (daysOverdue : number) : string :=
  let category := "recent" in
  if num_gt daysOverdue (Some 14) then "critical"
  else if num_gt daysOverdue (Some 7) then "moderate"
  else category.

(** [groupedChecks]: each check, with its day count, appended to the list
    of its category. *)
Definition groupedChecks (delayedChecks : list (gmap string json))
  : gmap string (list (gmap string json * number)) :=
  fold_left
    (fun (acc : gmap string (list (gmap string json * number))) check =>
       let daysOverdue := getDaysOverdue check in
       let category := category daysOverdue in
       let acc := match acc !! category with
                  | None => <[category := []]> acc
                  | Some _ => acc
                  end in
       <[category := app (default [] (acc !! category)) [(check, daysOverdue)]]> acc)
    delayedChecks ∅.
End Component.

End DelayedDevices.


(* ===================================================================== *)
(** ** Vocabulary of the statements *)
(* ===================================================================== *)

Module Outcome.
Import JS JsDate Kv Server.

(** The database answers every request. *)
Definition no_faults (db_error : gmap string json -> db_request -> option string)
  : Prop :=
  forall t r, db_error t r = None.

(** Every reading of the clock is a valid time value. *)
Definition valid_clock (clock : nat -> Z) : Prop :=
  forall n, Z.abs (clock n) <= 8640000000000000.

(** The rows after a [set] the database accepted. *)
Definition put (PREVENT_AUTO_SEED : bool) (key : string) (value : json)
    (t : gmap string json) : gmap string json :=
  if guard_skips PREVENT_AUTO_SEED key value then t else <[key := value]> t.

(** Lexicographic "strictly earlier" on (year, week) pairs of numbers; a
    [NaN] component compares with nothing. *)
Definition earlier (a b : number * number) : Prop :=
  match fst a, fst b with
  | Some y, Some cy =>
      y < cy \/ (y = cy /\ match snd a, snd b with
                            | Some w, Some cw => w < cw
                            | _, _ => False
                            end)
  | _, _ => False
  end.

(** The (year, week, deviceId) triple of a stored document, as the key
    builder reads it. *)
Definition triple (v : json) : string * string * string :=
  (ToString (get_prop_opt (Some v) "year"),
   ToString (get_prop_opt (Some v) "week"),
   ToString (get_prop_opt (Some v) "deviceId")).

Definition key_of_triple (t : string * string * string) : string :=
  check_key (fst (fst t)) (snd (fst t)) (snd t).

(** Every row in the [check:] namespace sits at the key its triple gives. *)
Definition checks_keyed (t : gmap string json) : Prop :=
  forall k v, t !! k = Some v -> String.prefix "check:" k = true ->
              k = key_of_triple (triple v).

(** The rows after the loop of [POST /weekly-plans] over [ids]: one upsert
    per id, the [n]-th clock reading stamping the first. *)
Fixpoint write_checks (clock : nat -> Z) (week year assignedBy : jsval)
    (ids : list json) (n : nat) (t : gmap string json) : gmap string json :=
  match ids with
  | [] => t
  | deviceId :: rest =>
      let checkId :=
        check_key (ToString year) (ToString week) (ToString_json deviceId) in
      write_checks clock week year assignedBy rest (S n)
        (<[checkId := new_check checkId deviceId week year
                        (ISOString (clock n)) assignedBy]> t)
  end.

End Outcome.

(* ===================================================================== *)
(** ** Sample data *)
(* ===================================================================== *)

Module Samples.
Import JS JsDate Kv Server Outcome.

(** A device, a pending and a completed check of it, and a store holding
    the device and one check. *)
Definition device_1 (plannedFrequency : Z) : json :=
  object [("id", str "device:1"); ("name", str "Press");
          ("plannedFrequency", Some (JNum plannedFrequency))].

Definition pending_check (year week : string) : json :=
  object [("id", str (check_key year week "device:1"));
          ("deviceId", str "device:1"); ("week", str week); ("year", str year);
          ("status", str "pending");
          ("assignedAt", str "2024-12-16T08:00:00.000Z");
          ("assignedBy", str "admin")].

Definition completed_check (year week : string) : json :=
  object [("id", str (check_key year week "device:1"));
          ("deviceId", str "device:1"); ("week", str week); ("year", str year);
          ("status", str "completed");
          ("assignedAt", str "2024-12-16T08:00:00.000Z");
          ("assignedBy", str "admin");
          ("completedAt", str "2024-12-20T09:00:00.000Z");
          ("completedBy", str "E1"); ("comment", str EmptyString)].

Definition sample_world (check : json) (year week : string) : world :=
  World (<[check_key year week "device:1" := check]>
           (<["device:1" := device_1 1]> ∅)) 0.

Definition healthy_db : gmap string json -> db_request -> option string :=
  fun _ _ => None.

(** 2024-12-23T00:00:00Z, a Monday, and 2025-03-03T00:00:00Z, a Monday. *)
Definition monday_2024_12_23 : Z := 1734912000000.
Definition monday_2025_03_03 : Z := 1740960000000.


(** The request body [{ completedBy, comment }]. *)
Definition request_by (employee : string) : json :=
  object [("completedBy", str employee); ("comment", str "done")].

(** Device [device:1] is checked every week; its check of week 51 of 2024
    is completed on Monday 23 December 2024 (UTC host). *)
Definition december_world : world :=
  sample_world (pending_check "2024" "51") "2024" "51".

Definition december_completion : response * world :=
  put_complete 0 false healthy_db (fun _ => monday_2024_12_23)
    "check:2024:51:device:1" (request_by "E1") december_world.

(** The same check, already completed by E1 on 20 December, is completed
    again by E2 on 23 December. *)
Definition completed_world : world :=
  sample_world (completed_check "2024" "51") "2024" "51".

Definition second_completion : response * world :=
  put_complete 0 false healthy_db (fun _ => monday_2024_12_23)
    "check:2024:51:device:1" (request_by "E2") completed_world.

(** The check planned for week 11 of 2025 is completed early, on Monday
    3 March 2025 (week 10). *)
Definition march_world : world :=
  sample_world (pending_check "2025" "11") "2025" "11".

Definition early_completion : response * world :=
  put_complete 0 false healthy_db (fun _ => monday_2025_03_03)
    "check:2025:11:device:1" (request_by "E1") march_world.

(** In week 10 of 2025: a pending check of week 8, a completed one of
    week 9 and a pending one of week 10. *)
Definition listing_world : world :=
  World (<["check:2025:8:device:1" := pending_check "2025" "8"]>
           (<["check:2025:9:device:1" := completed_check "2025" "9"]>
              (<["check:2025:10:device:1" := pending_check "2025" "10"]>
                 (<["device:1" := device_1 1]> ∅)))) 0.

(** Two plans for week 10 of 2025 that overlap on D2. *)
Definition plan_request (assignedBy : string) (deviceIds : list string) : json :=
  object [("week", str "10"); ("year", str "2025");
          ("deviceIds", Some (JArr (JStr <$> deviceIds)));
          ("assignedBy", str assignedBy)].

(** Monday 30 December 2024 (2024-12-30T00:00:00Z), a day of ISO week 1 of
    2025, with two pending checks of 2024: one of week 40, one of week 52. *)
Definition monday_2024_12_30 : Z := 1735516800000.

Definition year_end_world : world :=
  World (<["check:2024:52:device:1" := pending_check "2024" "52"]>
           (<["check:2024:40:device:1" := pending_check "2024" "40"]>
              (<["device:1" := device_1 1]> ∅))) 0.

Definition after_two_plans : world :=
  snd (post_weekly_plans false healthy_db (fun _ => monday_2025_03_03)
         (plan_request "bob" ["D2"; "D3"])
         (snd (post_weekly_plans false healthy_db (fun _ => monday_2025_03_03)
                 (plan_request "alice" ["D1"; "D2"]) (World ∅ 0)))).

End Samples.

(* ===================================================================== *)
(** ** The rest of the key-value helper *)
(* ===================================================================== *)

Module KvBatch.
Import JS Kv.

(** The requests of the helpers that address several keys: the filter
    [.in("key", keys)] under a select or a delete. *)
Inductive batch_request :=
  | SelectIn (keys : list string)
  | DeleteIn (keys : list string).

Definition key_in (keys : list string) (key : string) : bool :=
  existsb (String.eqb key) keys.

Section Store.
Variable db_error : gmap string json -> db_request -> option string.
Variable batch_error : gmap string json -> batch_request -> option string.

Definition mget (keys : list string) : M (list json) :=
  fun w =>
    match batch_error (rows w) (SelectIn keys) with
    | Some message => (Throw (Error message), w)
    | None =>
        (Ok (List.map snd
               (List.filter (fun kv => key_in keys (fst kv))
                            (map_to_list (rows w)))), w)
    end.

Definition mdel (keys : list string) : M unit :=
  fun w =>
    match batch_error (rows w) (DeleteIn keys) with
    | Some message => (Throw (Error message), w)
    | None =>
        (Ok tt, World (filter (fun kv => key_in keys (fst kv) = false) (rows w))
                      (reads w))
    end.

(** The rows, key and value, of [getByPrefixWithKeys]. *)
Definition getByPrefixWithKeys (prefix : string) : M (list (string * json)) :=
  fun w =>
    match db_error (rows w) (SelectLike (prefix +:+ "%")) with
    | Some message => (Throw (Error message), w)
    | None =>
        (Ok (List.filter (fun kv => like (prefix +:+ "%") (fst kv))
                         (map_to_list (rows w))), w)
    end.
End Store.

(** A character that the [like] filter reads as itself: none of [%], [_],
    the backslash and [*]. *)
Definition literal (c : ascii) : bool :=
  negb (Ascii.eqb c "%") && negb (Ascii.eqb c "_") && negb (Ascii.eqb c "\")
  && negb (Ascii.eqb c "*").

Definition plain (s : string) : Prop :=
  forallb literal (list_ascii_of_string s) = true.

(** A string that holds one character: a byte and its continuation
    bytes. *)
Definition one_character (s : string) : bool :=
  match list_ascii_of_string s with
  | _ :: r => forallb is_continuation r
  | [] => false
  end.

End KvBatch.

(* ===================================================================== *)
(** ** Device routes and the week listing of the edge function *)
(* ===================================================================== *)

Module DeviceRoutes.
Import JS JsDate Kv KvBatch Server.

(** [s.toLowerCase()] on the ASCII letters. *)
Definition lower (c : ascii) : ascii :=
  let n := nat_of_ascii c in
  if ((65 <=? n) && (n <=? 90))%nat then ascii_of_nat (n + 32) else c.

Definition toLowerCase (s : string) : string :=
  string_of_list_ascii (List.map lower (list_ascii_of_string s)).

(** [s.includes(part)] *)
Fixpoint includes (s part : string) : bool :=
  String.prefix part s
  || match s with
     | EmptyString => false
     | String _ rest => includes rest part
     end.

Section Routes.
Variable PREVENT_AUTO_SEED : bool.
Variable db_error : gmap string json -> db_request -> option string.
Variable clock : nat -> Z.

(** [Date.now()] *)
Definition Date_now : M Z :=
  fun w => (Ok (clock (reads w)), World (rows w) (S (reads w))).

(** *** [GET /weekly-plans/:year/:week] *)

Definition weekly_plan_body (year week : string) : M response :=
  checks ← Kv.getByPrefix db_error ("check:" +:+ year +:+ ":" +:+ week +:+ ":");
  mret (Response 200 (JArr checks)).

Definition get_weekly_plan (year week : string) : world -> response * world :=
  handler "Failed to fetch weekly plan" (weekly_plan_body year week).

(** *** [POST /devices] *)

(** The [deviceId] template: [stamp] is [Date.now()], a time value, which
    is printed with all its digits, and [suffix] is what
    [Math.random().toString(36).substr(2, 9)] gives. *)
Definition device_key (stamp : Z) (suffix : string) : string :=
  "device:" +:+ pretty stamp +:+ ":" +:+ suffix.

(** The [device] object literal: the generated id first, the request body
    spread over it, then [createdAt] and [status]. *)
Definition new_device (deviceId : string) (deviceData : json)
    (createdAt : string) : json :=
  JObj (extend (spread (Some deviceData) ∪ {["id" := JStr deviceId]})
          [("createdAt", str createdAt); ("status", str "active")]).

Definition devices_post_body (suffix : string) (deviceData : json)
  : M response :=
  stamp ← Date_now;
  let deviceId := device_key stamp suffix in
  createdAt ← (d ← now clock; lift (toISOString d));
  let device := new_device deviceId deviceData createdAt in
  Kv.set PREVENT_AUTO_SEED db_error deviceId device;;
  mret (Response 200 (object [("success", Some (JBool true));
                              ("device", Some device)])).

Definition post_devices (suffix : string) (deviceData : json)
  : world -> response * world :=
  handler "Failed to create device" (devices_post_body suffix deviceData).

(** *** [GET /devices] *)

Definition devices_body : M response :=
  devices ← Kv.getByPrefix db_error "device:";
  mret (Response 200 (JArr devices)).

Definition get_devices : world -> response * world :=
  handler "Failed to fetch devices" devices_body.

(** *** [DELETE /devices/:deviceId] *)

(** The filter callback [check.deviceId === deviceId]. *)
Definition of_device (deviceId : string) (check : json) : result bool :=
  d ← get_prop (Some check) "deviceId";
  Ok (is_string d deviceId).

Definition device_delete_body (deviceId : string) : M response :=
  device ← Kv.get db_error deviceId;
  if negb (ToBoolean device) then mret (error_response 404 "Device not found")
  else
  allChecks ← Kv.getByPrefix db_error "check:";
  deviceChecks ← lift (filter_r (of_device deviceId) allChecks);
  for_each deviceChecks (fun check =>
    id ← lift (get_prop (Some check) "id");
    Kv.del db_error (ToString id));;
  Kv.del db_error deviceId;;
  mret (Response 200
          (object [("success", Some (JBool true));
                   ("message",
                    str "Device and associated records deleted successfully")])).

Definition delete_device (deviceId : string) : world -> response * world :=
  handler "Failed to delete device" (device_delete_body deviceId).

(** *** [GET /devices/by-location/:location] *)

(** The filter callback
    [device.location.toLowerCase().includes(location.toLowerCase())]:
    only a string has [toLowerCase]. *)
Definition at_location (location : string) (device : json) : result bool :=
  loc ← get_prop (Some device) "location";
  match loc with
  | Some (JStr s) => Ok (includes (toLowerCase s) (toLowerCase location))
  | None => Throw (TypeError "Cannot read properties of undefined")
  | Some JNull => Throw (TypeError "Cannot read properties of null")
  | Some _ => Throw (TypeError "device.location.toLowerCase is not a function")
  end.

Definition by_location_body (location : string) : M response :=
  allDevices ← Kv.getByPrefix db_error "device:";
  filteredDevices ← lift (filter_r (at_location location) allDevices);
  mret (Response 200 (JArr filteredDevices)).

Definition get_devices_by_location (location : string)
  : world -> response * world :=
  handler "Failed to fetch devices by location" (by_location_body location).

(** *** [DELETE /clear-devices] *)

(** [array.length] as a JSON number. *)
Definition count {A} (l : list A) : jsval := num (Some (Z.of_nat (length l))).

Definition clear_devices_body : M response :=
  allDevicesWithKeys ← getByPrefixWithKeys db_error "device:";
  allChecksWithKeys ← getByPrefixWithKeys db_error "check:";
  allPlansWithKeys ← getByPrefixWithKeys db_error "plan:";
  for_each allDevicesWithKeys (fun row => Kv.del db_error (fst row));;
  for_each allChecksWithKeys (fun row => Kv.del db_error (fst row));;
  for_each allPlansWithKeys (fun row => Kv.del db_error (fst row));;
  mret (Response 200
          (object [("success", Some (JBool true));
                   ("message", str "All devices and checks cleared successfully");
                   ("cleared",
                    Some (object [("devices", count allDevicesWithKeys);
                                  ("checks", count allChecksWithKeys);
                                  ("plans", count allPlansWithKeys)]))])).

Definition clear_devices : world -> response * world :=
  handler "Failed to clear devices and checks" clear_devices_body.
End Routes.

End DeviceRoutes.

(** Every row in the [check:] namespace carries its own key as [id]: the
    form in which the handlers write checks, and what the cascade of
    [DELETE /devices/:deviceId] relies on when it deletes [check.id]. *)
Module Naming.
Import JS Kv Outcome.

Definition ids_are_keys (t : gmap string json) : Prop :=
  forall k v, t !! k = Some v -> String.prefix "check:" k = true ->
              get_prop_opt (Some v) "id" = Some (JStr k).

(** The rows left by the cascade for device [deviceId]. *)
Definition without_device (deviceId : string) (t : gmap string json)
  : gmap string json :=
  filter (fun kv =>
            fst kv <> deviceId
            /\ (String.prefix "check:" (fst kv)
                && is_string (get_prop_opt (Some (snd kv)) "deviceId") deviceId
                = false))
         t.

(** Both conventions of the [check:] namespace together. *)
Definition in_place (t : gmap string json) : Prop :=
  ids_are_keys t /\ checks_keyed t.

(** A computation that keeps the namespace in place, whatever it answers,
    and whose result, when it returns one, satisfies [post]. *)
Definition keeps {A} (m : M A) (post : A -> Prop) : Prop :=
  forall w, in_place (rows w) ->
            in_place (rows (snd (m w)))
            /\ forall a, fst (m w) = Ok a -> post a.

(** A value that may be written under [key]. *)
Definition fits (key : string) (v : json) : Prop :=
  String.prefix "check:" key = true ->
  get_prop_opt (Some v) "id" = Some (JStr key)
  /\ key = key_of_triple (triple v).

(** The rows outside the three namespaces [DELETE /clear-devices]
    empties. *)
Definition kept_by_clear (key : string) : bool :=
  negb (String.prefix "device:" key || String.prefix "check:" key
        || String.prefix "plan:" key).

Definition without_devices (t : gmap string json) : gmap string json :=
  filter (fun kv => kept_by_clear (fst kv) = true) t.

End Naming.

(* ===================================================================== *)
(** ** Date helpers of the screens *)
(* ===================================================================== *)

Module Screens.
Import JS JsDate.

Section Screen.
(** The browser's offset from UTC, the time value [new Date()] gives and
    the host's [toLocaleDateString]. *)
Variable tza : Z.
Variable current : Z.
Variable toLocaleDateString : Date -> string.

Definition getHours (d : Date) : number :=
  t ← d; Some (HourFromTime (LocalTime tza t)).

(** [getCurrentWeekRange] of the device-check screen: the two dates it
    formats. *)
Definition currentWeek_dates : Date * Date :=
  let currentDate := new_Date (Some current) in
  let startOfWeek := new_Date currentDate in
  let day := getDay tza startOfWeek in
  let diff :=
    num_add (num_sub (getDate tza startOfWeek) day)
            (match day with Some 0 => Some (-6) | _ => Some 1 end) in
  let startOfWeek := setDate tza startOfWeek diff in
  let endOfWeek := new_Date startOfWeek in
  let endOfWeek := setDate tza endOfWeek (num_add (getDate tza startOfWeek) (Some 6)) in
  (startOfWeek, endOfWeek).

Definition getCurrentWeekRange : string :=
  toLocaleDateString (fst currentWeek_dates) +:+ " - "
  +:+ toLocaleDateString (snd currentWeek_dates).

(** [getWeekDateRange(year, week)] of the delayed-devices screen: the two
    dates it formats.  [ISOweekStart] is the object [simple] itself. *)
Definition weekDateRange_dates (year week : number) : Date * Date :=
  let simple :=
    new_Date_ymd tza year (Some 0)
      (num_add (Some 1) (num_mul (num_sub week (Some 1)) (Some 7))) in
  let dow := getDay tza simple in
  let ISOweekStart :=
    if num_le dow (Some 4)
    then setDate tza simple
           (num_add (num_sub (getDate tza simple) (getDay tza simple)) (Some 1))
    else setDate tza simple
           (num_sub (num_add (getDate tza simple) (Some 8)) (getDay tza simple)) in
  let weekEnd := new_Date ISOweekStart in
  let weekEnd := setDate tza weekEnd (num_add (getDate tza ISOweekStart) (Some 6)) in
  (ISOweekStart, weekEnd).

Definition getWeekDateRange (year week : number) : string :=
  toLocaleDateString (fst (weekDateRange_dates year week)) +:+ " - "
  +:+ toLocaleDateString (snd (weekDateRange_dates year week)).

(** [getNextMondayGST] *)
Definition getNextMondayGST : Date :=
  let now := new_Date (Some current) in
  let gstNow := new_Date (num_add (getTime now) (Some (4 * 60 * 60 * 1000))) in
  let dayOfWeek := getDay tza gstNow in
  let daysUntilMonday :=
    match dayOfWeek with
    | Some 0 => Some 1
    | _ => num_sub (Some 8) dayOfWeek
    end in
  let daysUntilMonday :=
    if num_eq dayOfWeek (Some 1) && num_lt (getHours gstNow) (Some 7)
    then Some 0 else daysUntilMonday in
  let nextMonday := new_Date gstNow in
  let nextMonday :=
    setDate tza nextMonday (num_add (getDate tza gstNow) daysUntilMonday) in
  setHours tza nextMonday 7 0 0 0.
End Screen.

(** *** The weekly planner *)

Section Planner.
Variable tza : Z.

(** [getWeekEndDate] *)
Definition getWeekEndDate (startDate : Date) : Date :=
  let endDate := new_Date startDate in
  let daysUntilSunday :=
    num_rem (num_sub (Some 7) (getDay tza startDate)) (Some 7) in
  setDate tza endDate (num_add (getDate tza startDate) daysUntilSunday).
End Planner.

(** [isDeviceDueForCheck]: [selectedWeek] is the week of the planner, kept
    as a string. *)
Definition isDeviceDueForCheck (selectedWeek : string)
    (device : gmap string json) : bool :=
  let currentWeekNum := parseInt_string selectedWeek in
  let deviceFreq := ToNumber (device !! "plannedFrequency") in
  num_eq (num_rem currentWeekNum deviceFreq) (Some 0).

Definition getSuggestedDevices (selectedWeek : string)
    (devices : list (gmap string json)) : list (gmap string json) :=
  List.filter (isDeviceDueForCheck selectedWeek) devices.

(** [handleDeviceToggle]: the new value of [selectedDevices]. *)
Definition handleDeviceToggle (deviceId : string) (prev : list string)
  : list string :=
  if existsb (String.eqb deviceId) prev
  then List.filter (fun id => negb (String.eqb id deviceId)) prev
  else prev ++ [deviceId].

(** The recipients picked in the notification dialog. *)
Definition handleEmployeeAdd (employeeId : string) (tempSelectedEmployees : list string)
  : list string :=
  if negb (existsb (String.eqb employeeId) tempSelectedEmployees)
  then tempSelectedEmployees ++ [employeeId]
  else tempSelectedEmployees.

Definition handleEmployeeRemove (employeeId : string)
    (tempSelectedEmployees : list string) : list string :=
  List.filter (fun id => negb (String.eqb id employeeId)) tempSelectedEmployees.

End Screens.

(* ===================================================================== *)
(** ** More sample data *)
(* ===================================================================== *)

Module MoreSamples.
Import JS JsDate Kv KvBatch Server Samples.

(** The letter e with an acute accent: one character, two bytes. *)
Definition e_acute : string :=
  String (ascii_of_nat 195) (String (ascii_of_nat 169) EmptyString).

Definition healthy_batch : gmap string json -> batch_request -> option string :=
  fun _ _ => None.

(** A request body for a new device; it asks for a status of its own. *)
Definition press (identificationNumber : string) : gmap string json :=
  extend ∅ [("name", str "Press");
            ("identificationNumber", str identificationNumber);
            ("location", str "Hall A");
            ("plannedFrequency", Some (JNum 1));
            ("status", str "retired")].

Definition check_fields (deviceId year week : string) : gmap string json :=
  extend ∅ [("id", str (check_key year week deviceId));
            ("deviceId", str deviceId); ("week", str week); ("year", str year);
            ("status", str "pending"); ("assignedBy", str "admin")].

Definition check_of (deviceId year week : string) : json :=
  JObj (check_fields deviceId year week).

(** The store of [listing_world] with a second device and one check of
    it. *)
Definition workshop : world :=
  World (<["check:2025:8:device:2" := check_of "device:2" "2025" "8"]>
           (<["device:2" := JObj (press "P-2")]> (rows listing_world))) 0.

(** A clock that starts on Monday 3 March 2025 and advances by a second
    at every reading. *)
Definition ticking (n : nat) : Z := monday_2025_03_03 + Z.of_nat n * 1000.

(** A sample device, stored under a [device:] key, and a check of it. *)
Definition sample_store : world :=
  World (<["check:2025:9:device:7" := check_of "device:7" "2025" "9"]>
           (<["device:7" := JObj (press "HP-001")]> ∅)) 0.

(** A device without a [plannedFrequency], and a check of it. *)
Definition lathe : gmap string json :=
  extend ∅ [("name", str "Lathe"); ("location", str "Hall B")].

Definition bare_store : world :=
  World (<["check:2025:9:device:8" := check_of "device:8" "2025" "9"]>
           (<["device:8" := JObj lathe]> ∅)) 0.

(** A plan request with an arbitrary [deviceIds]. *)
Definition plan_for (deviceIds : jsval) : json :=
  object [("week", str "10"); ("year", str "2025");
          ("deviceIds", deviceIds); ("assignedBy", str "alice")].

(** Wednesday 5 March 2025, 10:00 UTC. *)
Definition wednesday_2025_03_05 : Z := monday_2025_03_03 + 2 * 86400000 + 36000000.

End MoreSamples.

(* ===================================================================== *)
(** ** Facts about dates *)
(* ===================================================================== *)

Module DateFacts.
Import JS JsDate.

Lemma DayFromYear_succ y : DayFromYear (y + 1) = DayFromYear y + DaysInYear y.
Proof.
  unfold DayFromYear, DaysInYear, isLeap.
  repeat match goal with |- context [?a =? ?b] => destruct (Z.eqb_spec a b) end;
    simpl; Z.to_euclidean_division_equations; lia.
Qed.

Lemma DayFromYear_mono y1 y2 : y1 <= y2 -> DayFromYear y1 <= DayFromYear y2.
Proof. unfold DayFromYear. intros. Z.to_euclidean_division_equations; lia. Qed.

(** [YearFromDay d] is the year whose days include [d]: the largest [y] with
    [DayFromYear y <= d]. *)
Lemma YearFromDay_spec d :
  DayFromYear (YearFromDay d) <= d < DayFromYear (YearFromDay d + 1).
Proof.
  unfold YearFromDay, DayFromYear.
  set (z := d + 719162).
  destruct (Z.min_spec (z mod 146097 / 36524) 3) as [[H1 ->]|[H1 ->]];
  set (r100 := z mod 146097 - _ * 36524);
  destruct (Z.min_spec (r100 mod 1461 / 365) 3) as [[H2 ->]|[H2 ->]];
  subst r100 z; Z.to_euclidean_division_equations; lia.
Qed.

Lemma YearFromDay_unique d y :
  DayFromYear y <= d < DayFromYear (y + 1) -> YearFromDay d = y.
Proof.
  intros [Hl Hu]. pose proof (YearFromDay_spec d) as [Sl Su].
  destruct (Z.lt_trichotomy (YearFromDay d) y) as [Hlt | [-> | Hgt]]; [| done |].
  - pose proof (DayFromYear_mono (YearFromDay d + 1) y). lia.
  - pose proof (DayFromYear_mono (y + 1) (YearFromDay d)). lia.
Qed.

Lemma YearFromDay_ge y d : DayFromYear y <= d -> y <= YearFromDay d.
Proof.
  intros H. pose proof (YearFromDay_spec d) as [_ Su].
  destruct (Z.le_gt_cases y (YearFromDay d)) as [|Hlt]; [done |].
  pose proof (DayFromYear_mono (YearFromDay d + 1) y). lia.
Qed.

Lemma MonthFromTime_range t : 0 <= MonthFromTime t <= 11.
Proof.
  unfold MonthFromTime.
  repeat match goal with |- context [?a <? ?b] => destruct (a <? b) end; lia.
Qed.

(** Moving the day of the month moves the day number by as much. *)
Lemma MakeDay_shift t dt :
  MakeDay (YearFromTime t) (MonthFromTime t) dt = Day t + (dt - DateFromTime t).
Proof.
  pose proof (MonthFromTime_range t) as Hm.
  unfold MakeDay, DateFromTime, DayWithinYear.
  rewrite Z.div_small, Z.add_0_r, Z.mod_small by lia.
  fold (InLeapYear t). lia.
Qed.

Lemma MakeDay_january y dt :
  MakeDay y 0 dt = DayFromYear y + dt - 1.
Proof.
  unfold MakeDay. cbv zeta. change (0 / 12) with 0. change (0 mod 12) with 0.
  rewrite (Z.add_0_r y). change (monthStart 0 _) with 0. lia.
Qed.

Lemma Day_of_days d : Day (d * msPerDay) = d.
Proof. unfold Day, msPerDay. apply Z.div_mul. lia. Qed.

Lemma TimeWithinDay_of_days d : TimeWithinDay (d * msPerDay) = 0.
Proof. unfold TimeWithinDay, msPerDay. apply Z.mod_mul. lia. Qed.

Lemma Day_add_days t k : Day (t + k * msPerDay) = Day t + k.
Proof. unfold Day, msPerDay. apply Z.div_add. lia. Qed.

Lemma TimeClip_valid t : Z.abs t <= 8640000000000000 -> TimeClip t = Some t.
Proof. intros H. unfold TimeClip. by rewrite (proj2 (Z.leb_le _ _) H). Qed.

Lemma TimeClip_Some t u : TimeClip t = Some u -> u = t /\ Z.abs t <= 8640000000000000.
Proof.
  unfold TimeClip. destruct (Z.leb_spec (Z.abs t) 8640000000000000); naive_solver.
Qed.

Section Local.
Variable tza : Z.

(** [d.setDate(n)] moves the time value by whole days. *)
Lemma setDate_shift t dt :
  setDate tza (Some t) (Some dt)
  = TimeClip (t + (dt - DateFromTime (t + tza)) * msPerDay).
Proof.
  unfold setDate, LocalTime, UTC, MakeDate. simpl.
  rewrite MakeDay_shift. f_equal.
  unfold Day, TimeWithinDay, msPerDay.
  Z.to_euclidean_division_equations; lia.
Qed.

Lemma setDate_getDate_plus t k :
  setDate tza (Some t) (num_add (getDate tza (Some t)) (Some k))
  = TimeClip (t + k * msPerDay).
Proof.
  change (num_add (getDate tza (Some t)) (Some k))
    with (Some (DateFromTime (t + tza) + k)).
  rewrite setDate_shift. f_equal. lia.
Qed.
End Local.

Lemma setUTCDate_shift t dt :
  setUTCDate (Some t) (Some dt) = TimeClip (t + (dt - DateFromTime t) * msPerDay).
Proof.
  unfold setUTCDate, MakeDate. simpl.
  rewrite MakeDay_shift. f_equal.
  unfold Day, TimeWithinDay, msPerDay.
  Z.to_euclidean_division_equations; lia.
Qed.

(** Rounding of the two week quotients. *)
Lemma Math_round_days (a k q : Z) :
  a - 3 + k = 7 * q ->
  Math_round ((inject_Z (a * 86400000) / inject_Z 86400000 - 3 + inject_Z k) / 7)%Q
  = q.
Proof.
  intros H. unfold Math_round.
  assert (E : ((inject_Z (a * 86400000) / inject_Z 86400000 - 3 + inject_Z k) / 7
               + (1 # 2) == (2 * q + 1) # 2)%Q).
  { unfold Qeq, Qdiv, Qplus, Qminus, Qmult, Qinv, Qopp, inject_Z; simpl. lia. }
  rewrite E. unfold Qfloor. Z.to_euclidean_division_equations; lia.
Qed.

Lemma Math_ceil_days (n : Z) :
  Math_ceil ((inject_Z (n * 86400000) / inject_Z 86400000 + 1) / 7)%Q = n / 7 + 1.
Proof.
  unfold Math_ceil.
  assert (E : ((inject_Z (n * 86400000) / inject_Z 86400000 + 1) / 7
               == (n + 1) # 7)%Q).
  { unfold Qeq, Qdiv, Qplus, Qminus, Qmult, Qinv, Qopp, inject_Z; simpl. lia. }
  rewrite E. unfold Qceiling, Qfloor, Qopp. simpl.
  Z.to_euclidean_division_equations; lia.
Qed.

End DateFacts.

(* ===================================================================== *)
(** ** Facts about the week-number helpers *)
(* ===================================================================== *)

Module WeekFacts.
Import JS JsDate DateFacts IsoWeek.

(** The week number of [IsoWeek] is the ISO one: the week of 4 January is
    week 1 of its year, and every week number lies between 1 and 53. *)
Lemma thursday_near d : d - 3 <= thursday d <= d + 3.
Proof. unfold thursday. Z.to_euclidean_division_equations; lia. Qed.

Lemma week_of_january_4 y :
  week (DayFromYear y + 3) = 1 /\ week_year (DayFromYear y + 3) = y.
Proof.
  pose proof (thursday_near (DayFromYear y + 3)) as Hn.
  assert (Hy : week_year (DayFromYear y + 3) = y).
  { apply YearFromDay_unique. rewrite DayFromYear_succ. unfold DaysInYear.
    destruct (isLeap y); lia. }
  split; [| done]. unfold week. rewrite Hy.
  Z.to_euclidean_division_equations; lia.
Qed.

Lemma week_range d : 1 <= week d <= 53.
Proof.
  unfold week, week_year.
  pose proof (YearFromDay_spec (thursday d)) as [Hl Hu].
  rewrite DayFromYear_succ in Hu. unfold DaysInYear in Hu.
  destruct (isLeap _); Z.to_euclidean_division_equations; lia.
Qed.

Lemma usual_time tza t : usual tza t -> Z.abs t <= 8640000000000000.
Proof.
  unfold usual, Day, first_day, last_day, msPerDay. intros [H1 H2].
  Z.to_euclidean_division_equations; lia.
Qed.

(** Below [10^21] a number is printed with all its digits. *)
Lemma Number_toString_small z :
  Z.abs z < 1000000000000000000000 -> JS.Number_toString (Some z) = pretty z.
Proof.
  intros H. unfold JS.Number_toString.
  by rewrite (proj2 (Z.ltb_lt _ _) H).
Qed.

(** The year of a usual date has at most six digits. *)
Lemma usual_year tza t : usual tza t -> 0 <= YearFromTime (t + tza) < 300000.
Proof.
  intros [_ [Hl Hu]]. unfold YearFromTime.
  pose proof (YearFromDay_spec (Day (t + tza))) as [Hy _].
  split.
  - transitivity 100; [lia |]. apply YearFromDay_ge.
    change (DayFromYear 100) with (-683003). unfold first_day in Hl. lia.
  - destruct (Z.lt_ge_cases (YearFromDay (Day (t + tza))) 300000) as [| Hge];
      [done |].
    apply DayFromYear_mono in Hge.
    change (DayFromYear 300000) with 108853222 in Hge.
    unfold last_day in Hu. lia.
Qed.

Lemma MakeFullYear_late y : 100 <= y -> MakeFullYear y = y.
Proof.
  intros H. unfold MakeFullYear.
  destruct (Z.leb_spec y 99); [lia |]. by rewrite andb_false_r.
Qed.

Lemma thursday_year d : first_day <= d -> 100 <= YearFromDay (thursday d).
Proof.
  intros H. apply YearFromDay_ge. unfold thursday, first_day in *.
  change (DayFromYear 100) with (-683003).
  Z.to_euclidean_division_equations; lia.
Qed.

Section Local.
Variable tza : Z.

Lemma local_midnight d : LocalTime tza (d * msPerDay - tza) = d * msPerDay.
Proof. unfold LocalTime. lia. Qed.

Lemma setHours_midnight t :
  setHours tza (Some t) 0 0 0 0 = TimeClip (Day (t + tza) * msPerDay - tza).
Proof. unfold setHours, LocalTime, UTC, MakeDate, MakeTime. simpl. f_equal. lia. Qed.

Lemma getDate_midnight d :
  getDate tza (Some (d * msPerDay - tza)) = Some (DateFromTime (d * msPerDay)).
Proof. unfold getDate. simpl. by rewrite local_midnight. Qed.

Lemma getDay_midnight d :
  getDay tza (Some (d * msPerDay - tza)) = Some ((d + 4) mod 7).
Proof.
  unfold getDay. simpl. rewrite local_midnight. unfold WeekDay.
  by rewrite Day_of_days.
Qed.

Lemma getFullYear_midnight d :
  getFullYear tza (Some (d * msPerDay - tza)) = Some (YearFromDay d).
Proof.
  unfold getFullYear. simpl. rewrite local_midnight. unfold YearFromTime.
  by rewrite Day_of_days.
Qed.

Lemma setDate_midnight d dt :
  setDate tza (Some (d * msPerDay - tza)) (Some dt)
  = TimeClip ((d + (dt - DateFromTime (d * msPerDay))) * msPerDay - tza).
Proof.
  rewrite setDate_shift. f_equal.
  replace (d * msPerDay - tza + tza) with (d * msPerDay) by lia. lia.
Qed.

Lemma new_Date_january_4 y :
  100 <= y ->
  new_Date_ymd tza (Some y) (Some 0) (Some 4)
  = TimeClip ((DayFromYear y + 3) * msPerDay - tza).
Proof.
  intros H. unfold new_Date_ymd, UTC, MakeDate, MakeTime. simpl.
  rewrite MakeFullYear_late, MakeDay_january by done. f_equal. lia.
Qed.

(** The server's helper, on usual dates. *)
Lemma server_getWeekNumber t :
  usual tza t ->
  Server_week.getWeekNumber tza (Some t) = Some (week (Day (t + tza))).
Proof.
  intros Hu. pose proof (usual_time _ _ Hu) as Ht. destruct Hu as [Hz [Hlo Hhi]].
  set (D := Day (t + tza)) in *.
  assert (HTh : thursday D = D + 3 - Z.rem ((D + 4) mod 7 + 6) 7).
  { unfold thursday. Z.to_euclidean_division_equations; lia. }
  pose proof (thursday_year D Hlo) as Hy.
  pose proof (YearFromDay_spec (thursday D)) as [Hs1 Hs2].
  pose proof (DayFromYear_mono 100 _ Hy) as Hm.
  change (DayFromYear 100) with (-683003) in Hm.
  assert (Hth : D - 3 <= thursday D <= D + 3).
  { unfold thursday. Z.to_euclidean_division_equations; lia. }
  unfold first_day, last_day, msPerDay in *.
  unfold Server_week.getWeekNumber, getTime, new_Date. simpl.
  rewrite (TimeClip_valid t) by done.
  rewrite setHours_midnight. fold D.
  rewrite (TimeClip_valid (D * msPerDay - tza)) by (unfold msPerDay; lia).
  rewrite getDate_midnight, getDay_midnight.
  change (num_sub (num_add (Some ?a) (Some 3)) (num_rem (num_add (Some ?b) (Some 6)) (Some 7)))
    with (Some (a + 3 - Z.rem (b + 6) 7)).
  rewrite setDate_midnight.
  replace (D + (_ - _)) with (thursday D) by lia.
  rewrite (TimeClip_valid (thursday D * msPerDay - tza)) by (unfold msPerDay; lia).
  rewrite getFullYear_midnight, new_Date_january_4 by done.
  rewrite (TimeClip_valid ((_ + 3) * msPerDay - tza)) by (unfold msPerDay; lia).
  rewrite getDay_midnight. simpl.
  f_equal. unfold week, week_year.
  replace (thursday D * msPerDay - tza
           - ((DayFromYear (YearFromDay (thursday D)) + 3) * msPerDay - tza))
    with ((thursday D - (DayFromYear (YearFromDay (thursday D)) + 3)) * 86400000)
    by (unfold msPerDay; lia).
  rewrite (Math_round_days _ _
             ((thursday D - DayFromYear (YearFromDay (thursday D))) / 7)); [lia |].
  unfold thursday in *. Z.to_euclidean_division_equations; lia.
Qed.
Lemma year_late t : first_day <= Day t -> 100 <= YearFromTime t.
Proof.
  intros H. apply YearFromDay_ge. unfold first_day in H.
  change (DayFromYear 100) with (-683003). lia.
Qed.

(** The components' helper, on usual dates. *)
Lemma client_getWeekNumber t :
  usual tza t ->
  Client_week.getWeekNumber tza (Some t) = Some (week (Day (t + tza))).
Proof.
  intros Hu. destruct Hu as [Hz [Hlo Hhi]].
  pose proof (year_late _ Hlo) as Hy0.
  set (D := Day (t + tza)) in *.
  pose proof (thursday_year D Hlo) as Hy.
  pose proof (YearFromDay_spec (thursday D)) as [Hs1 Hs2].
  pose proof (DayFromYear_mono 100 _ Hy) as Hm.
  change (DayFromYear 100) with (-683003) in Hm.
  assert (Hth : D - 3 <= thursday D <= D + 3).
  { unfold thursday. Z.to_euclidean_division_equations; lia. }
  unfold first_day, last_day in *.
  unfold Client_week.getWeekNumber.
  assert (E1 : Date_UTC (getFullYear tza (Some t)) (getMonth tza (Some t))
                 (getDate tza (Some t)) = Some (D * msPerDay)).
  { unfold Date_UTC, getFullYear, getMonth, getDate, LocalTime, MakeDate, MakeTime.
    simpl. rewrite MakeFullYear_late, MakeDay_shift by done.
    fold D. rewrite TimeClip_valid; [f_equal; lia | unfold msPerDay; lia]. }
  rewrite E1.
  change (new_Date (Some (D * msPerDay))) with (TimeClip (D * msPerDay)).
  rewrite (TimeClip_valid (D * msPerDay)) by (unfold msPerDay; lia).
  assert (E2 : setUTCDate (Some (D * msPerDay))
                 (num_sub (num_add (getUTCDate (Some (D * msPerDay))) (Some 4))
                    (num_or (getUTCDay (Some (D * msPerDay))) (Some 7)))
               = Some (thursday D * msPerDay)).
  { unfold getUTCDay, getUTCDate, WeekDay. cbn [mbind option_bind].
    rewrite Day_of_days.
    assert (Hd : num_or (Some ((D + 4) mod 7)) (Some 7)
                 = Some (4 - (thursday D - D))).
    { unfold thursday, num_or. destruct ((D + 4) mod 7) eqn:E; f_equal;
        Z.to_euclidean_division_equations; lia. }
    rewrite Hd.
    change (num_sub (num_add (Some ?a) (Some 4)) (Some ?b)) with (Some (a + 4 - b)).
    rewrite setUTCDate_shift.
    rewrite TimeClip_valid; [f_equal; lia | unfold msPerDay; lia]. }
  rewrite E2.
  assert (E3 : Date_UTC (getUTCFullYear (Some (thursday D * msPerDay))) (Some 0) (Some 1)
               = Some (DayFromYear (YearFromDay (thursday D)) * msPerDay)).
  { unfold getUTCFullYear, YearFromTime, Date_UTC. cbn [mbind option_bind].
    rewrite Day_of_days, MakeFullYear_late, MakeDay_january by done.
    unfold MakeDate, MakeTime.
    rewrite TimeClip_valid; [f_equal; lia | unfold msPerDay; lia]. }
  rewrite E3. unfold new_Date, getTime. cbn [mbind option_bind].
  rewrite TimeClip_valid by (unfold msPerDay; lia). cbn [mbind option_bind].
  f_equal. unfold week, week_year.
  replace (thursday D * msPerDay
           - DayFromYear (YearFromDay (thursday D)) * msPerDay)
    with ((thursday D - DayFromYear (YearFromDay (thursday D))) * 86400000)
    by (unfold msPerDay; lia).
  apply Math_ceil_days.
Qed.
End Local.

End WeekFacts.

(* ===================================================================== *)
(** ** Facts about the store and the handlers *)
(* ===================================================================== *)

Module HandlerFacts.
Import JS JsDate Kv Server Outcome DateFacts.

Lemma lookup_set_field k v (m : gmap string json) k' :
  set_field k v m !! k' = if decide (k = k') then v else m !! k'.
Proof.
  unfold set_field. destruct v; case_decide; simplify_map_eq; done.
Qed.

Lemma get_prop_truthy v k :
  ToBoolean v = true -> get_prop v k = Ok (get_prop_opt v k).
Proof. by destruct v as [[]|]. Qed.

Lemma get_prop_request req k :
  req <> JNull -> get_prop (Some req) k = Ok (get_prop_opt (Some req) k).
Proof. by destruct req. Qed.

Lemma check_key_prefix y w d : String.prefix "check:" (check_key y w d) = true.
Proof.
  unfold check_key. cbn. by destruct (y +:+ ":" +:+ w +:+ ":" +:+ d).
Qed.

Lemma check_prefix_not_sample key :
  String.prefix "check:" key = true ->
  String.prefix "user:" key = false /\ String.prefix "device:" key = false.
Proof.
  destruct key as [|a key]; [done |].
  destruct (Ascii.ascii_dec "c" a) as [<- | Hne].
  - intros _. split; reflexivity.
  - change (String.prefix "check:" (String a key))
      with (if Ascii.ascii_dec "c" a then String.prefix "heck:" key else false).
    destruct (Ascii.ascii_dec "c" a); [done | discriminate].
Qed.

Section Run.
Variable tza : Z.
Variable PREVENT_AUTO_SEED : bool.
Variable db_error : gmap string json -> db_request -> option string.
Variable clock : nat -> Z.
Hypothesis healthy : no_faults db_error.

Lemma guard_check_key key v :
  String.prefix "check:" key = true -> guard_skips PREVENT_AUTO_SEED key v = false.
Proof.
  intros [Hu Hd]%check_prefix_not_sample. unfold guard_skips.
  rewrite Hu, Hd. by destruct PREVENT_AUTO_SEED.
Qed.

Lemma run_set {A} key v (k : unit -> M A) w :
  (Kv.set PREVENT_AUTO_SEED db_error key v ≫= k) w
  = k tt (World (put PREVENT_AUTO_SEED key v (rows w)) (reads w)).
Proof.
  unfold mbind, M_bind, bind, set, put. rewrite healthy.
  destruct (guard_skips _ _ _); [by destruct w | done].
Qed.

Lemma run_get {A} key (k : jsval -> M A) w :
  (Kv.get db_error key ≫= k) w = k (rows w !! key) w.
Proof. unfold mbind, M_bind, bind, get. by rewrite healthy. Qed.

Lemma run_lift {A B} (a : A) (k : A -> M B) w : (lift (Ok a) ≫= k) w = k a w.
Proof. done. Qed.

Lemma run_now {A} (k : Date -> M A) w :
  (now clock ≫= k) w
  = k (new_Date (Some (clock (reads w)))) (World (rows w) (S (reads w))).
Proof. done. Qed.

Lemma run_now_iso {A} (k : string -> M A) w :
  Z.abs (clock (reads w)) <= 8640000000000000 ->
  ((now clock ≫= fun d => lift (toISOString d)) ≫= k) w
  = k (ISOString (clock (reads w))) (World (rows w) (S (reads w))).
Proof.
  intros H. unfold mbind, M_bind, bind, now, lift, new_Date. simpl.
  by rewrite TimeClip_valid.
Qed.

Lemma next_check_date_days t f :
  Z.abs t <= 8640000000000000 ->
  next_check_date tza (new_Date (Some t)) (Some (JNum f))
  = TimeClip (t + f * 7 * msPerDay).
Proof.
  intros H. unfold next_check_date, new_Date. simpl.
  rewrite (TimeClip_valid t) by done. simpl.
  rewrite (TimeClip_valid t) by done.
  change (num_mul (Some f) (Some 7)) with (Some (f * 7)).
  apply setDate_getDate_plus.
Qed.

(** What a completion does once the check and its device are found. *)
Lemma complete_run checkId req w check device :
  req <> JNull ->
  rows w !! checkId = Some check ->
  ToBoolean (Some check) = true ->
  rows w !! ToString (get_prop_opt (Some check) "deviceId") = Some device ->
  ToBoolean (Some device) = true ->
  Z.abs (clock (reads w)) <= 8640000000000000 ->
  let completedBy := get_prop_opt (Some req) "completedBy" in
  let comment := get_prop_opt (Some req) "comment" in
  let deviceId := get_prop_opt (Some check) "deviceId" in
  let completedAt := ISOString (clock (reads w)) in
  let updatedCheck := updated_check (Some check) completedBy completedAt comment in
  let updatedDevice := updated_device (Some device) completedAt completedBy in
  let nextCheckDate :=
    next_check_date tza (new_Date (Some (clock (S (reads w)))))
                    (get_prop_opt (Some device) "plannedFrequency") in
  let nextYear := getFullYear tza nextCheckDate in
  let nextWeek := getWeekNumber tza nextCheckDate in
  let nextCheckId :=
    check_key (Number_toString nextYear) (Number_toString nextWeek)
              (ToString deviceId) in
  put_complete tza PREVENT_AUTO_SEED db_error clock checkId req w
  = (match nextCheckDate with
     | Some t => complete_response updatedCheck nextCheckId nextWeek nextYear
                                   (ISOString t)
     | None => error_response 500 "Failed to complete check"
     end,
     World (<[nextCheckId :=
                next_check nextCheckId deviceId nextWeek nextYear completedAt]>
              (put PREVENT_AUTO_SEED (ToString deviceId) updatedDevice
                 (put PREVENT_AUTO_SEED checkId updatedCheck (rows w))))
           (S (S (reads w)))).
Proof.
  intros Hreq Hc Hct Hd Hdt Hclk. cbv zeta.
  unfold put_complete, handler, complete_body.
  rewrite !(get_prop_request req) by done.
  rewrite !run_lift, run_get, Hc, Hct. cbn [negb].
  rewrite (get_prop_truthy (Some check)) by done.
  rewrite run_lift, run_get, Hd, Hdt. cbn [negb].
  rewrite run_now_iso by done.
  rewrite run_set, run_set, run_now.
  rewrite (get_prop_truthy (Some device)) by done.
  rewrite run_lift. cbn [rows reads].
  rewrite run_set. cbn [rows reads].
  unfold put at 1. rewrite guard_check_key by apply check_key_prefix.
  destruct (next_check_date _ _ _) as [t|]; done.
Qed.
End Run.

End HandlerFacts.

(* ===================================================================== *)
(** ** The model on known values *)
(* ===================================================================== *)

Module Sanity.
Import JS JsDate Kv KvBatch IsoWeek MoreSamples.

Example epoch : ISOString 0 = "1970-01-01T00:00:00.000Z".
Proof. reflexivity. Qed.

Example before_epoch : ISOString (-1) = "1969-12-31T23:59:59.999Z".
Proof. reflexivity. Qed.

Example leap_day : ISOString 1709210096789 = "2024-02-29T12:34:56.789Z".
Proof. vm_compute. reflexivity. Qed.

Example epoch_was_a_thursday : WeekDay 0 = 4.
Proof. reflexivity. Qed.

(** A Sunday in week 53: 3 January 2021. *)
Example week_53 :
  ISOString 1609632000000 = "2021-01-03T00:00:00.000Z"
  /\ Server_week.getWeekNumber 0 (Some 1609632000000) = Some 53
  /\ Client_week.getWeekNumber 0 (Some 1609632000000) = Some 53.
Proof. vm_compute. done. Qed.

Example invalid_date_has_no_week : Server_week.getWeekNumber 0 None = None.
Proof. reflexivity. Qed.

Example out_of_range : TimeClip 8640000000000001 = None.
Proof. reflexivity. Qed.

Example parseInt_examples :
  parseInt (Some (JStr "10")) = Some 10
  /\ parseInt (Some (JNum 2025)) = Some 2025
  /\ parseInt (Some (JStr "  42px")) = Some 42
  /\ parseInt (Some (JStr "-0x1f")) = Some (-31)
  /\ parseInt (Some (JStr "week")) = None
  /\ parseInt None = None.
Proof. vm_compute. done. Qed.

Example ToNumber_examples :
  ToNumber (Some (JNum 2)) = Some 2
  /\ ToNumber (Some (JStr " 12 ")) = Some 12
  /\ ToNumber (Some (JStr EmptyString)) = Some 0
  /\ ToNumber (Some (JStr "0x10")) = Some 16
  /\ ToNumber (Some (JStr "two")) = None
  /\ ToNumber (Some JNull) = Some 0
  /\ ToNumber None = None.
Proof. vm_compute. done. Qed.

Example ToString_examples :
  ToString None = "undefined"
  /\ ToString (Some (JNum (-7))) = "-7"
  /\ ToString (Some (JArr [JNum 1; JNull; JStr "a"])) = "1,,a"
  /\ ToString (Some (JObj ∅)) = "[object Object]".
Proof. vm_compute. done. Qed.

Example like_examples :
  like "check:%" "check:2025:10:device:1" = true
  /\ like "check:%" "device:1" = false
  /\ like "check:2025:1:%" "check:2025:10:device:1" = false
  /\ like "a_c%" "abcd" = true.
Proof. vm_compute. done. Qed.

(** [*] is read as [%], and [_] stands for one character, of one byte or
    of several. *)
Example like_wildcards :
  like "check:*" "check:2025:10:device:1" = true
  /\ like ("a_c" +:+ "%") ("a" +:+ e_acute +:+ "cd") = true
  /\ like "a__c" ("a" +:+ e_acute +:+ "c") = false
  /\ like "a\_c" "abc" = false.
Proof. vm_compute. done. Qed.

Example characters :
  chars ("a" +:+ e_acute +:+ "b") = [JStr "a"; JStr e_acute; JStr "b"]
  /\ one_character e_acute = true
  /\ one_character "10" = false.
Proof. vm_compute. done. Qed.

Example numeric_strings :
  ToNumber (Some (JStr "2.0")) = Some 2
  /\ ToNumber (Some (JStr "2.")) = Some 2
  /\ ToNumber (Some (JStr "1e1")) = Some 10
  /\ ToNumber (Some (JStr ".5e1")) = Some 5
  /\ ToNumber (Some (JStr "-20e-1")) = Some (-2)
  /\ ToNumber (Some (JStr "1e")) = None
  /\ ToNumber (Some (JStr "-0x1f")) = None.
Proof. vm_compute. done. Qed.

(** From [10^21] on a number is printed in exponent form, and [parseInt]
    reads the digits before the point. *)
Example large_numbers :
  Number_toString (Some 999999999999999999999) = "999999999999999999999"
  /\ Number_toString (Some 1000000000000000000000) = "1e+21"
  /\ Number_toString (Some 1234500000000000000000) = "1.2345e+21"
  /\ parseInt (Some (JNum 1000000000000000000000)) = Some 1.
Proof. vm_compute. done. Qed.

Example usual_dates :
  ISOString (first_day * msPerDay) = "0100-01-08T00:00:00.000Z"
  /\ ISOString (last_day * msPerDay) = "+275760-09-03T00:00:00.000Z"
  /\ TimeClip ((last_day + 10) * msPerDay) = Some 8640000000000000
  /\ TimeClip ((last_day + 10) * msPerDay + 1) = None.
Proof. vm_compute. done. Qed.

Example sample_employee_ids :
  sampleEmployeePattern_test "EMP001" = true
  /\ sampleEmployeePattern_test "emp042" = true
  /\ sampleEmployeePattern_test "EMP0" = false
  /\ sampleEmployeePattern_test "EMP12" = false
  /\ sampleEmployeePattern_test "EMP001x" = false.
Proof. vm_compute. done. Qed.

End Sanity.

(* ===================================================================== *)
(** ** Week numbers: boundary dates, time zones, server against client *)
(* ===================================================================== *)

Module WeekProperties.
Import JS JsDate IsoWeek DateFacts WeekFacts.

Lemma usual_local_day tza d ms :
  Z.abs tza <= msPerDay -> first_day <= d <= last_day -> 0 <= ms < msPerDay ->
  usual tza (d * msPerDay + ms - tza) /\ Day (d * msPerDay + ms - tza + tza) = d.
Proof.
  intros Hz Hd Hms.
  assert (E : Day (d * msPerDay + ms - tza + tza) = d).
  { unfold Day, msPerDay in *. Z.to_euclidean_division_equations; lia. }
  split; [| done]. split; [done |]. by rewrite E.
Qed.

Lemma weekOf_local_day tza d ms :
  Z.abs tza <= msPerDay -> first_day <= d <= last_day -> 0 <= ms < msPerDay ->
  Server_week.weekOf tza (Some (d * msPerDay + ms - tza))
  = (Some (YearFromDay d), Some (week d)).
Proof.
  intros Hz Hd Hms. destruct (usual_local_day tza d ms) as [Hu E]; [done.. |].
  unfold Server_week.weekOf. rewrite server_getWeekNumber, E by done.
  unfold getFullYear, LocalTime, YearFromTime. simpl. by rewrite E.
Qed.

(** C3: the pair departs from the claim at two of its three dates.  On
    30 December 2024 the pair is (2024, 1), not (2025, 1), and on 1 January
    2023 it is (2023, 52), not (2022, 52); the year next to the week number
    is the calendar year of the date, while the ISO week-years of the two
    dates are 2025 and 2022. *)
Lemma weekOf_boundary_not_iso_year :
  Server_week.weekOf 0 (Some (20087 * msPerDay)) <> (Some 2025, Some 1)
  /\ Server_week.weekOf 0 (Some (19358 * msPerDay)) <> (Some 2022, Some 52)
  /\ week_year 20087 = 2025 /\ week_year 19358 = 2022
  /\ ISOString (20087 * msPerDay) = "2024-12-30T00:00:00.000Z"
  /\ ISOString (19358 * msPerDay) = "2023-01-01T00:00:00.000Z".
Proof. vm_compute. repeat split; congruence. Qed.

(** What the code computes at the dates of C3: at any instant of the local
    days 2024-12-30, 2025-01-01 and 2023-01-01 (day numbers 20087, 20089 and
    19358) the week numbers are the ISO ones, 1, 1 and 52, and the year
    paired with them is the calendar year of the date: (2024, 1), (2025, 1)
    and (2023, 52). *)
Theorem weekOf_boundary_dates tza ms :
  Z.abs tza <= msPerDay -> 0 <= ms < msPerDay ->
  Server_week.weekOf tza (Some (20087 * msPerDay + ms - tza)) = (Some 2024, Some 1)
  /\ Server_week.weekOf tza (Some (20089 * msPerDay + ms - tza)) = (Some 2025, Some 1)
  /\ Server_week.weekOf tza (Some (19358 * msPerDay + ms - tza)) = (Some 2023, Some 52).
Proof.
  intros Hz Hms.
  rewrite !weekOf_local_day by (done || (unfold first_day, last_day; lia)).
  done.
Qed.

Lemma weekOf_boundary_dates_witness :
  Server_week.weekOf 0 (Some (20087 * msPerDay + 0 - 0)) = (Some 2024, Some 1)
  /\ Server_week.weekOf 0 (Some (20089 * msPerDay + 0 - 0)) = (Some 2025, Some 1)
  /\ Server_week.weekOf 0 (Some (19358 * msPerDay + 0 - 0)) = (Some 2023, Some 52).
Proof. apply (weekOf_boundary_dates 0 0); unfold msPerDay; simpl; lia. Defined.

(** C8, as stated, fails: at the instant 2024-12-29T23:30:00Z the server's
    helper answers week 52 on a host at UTC and week 1 on a host at UTC+4,
    and so does the components' helper in a browser at UTC+4; the result
    follows the local calendar date, not the UTC one, and a server at UTC
    and a browser at UTC+4 disagree on that instant. *)
Lemma getWeekNumber_depends_on_zone :
  ISOString 1735515000000 = "2024-12-29T23:30:00.000Z"
  /\ Server_week.getWeekNumber 0 (Some 1735515000000) = Some 52
  /\ Server_week.getWeekNumber 14400000 (Some 1735515000000) = Some 1
  /\ Client_week.getWeekNumber 14400000 (Some 1735515000000) = Some 1
  /\ Server_week.getWeekNumber 0 (Some 1735515000000)
     <> Server_week.getWeekNumber 14400000 (Some 1735515000000)
  /\ Server_week.getWeekNumber 0 (Some 1735515000000)
     <> Client_week.getWeekNumber 14400000 (Some 1735515000000).
Proof. vm_compute. repeat split; congruence. Qed.

(** C8, amended: for a host at a fixed offset [tza] and every instant from
    8 January of year 100 on, the server's helper and the components'
    helper return the same week number, and that number is a function of
    the local calendar day alone: the ISO week number of [Day (t + tza)]. *)
Theorem server_client_week_agree tza t :
  usual tza t ->
  Server_week.getWeekNumber tza (Some t) = Client_week.getWeekNumber tza (Some t)
  /\ Server_week.getWeekNumber tza (Some t) = Some (week (Day (t + tza))).
Proof.
  intros Hu. rewrite server_getWeekNumber, client_getWeekNumber by done. done.
Qed.

Lemma server_client_week_agree_witness :
  Server_week.getWeekNumber 14400000 (Some 1735515000000)
  = Client_week.getWeekNumber 14400000 (Some 1735515000000)
  /\ Server_week.getWeekNumber 14400000 (Some 1735515000000)
     = Some (week (Day (1735515000000 + 14400000))).
Proof.
  apply (server_client_week_agree 14400000 1735515000000).
  unfold usual, first_day, last_day, msPerDay. vm_compute. repeat split; congruence.
Defined.

(** In years 0 to 99 the two helpers part ways: [new Date(y, 0, 4)] and
    [Date.UTC(y, ...)] read a two-digit year as 19xx. *)
Example two_digit_year_disagreement :
  ISOString ((DayFromYear 50 + 100) * msPerDay) = "0050-04-11T00:00:00.000Z"
  /\ Server_week.getWeekNumber 0 (Some ((DayFromYear 50 + 100) * msPerDay))
     = Some (-99122)
  /\ Client_week.getWeekNumber 0 (Some ((DayFromYear 50 + 100) * msPerDay))
     = Some 15.
Proof. vm_compute. done. Qed.

End WeekProperties.

(* ===================================================================== *)
(** ** Completing a check *)
(* ===================================================================== *)

Module CompletionProperties.
Import JS JsDate Kv Server Outcome Samples IsoWeek DateFacts WeekFacts HandlerFacts.

Lemma length_append (a b : string) :
  String.length (a +:+ b) = (String.length a + String.length b)%nat.
Proof. induction a as [|c a IH]; simpl; [done | by rewrite IH]. Qed.

(** A check key is longer than the device id it ends with. *)
Lemma check_key_not_device y wk dev : check_key y wk dev <> dev.
Proof.
  intros E. apply (f_equal String.length) in E. unfold check_key in E.
  rewrite !length_append in E. simpl in E. lia.
Qed.

Lemma lookup_put_ne P key v (t : gmap string json) k :
  k <> key -> put P key v t !! k = t !! k.
Proof. intros H. unfold put. destruct (guard_skips _ _ _); by simplify_map_eq. Qed.

Lemma lookup_put_eq P key v (t : gmap string json) :
  put P key v t !! key = Some v \/ put P key v t !! key = t !! key.
Proof.
  unfold put. destruct (guard_skips _ _ _); [by right | left].
  apply lookup_insert_eq.
Qed.

Lemma lookup_put_check P key v (t : gmap string json) :
  String.prefix "check:" key = true -> put P key v t !! key = Some v.
Proof.
  intros H. unfold put.
  destruct (check_prefix_not_sample key H) as [Hu Hd].
  unfold guard_skips. rewrite Hu, Hd. destruct P; by simplify_map_eq.
Qed.

(** The spread keeps what the literal does not name. *)
Lemma updated_check_frame c completedBy completedAt comment k :
  k ∉ ["status"; "completedBy"; "completedAt"; "comment"] ->
  get_prop_opt (Some (updated_check (Some (JObj c)) completedBy completedAt comment)) k
  = c !! k.
Proof.
  intros Hk. unfold updated_check, extend; cbn [fold_left fst snd get_prop_opt spread].
  rewrite !lookup_set_field.
  repeat case_decide; subst; try done; exfalso; apply Hk; set_solver.
Qed.

Lemma updated_device_frame d completedAt completedBy k :
  k ∉ ["lastCheckedAt"; "lastCheckedBy"] ->
  get_prop_opt (Some (updated_device (Some (JObj d)) completedAt completedBy)) k
  = d !! k.
Proof.
  intros Hk. unfold updated_device, extend; cbn [fold_left fst snd get_prop_opt spread].
  rewrite !lookup_set_field.
  repeat case_decide; subst; try done; exfalso; apply Hk; set_solver.
Qed.

Lemma updated_check_stamp check completedBy completedAt comment :
  let u := Some (updated_check check completedBy completedAt comment) in
  get_prop_opt u "status" = Some (JStr "completed")
  /\ get_prop_opt u "completedBy" = completedBy
  /\ get_prop_opt u "completedAt" = Some (JStr completedAt)
  /\ get_prop_opt u "comment" = or_else comment (str EmptyString).
Proof.
  unfold updated_check, extend; cbn [fold_left fst snd get_prop_opt].
  rewrite !lookup_set_field. by repeat split.
Qed.

Lemma updated_check_triple c completedBy completedAt comment :
  triple (updated_check (Some (JObj c)) completedBy completedAt comment)
  = triple (JObj c).
Proof.
  unfold triple. rewrite !updated_check_frame; [done | | |];
    rewrite !not_elem_of_cons; repeat split; (discriminate || apply not_elem_of_nil).
Qed.

Lemma updated_device_triple d completedAt completedBy :
  triple (updated_device (Some (JObj d)) completedAt completedBy)
  = triple (JObj d).
Proof.
  unfold triple. rewrite !updated_device_frame; [done | | |];
    rewrite !not_elem_of_cons; repeat split; (discriminate || apply not_elem_of_nil).
Qed.

Lemma put_keyed P key v (t : gmap string json) :
  checks_keyed t ->
  (String.prefix "check:" key = true -> key = key_of_triple (triple v)) ->
  checks_keyed (put P key v t).
Proof.
  intros Ht Hv. unfold put. destruct (guard_skips _ _ _); [done |].
  intros k x Hk Hp. destruct (decide (k = key)) as [-> | Hne].
  - rewrite lookup_insert_eq in Hk. injection Hk as <-. by apply Hv.
  - rewrite lookup_insert_ne in Hk by done. by apply Ht.
Qed.

Lemma next_check_fields key deviceId week year completedAt :
  let s := Some (next_check key deviceId week year completedAt) in
  get_prop_opt s "id" = Some (JStr key)
  /\ get_prop_opt s "deviceId" = deviceId
  /\ get_prop_opt s "year" = Some (JStr (Number_toString year))
  /\ get_prop_opt s "week" = Some (JStr (Number_toString week))
  /\ get_prop_opt s "status" = Some (JStr "pending")
  /\ get_prop_opt s "assignedBy" = Some (JStr "system").
Proof.
  unfold next_check, object, extend; cbn [fold_left fst snd get_prop_opt].
  rewrite !lookup_set_field. by repeat split.
Qed.

(** Whatever the database does, an answer 404 means nothing was written
    and the clock was not read. *)
Lemma not_found_leaves_world tza P db_error clock checkId req w :
  status (fst (put_complete tza P db_error clock checkId req w)) = 404 ->
  snd (put_complete tza P db_error clock checkId req w) = w.
Proof.
  unfold put_complete, handler, complete_body.
  unfold mbind, M_bind, bind, lift, mret, M_ret, ret, Kv.get, Kv.set, now.
  destruct (get_prop (Some req) "completedBy"); [| by cbn].
  destruct (get_prop (Some req) "comment"); [| by cbn].
  destruct (db_error (rows w) (SelectEq checkId)); [by cbn |].
  destruct (ToBoolean (rows w !! checkId)); cbn [negb]; [| by cbn].
  destruct (get_prop (rows w !! checkId) "deviceId") as [deviceId|]; [| by cbn].
  destruct (db_error (rows w) (SelectEq (ToString deviceId))); [by cbn |].
  destruct (ToBoolean (rows w !! ToString deviceId)); cbn [negb]; [| by cbn].
  cbn [rows reads].
  repeat match goal with
         | |- context [match ?x with _ => _ end] =>
             match x with
             | context [match _ with _ => _ end] => fail 1
             | _ => destruct x eqn:?
             end
         end; cbn; intros; try discriminate; try done.
Qed.



(** The guard of [set] reads the key and two properties of the value. *)
Lemma guard_skips_same P key v v' :
  get_prop_opt (Some v) "employeeId" = get_prop_opt (Some v') "employeeId" ->
  get_prop_opt (Some v) "identificationNumber"
  = get_prop_opt (Some v') "identificationNumber" ->
  guard_skips P key v = guard_skips P key v'.
Proof. intros He Hi. unfold guard_skips. by rewrite He, Hi. Qed.

Section WellFormed.
Variable tza : Z.
Variable PREVENT_AUTO_SEED : bool.
Variable db_error : gmap string json -> db_request -> option string.
Variable clock : nat -> Z.
Variable checkId : string.
Variable req : json.
Variable w : world.
Variables c d : gmap string json.
Variable dev : string.
Variable f : Z.

Hypothesis healthy : no_faults db_error.
Hypothesis request_object : req <> JNull.
Hypothesis check_stored : rows w !! checkId = Some (JObj c).
Hypothesis check_device : c !! "deviceId" = Some (JStr dev).
Hypothesis device_stored : rows w !! dev = Some (JObj d).
Hypothesis device_frequency : d !! "plannedFrequency" = Some (JNum f).
Hypothesis clock_first : Z.abs (clock (reads w)) <= 8640000000000000.
Hypothesis clock_second : Z.abs (clock (S (reads w))) <= 8640000000000000.

Let completedBy := get_prop_opt (Some req) "completedBy".
Let comment := get_prop_opt (Some req) "comment".
Let completedAt := ISOString (clock (reads w)).
Let nextDate := TimeClip (clock (S (reads w)) + f * 7 * msPerDay).
Let nextYear := getFullYear tza nextDate.
Let nextWeek := getWeekNumber tza nextDate.
Let key := check_key (Number_toString nextYear) (Number_toString nextWeek) dev.
Let out := put_complete tza PREVENT_AUTO_SEED db_error clock checkId req w.

Lemma complete_well_formed :
  out = (match nextDate with
         | Some t => complete_response
                       (updated_check (Some (JObj c)) completedBy completedAt comment)
                       key nextWeek nextYear (ISOString t)
         | None => error_response 500 "Failed to complete check"
         end,
         World (<[key := next_check key (Some (JStr dev)) nextWeek nextYear
                           completedAt]>
                  (put PREVENT_AUTO_SEED dev
                     (updated_device (Some (JObj d)) completedAt completedBy)
                     (put PREVENT_AUTO_SEED checkId
                        (updated_check (Some (JObj c)) completedBy completedAt
                           comment)
                        (rows w))))
               (S (S (reads w)))).
Proof.
  unfold out.
  rewrite (complete_run tza PREVENT_AUTO_SEED db_error clock healthy
             checkId req w (JObj c) (JObj d));
    cbn [get_prop_opt]; rewrite ?check_device; try done.
  cbn [ToString ToString_json]. rewrite device_frequency.
  by rewrite next_check_date_days.
Qed.

Lemma successor_row :
  rows (snd out) !! key
  = Some (next_check key (Some (JStr dev)) nextWeek nextYear completedAt).
Proof. rewrite complete_well_formed. cbn [snd rows]. by simplify_map_eq. Qed.

(** What a completion writes (the code behind C1): a completion of a
    stored check of a stored device writes one successor row.  Its key and its [year] and [week] fields are the
    pair the handler forms for [currentDate + 7 * plannedFrequency] days
    ([currentDate] being the clock reading taken after the two updates):
    the calendar year [getFullYear] of that date next to its week number.
    The row is [pending], assigned by [system], for the same device; no
    row other than the check, the device and the successor changes.  On
    usual dates the answer is 200, the week is the ISO week number of the
    local day and the year is the local calendar year. *)
Theorem complete_schedules_successor :
  let t := clock (S (reads w)) + f * 7 * msPerDay in
  let year := Number_toString (fst (weekOf tza (TimeClip t))) in
  let week := Number_toString (snd (weekOf tza (TimeClip t))) in
  let successor := rows (snd out) !! check_key year week dev in
  get_prop_opt successor "id" = Some (JStr (check_key year week dev))
  /\ get_prop_opt successor "deviceId" = Some (JStr dev)
  /\ get_prop_opt successor "year" = Some (JStr year)
  /\ get_prop_opt successor "week" = Some (JStr week)
  /\ get_prop_opt successor "status" = Some (JStr "pending")
  /\ get_prop_opt successor "assignedBy" = Some (JStr "system")
  /\ (forall k, k <> checkId -> k <> dev -> k <> check_key year week dev ->
                rows (snd out) !! k = rows w !! k)
  /\ (usual tza t ->
      status (fst out) = 200
      /\ year = pretty (YearFromTime (t + tza))
      /\ week = pretty (IsoWeek.week (Day (t + tza)))).
Proof.
  cbv zeta. cbn [weekOf fst snd]. fold nextDate nextYear nextWeek key.
  rewrite successor_row.
  destruct (next_check_fields key (Some (JStr dev)) nextWeek nextYear completedAt)
    as (? & ? & ? & ? & ? & ?).
  repeat split; try done.
  - intros k Hk1 Hk2 Hk3. rewrite complete_well_formed. cbn [snd rows].
    rewrite lookup_insert_ne, !lookup_put_ne by done. done.
  - rewrite complete_well_formed. unfold nextDate.
    rewrite TimeClip_valid by (by apply usual_time with tza). done.
  - unfold nextYear, nextDate.
    rewrite TimeClip_valid by (by apply usual_time with tza).
    apply Number_toString_small.
    match goal with H : usual _ _ |- _ => apply usual_year in H end. lia.
  - unfold nextWeek, nextDate.
    rewrite TimeClip_valid by (by apply usual_time with tza).
    rewrite server_getWeekNumber by done.
    apply Number_toString_small.
    pose proof (week_range (Day (clock (S (reads w)) + f * 7 * msPerDay + tza))).
    lia.
Qed.

(** A completion keeps the rows of the [check:] namespace at the key
    their triple gives. *)
Lemma complete_keeps_checks_keyed :
  checks_keyed (rows w) -> checks_keyed (rows (snd out)).
Proof.
  intros Hkeyed. rewrite complete_well_formed. cbn [snd rows].
  assert (Hnext : checks_keyed
            (put PREVENT_AUTO_SEED key
               (next_check key (Some (JStr dev)) nextWeek nextYear completedAt)
               (put PREVENT_AUTO_SEED dev
                  (updated_device (Some (JObj d)) completedAt completedBy)
                  (put PREVENT_AUTO_SEED checkId
                     (updated_check (Some (JObj c)) completedBy completedAt
                        comment)
                     (rows w))))).
  { apply put_keyed; [apply put_keyed; [apply put_keyed; [done |] |] |].
    - intros Hp. rewrite updated_check_triple. by apply Hkeyed.
    - intros Hp. rewrite updated_device_triple. by apply Hkeyed.
    - intros _.
      destruct (next_check_fields key (Some (JStr dev)) nextWeek nextYear
                  completedAt) as (_ & Hd & Hy & Hw & _).
      unfold triple, key_of_triple. cbn [fst snd]. by rewrite Hd, Hy, Hw. }
  unfold put at 1 in Hnext.
  by rewrite guard_check_key in Hnext by apply check_key_prefix.
Qed.

(** The row of the device after the call: as it was (the guard of [set]
    left it alone) or stamped, also when the check is its own device. *)
Lemma device_row_after :
  rows (snd out) !! dev = Some (JObj d)
  \/ rows (snd out) !! dev
     = Some (updated_device (Some (JObj d)) completedAt completedBy).
Proof.
  rewrite complete_well_formed. cbn [snd rows].
  rewrite lookup_insert_ne by apply check_key_not_device.
  destruct (guard_skips PREVENT_AUTO_SEED dev
              (updated_device (Some (JObj d)) completedAt completedBy)) eqn:Hg;
    [left | right]; unfold put at 1; rewrite Hg; [| apply lookup_insert_eq].
  destruct (decide (dev = checkId)) as [E | Hne];
    [| by rewrite lookup_put_ne].
  assert (c = d) as -> by (rewrite <- E in check_stored; congruence).
  unfold put. rewrite <- E.
  rewrite (guard_skips_same PREVENT_AUTO_SEED dev
             (updated_check (Some (JObj d)) completedBy completedAt comment)
             (updated_device (Some (JObj d)) completedAt completedBy)), Hg;
    [done | |];
    rewrite updated_check_frame, updated_device_frame; try done;
    rewrite !not_elem_of_cons; repeat split; try discriminate;
    apply not_elem_of_nil.
Qed.

(** C10, amended: the [check] object the completion builds, and returns in
    its answer, keeps every property of the check other than [status],
    [completedAt], [completedBy] and [comment], and the row of the device
    keeps every property other than [lastCheckedAt] and [lastCheckedBy]:
    both for every stored check and device.  The stored row of the check
    has the frame of the built object when the check is not its own device
    and the successor is not written to the key of the check. *)
Theorem complete_frame :
  (forall k, k ∉ ["status"; "completedBy"; "completedAt"; "comment"] ->
             get_prop_opt
               (Some (updated_check (Some (JObj c))
                        (get_prop_opt (Some req) "completedBy")
                        (ISOString (clock (reads w)))
                        (get_prop_opt (Some req) "comment"))) k
             = c !! k)
  /\ (is_Some (TimeClip (clock (S (reads w)) + f * 7 * msPerDay)) ->
      get_prop_opt (Some (body (fst out))) "check"
      = Some (updated_check (Some (JObj c))
                (get_prop_opt (Some req) "completedBy")
                (ISOString (clock (reads w)))
                (get_prop_opt (Some req) "comment")))
  /\ (forall k, k ∉ ["lastCheckedAt"; "lastCheckedBy"] ->
                get_prop_opt (rows (snd out) !! dev) k = d !! k)
  /\ (dev <> checkId -> key <> checkId ->
      forall k, k ∉ ["status"; "completedBy"; "completedAt"; "comment"] ->
                get_prop_opt (rows (snd out) !! checkId) k = c !! k).
Proof.
  split; [| split; [| split]].
  - intros k Hk. by apply updated_check_frame.
  - intros [t Ht]. rewrite complete_well_formed. unfold nextDate. rewrite Ht.
    unfold complete_response, object, extend.
    cbn [fst body fold_left snd get_prop_opt].
    by rewrite !lookup_set_field.
  - intros k Hk. destruct device_row_after as [-> | ->]; [done |].
    by apply updated_device_frame.
  - intros Hdev Hkey k Hk. rewrite complete_well_formed. cbn [snd rows].
    rewrite lookup_insert_ne, lookup_put_ne by done.
    destruct (lookup_put_eq PREVENT_AUTO_SEED checkId
                (updated_check (Some (JObj c)) completedBy completedAt comment)
                (rows w)) as [-> | ->].
    + by apply updated_check_frame.
    + by rewrite check_stored.
Qed.

Hypothesis check_namespace : String.prefix "check:" checkId = true.
Hypothesis not_own_device : dev <> checkId.
Hypothesis not_own_successor : key <> checkId.

Lemma completed_row :
  rows (snd out) !! checkId
  = Some (updated_check (Some (JObj c)) completedBy completedAt comment).
Proof.
  rewrite complete_well_formed. cbn [snd rows].
  rewrite lookup_insert_ne, lookup_put_ne by done.
  by apply lookup_put_check.
Qed.

(** C7, amended: the handler does not look at the status the check had.
    Whatever it was, pending or already completed, the row of the check
    ends with status [completed], stamped with this request's
    [completedBy] and this call's [completedAt], and a pending successor
    is written; no other status is ever written to the completed row
    (which must not be the row the successor or the device update
    lands on). *)
Theorem complete_ignores_previous_status :
  let record := rows (snd out) !! checkId in
  get_prop_opt record "status" = Some (JStr "completed")
  /\ get_prop_opt record "completedBy" = get_prop_opt (Some req) "completedBy"
  /\ get_prop_opt record "completedAt" = Some (JStr (ISOString (clock (reads w))))
  /\ get_prop_opt (rows (snd out) !! key) "status" = Some (JStr "pending").
Proof.
  cbv zeta. rewrite completed_row, successor_row.
  destruct (updated_check_stamp (Some (JObj c)) completedBy completedAt comment)
    as (? & ? & ? & ?).
  destruct (next_check_fields key (Some (JStr dev)) nextWeek nextYear completedAt)
    as (? & ? & ? & ? & ? & ?).
  done.
Qed.

End WellFormed.


(** **** Concrete completions *)

(** C1: the completion departs from the claim across the year boundary.
    Completing on 2024-12-23 with a frequency of one week schedules for
    2024-12-30, whose ISO (year, week) is (2025, 1); the successor is
    stored as year 2024, week 1, under [check:2024:1:device:1], the
    calendar year next to the week number, and nothing is stored under
    [check:2025:1:device:1]. *)
Lemma successor_year_not_week_year :
  status (fst december_completion) = 200
  /\ (week_year (Day (monday_2024_12_23 + 7 * msPerDay)),
      IsoWeek.week (Day (monday_2024_12_23 + 7 * msPerDay))) = (2025, 1)
  /\ rows (snd december_completion) !! "check:2025:1:device:1" = None
  /\ get_prop_opt (rows (snd december_completion) !! "check:2024:1:device:1") "year"
     = Some (JStr "2024")
  /\ get_prop_opt (rows (snd december_completion) !! "check:2024:1:device:1") "week"
     = Some (JStr "1")
  /\ get_prop_opt (rows (snd december_completion) !! "check:2024:1:device:1") "status"
     = Some (JStr "pending").
Proof. vm_compute. repeat split; reflexivity. Qed.

Lemma complete_schedules_successor_witness :
  get_prop_opt (rows (snd december_completion) !! "check:2024:1:device:1")
               "assignedBy" = Some (JStr "system")
  /\ rows (snd december_completion) !! "plan:2024:51"
     = rows december_world !! "plan:2024:51".
Proof.
  pose proof (complete_schedules_successor 0 false healthy_db
                (fun _ => monday_2024_12_23) "check:2024:51:device:1"
                (request_by "E1") december_world
                (extend ∅ [("id", str (check_key "2024" "51" "device:1"));
                           ("deviceId", str "device:1"); ("week", str "51");
                           ("year", str "2024"); ("status", str "pending");
                           ("assignedAt", str "2024-12-16T08:00:00.000Z");
                           ("assignedBy", str "admin")])
                (extend ∅ [("id", str "device:1"); ("name", str "Press");
                           ("plannedFrequency", Some (JNum 1))])
                "device:1" 1) as H.
  cbv zeta in H.
  destruct H as (_ & _ & _ & _ & _ & Hby & Hrest & _).
  - intros t r. reflexivity.
  - discriminate.
  - vm_compute. reflexivity.
  - vm_compute. reflexivity.
  - vm_compute. reflexivity.
  - vm_compute. reflexivity.
  - vm_compute. discriminate.
  - vm_compute. discriminate.
  - split.
    + exact Hby.
    + apply Hrest; vm_compute; discriminate.
Defined.

(** C7, as stated, fails: a check whose status is already [completed] is
    completed again; the call answers 200, replaces [completedBy] and
    [completedAt] and writes a further successor row. *)
Lemma completed_check_is_completed_again :
  get_prop_opt (rows completed_world !! "check:2024:51:device:1") "status"
  = Some (JStr "completed")
  /\ get_prop_opt (rows completed_world !! "check:2024:51:device:1") "completedBy"
     = Some (JStr "E1")
  /\ status (fst second_completion) = 200
  /\ get_prop_opt (rows (snd second_completion) !! "check:2024:51:device:1")
                  "completedBy" = Some (JStr "E2")
  /\ get_prop_opt (rows (snd second_completion) !! "check:2024:51:device:1")
                  "completedAt" = Some (JStr "2024-12-23T00:00:00.000Z")
  /\ rows completed_world !! "check:2024:1:device:1" = None
  /\ get_prop_opt (rows (snd second_completion) !! "check:2024:1:device:1")
                  "status" = Some (JStr "pending").
Proof. vm_compute. repeat split; reflexivity. Qed.

Lemma complete_ignores_previous_status_witness :
  get_prop_opt (rows (snd second_completion) !! "check:2024:51:device:1") "status"
  = Some (JStr "completed").
Proof.
  pose proof (complete_ignores_previous_status 0 false healthy_db
                (fun _ => monday_2024_12_23) "check:2024:51:device:1"
                (request_by "E2") completed_world
                (extend ∅ [("id", str (check_key "2024" "51" "device:1"));
                           ("deviceId", str "device:1"); ("week", str "51");
                           ("year", str "2024"); ("status", str "completed");
                           ("assignedAt", str "2024-12-16T08:00:00.000Z");
                           ("assignedBy", str "admin");
                           ("completedAt", str "2024-12-20T09:00:00.000Z");
                           ("completedBy", str "E1"); ("comment", str EmptyString)])
                (extend ∅ [("id", str "device:1"); ("name", str "Press");
                           ("plannedFrequency", Some (JNum 1))])
                "device:1" 1) as H.
  cbv zeta in H.
  destruct H as (Hstatus & _).
  - intros t r. reflexivity.
  - discriminate.
  - vm_compute. reflexivity.
  - vm_compute. reflexivity.
  - vm_compute. reflexivity.
  - vm_compute. reflexivity.
  - vm_compute. discriminate.
  - vm_compute. discriminate.
  - vm_compute. reflexivity.
  - vm_compute. discriminate.
  - vm_compute. discriminate.
  - exact Hstatus.
Defined.

(** C10, as stated, fails: one week later is week 11 again, so the
    successor is written to the key of the check that was just completed.
    The call answers 200, yet the row of the check ends with [assignedBy]
    and [assignedAt] replaced (and pending, without [completedBy]). *)
Lemma early_completion_overwrites_check :
  status (fst early_completion) = 200
  /\ get_prop_opt (rows march_world !! "check:2025:11:device:1") "assignedBy"
     = Some (JStr "admin")
  /\ get_prop_opt (rows (snd early_completion) !! "check:2025:11:device:1")
                  "assignedBy" = Some (JStr "system")
  /\ get_prop_opt (rows march_world !! "check:2025:11:device:1") "assignedAt"
     = Some (JStr "2024-12-16T08:00:00.000Z")
  /\ get_prop_opt (rows (snd early_completion) !! "check:2025:11:device:1")
                  "assignedAt" = Some (JStr "2025-03-03T00:00:00.000Z")
  /\ get_prop_opt (rows (snd early_completion) !! "check:2025:11:device:1")
                  "status" = Some (JStr "pending").
Proof. vm_compute. repeat split; reflexivity. Qed.

Lemma complete_frame_witness :
  get_prop_opt (Some (body (fst early_completion))) "check"
  = Some (updated_check (Some (pending_check "2025" "11")) (str "E1")
            "2025-03-03T00:00:00.000Z" (str "done"))
  /\ get_prop_opt
       (Some (updated_check (Some (pending_check "2025" "11")) (str "E1")
                "2025-03-03T00:00:00.000Z" (str "done"))) "assignedBy"
     = Some (JStr "admin")
  /\ get_prop_opt (rows (snd early_completion) !! "device:1") "name"
     = Some (JStr "Press").
Proof.
  assert (Hk : "assignedBy" ∉ ["status"; "completedBy"; "completedAt"; "comment"]).
  { rewrite !not_elem_of_cons. repeat split; try discriminate.
    apply not_elem_of_nil. }
  assert (Hn : "name" ∉ ["lastCheckedAt"; "lastCheckedBy"]).
  { rewrite !not_elem_of_cons. repeat split; try discriminate.
    apply not_elem_of_nil. }
  pose proof (complete_frame 0 false healthy_db
                (fun _ => monday_2025_03_03) "check:2025:11:device:1"
                (request_by "E1") march_world
                (extend ∅ [("id", str (check_key "2025" "11" "device:1"));
                           ("deviceId", str "device:1"); ("week", str "11");
                           ("year", str "2025"); ("status", str "pending");
                           ("assignedAt", str "2024-12-16T08:00:00.000Z");
                           ("assignedBy", str "admin")])
                (extend ∅ [("id", str "device:1"); ("name", str "Press");
                           ("plannedFrequency", Some (JNum 1))])
                "device:1" 1) as H.
  destruct H as (Hbuilt & Hanswer & Hdevice & _).
  - intros t r. reflexivity.
  - discriminate.
  - vm_compute. reflexivity.
  - vm_compute. reflexivity.
  - vm_compute. reflexivity.
  - vm_compute. reflexivity.
  - vm_compute. discriminate.
  - vm_compute. discriminate.
  - unfold early_completion. split; [| split].
    + rewrite Hanswer; [vm_compute; reflexivity |]. vm_compute. by eexists.
    + pose proof (Hbuilt "assignedBy" Hk) as E.
      vm_compute in E. vm_compute. exact E.
    + rewrite (Hdevice "name" Hn). vm_compute. reflexivity.
Defined.

End CompletionProperties.

(* ===================================================================== *)
(** ** The key-value store *)
(* ===================================================================== *)

Module StoreProperties.
Import JS Kv Server Outcome Samples.

Lemma guard_off key v : guard_skips false key v = false.
Proof. done. Qed.

Lemma guard_other_namespace P key v :
  String.prefix "user:" key = false -> String.prefix "device:" key = false ->
  guard_skips P key v = false.
Proof. intros Hu Hd. unfold guard_skips. rewrite Hu, Hd. by destruct P. Qed.

(** C9, as stated, fails: with [PREVENT_AUTO_SEED] on, [set] of a device
    whose [identificationNumber] is one of the sample ids, or of a user
    whose employee id looks like a sample one, returns without writing and
    without an error, and the following [get] finds nothing. *)
Lemma set_skips_sample_records :
  fst (Kv.set true healthy_db "device:1"
         (object [("identificationNumber", str "HP-001")]) (World ∅ 0)) = Ok tt
  /\ fst (Kv.get healthy_db "device:1"
            (snd (Kv.set true healthy_db "device:1"
                    (object [("identificationNumber", str "HP-001")])
                    (World ∅ 0)))) = Ok None
  /\ fst (Kv.get healthy_db "user:EMP001"
            (snd (Kv.set true healthy_db "user:EMP001"
                    (object [("name", str "Ann")]) (World ∅ 0)))) = Ok None.
Proof. vm_compute. repeat split; reflexivity. Qed.

(** C9, amended: when the database reports no error and the sample-data
    guard does not skip the pair (it never does with [PREVENT_AUTO_SEED]
    off, nor for keys outside [user:] and [device:]), [set] replaces the
    row of the key by the value and a following [get] returns that value;
    [del] never fails, whether or not the key is present, and a following
    [get] returns nothing. *)
Theorem set_get_del_round_trip PREVENT_AUTO_SEED db_error key v w :
  no_faults db_error ->
  guard_skips PREVENT_AUTO_SEED key v = false ->
  fst (Kv.set PREVENT_AUTO_SEED db_error key v w) = Ok tt
  /\ rows (snd (Kv.set PREVENT_AUTO_SEED db_error key v w)) = <[key := v]> (rows w)
  /\ fst (Kv.get db_error key (snd (Kv.set PREVENT_AUTO_SEED db_error key v w)))
     = Ok (Some v)
  /\ fst (Kv.del db_error key w) = Ok tt
  /\ fst (Kv.get db_error key (snd (Kv.del db_error key w))) = Ok None.
Proof.
  intros healthy Hguard. unfold Kv.set, Kv.get, Kv.del.
  rewrite Hguard, !healthy. cbn [fst snd rows]. rewrite ?healthy. cbn [fst].
  by rewrite lookup_insert_eq, lookup_delete_eq.
Qed.

Lemma set_get_del_round_trip_witness :
  fst (Kv.get healthy_db "device:1"
         (snd (Kv.set true healthy_db "device:1"
                 (object [("identificationNumber", str "EGA-17")]) (World ∅ 0))))
  = Ok (Some (object [("identificationNumber", str "EGA-17")]))
  /\ fst (Kv.del healthy_db "device:1" (World ∅ 0)) = Ok tt.
Proof.
  destruct (set_get_del_round_trip true healthy_db "device:1"
              (object [("identificationNumber", str "EGA-17")]) (World ∅ 0))
    as (_ & _ & Hget & Hdel & _).
  - intros t r. reflexivity.
  - vm_compute. reflexivity.
  - split; [exact Hget | exact Hdel].
Defined.

End StoreProperties.

(* ===================================================================== *)
(** ** Overdue days and severity on the delayed-devices screen *)
(* ===================================================================== *)

Module SeverityProperties.
Import JS JsDate DelayedDevices.



(** The reducer files every check under its category, with its count. *)
Lemma groupedChecks_files tza current (l : list (gmap string json)) check :
  check ∈ l ->
  exists filed,
    groupedChecks tza current l !! category (getDaysOverdue tza current check)
    = Some filed
    /\ (check, getDaysOverdue tza current check) ∈ filed.
Proof.
  unfold groupedChecks. generalize (∅ : gmap string (list (gmap string json * number))).
  assert (Hkeep : forall l acc k x filed,
            acc !! k = Some filed -> x ∈ filed ->
            exists filed',
              fold_left
                (fun (acc : gmap string (list (gmap string json * number))) check =>
                   let daysOverdue := getDaysOverdue tza current check in
                   let category := category daysOverdue in
                   let acc := match acc !! category with
                              | None => <[category := []]> acc
                              | Some _ => acc
                              end in
                   <[category := app (default [] (acc !! category))
                                     [(check, daysOverdue)]]> acc)
                l acc !! k = Some filed' /\ x ∈ filed').
  { clear. induction l as [|c l IH]; intros acc k x filed Hk Hx; [by eauto |].
    cbn [fold_left]. cbv zeta.
    set (cat := category (getDaysOverdue tza current c)).
    destruct (decide (cat = k)) as [-> | Hne].
    - rewrite Hk. eapply IH; [apply lookup_insert_eq |].
      rewrite Hk. cbn. set_solver.
    - eapply IH; [| exact Hx]. rewrite lookup_insert_ne by done.
      destruct (acc !! cat); [done | by rewrite lookup_insert_ne]. }
  induction l as [|c l IH]; intros acc Hin; [by apply elem_of_nil in Hin |].
  apply elem_of_cons in Hin as [-> | Hin].
  - cbn [fold_left]. cbv zeta.
    eapply Hkeep; [apply lookup_insert_eq |]. set_solver.
  - cbn [fold_left]. by apply IH.
Qed.

End SeverityProperties.

(* ===================================================================== *)
(** ** The delayed-checks listing *)
(* ===================================================================== *)

Module DelayedProperties.
Import JS JsDate Kv Server Outcome Samples HandlerFacts.

Lemma like_anything s : like_match ["%"%char] s = true.
Proof. induction s as [|c s IH]; [done |]. cbn in *. by rewrite IH. Qed.

(** [like 'check:%'] selects the keys that start with [check:]. *)
Lemma like_check key : like "check:%" key = String.prefix "check:" key.
Proof.
  unfold like.
  change (List.map star (list_ascii_of_string "check:%"))
    with ["c"; "h"; "e"; "c"; "k"; ":"; "%"]%char.
  do 6 (destruct key as [|? key]; [done |];
        cbn [list_ascii_of_string String.prefix];
        match goal with
        | |- context [Ascii.ascii_dec ?c ?a] =>
            destruct (Ascii.ascii_dec c a) as [<- | ?];
            [| cbn [like_match];
               match goal with
               | |- context [Ascii.eqb ?c ?a] =>
                   destruct (Ascii.eqb_spec c a); [congruence | done]
               end]
        end).
  cbn [like_match Ascii.eqb Bool.eqb andb].
  rewrite like_anything. by destruct key.
Qed.

Lemma filter_r_total {A} (p : A -> result bool) (q : A -> bool) l :
  (forall x, In x l -> p x = Ok (q x)) -> filter_r p l = Ok (List.filter q l).
Proof.
  induction l as [|x l IH]; intros H; [done |]. cbn.
  rewrite (H x) by (by left). rewrite IH by (intros; apply H; by right). done.
Qed.

(** The filter callback on a document that is not [null]. *)
Lemma is_delayed_value cy cw v :
  v <> JNull ->
  is_delayed cy cw v
  = Ok (is_string (get_prop_opt (Some v) "status") "pending"
        && (num_lt (parseInt (get_prop_opt (Some v) "year")) cy
            || (num_eq (parseInt (get_prop_opt (Some v) "year")) cy
                && num_lt (parseInt (get_prop_opt (Some v) "week")) cw))).
Proof.
  intros Hv. unfold is_delayed. rewrite !get_prop_request by done.
  cbn [mbind result_bind]. by destruct (is_string _ _).
Qed.

Lemma is_string_true v s : is_string v s = true <-> v = Some (JStr s).
Proof.
  unfold is_string. destruct v as [[]|]; try (split; [discriminate | congruence]).
  rewrite String.eqb_eq. split; congruence.
Qed.

Lemma earlier_bool (y wk cy cw : number) :
  num_lt y cy || (num_eq y cy && num_lt wk cw) = true
  <-> earlier (y, wk) (cy, cw).
Proof.
  unfold earlier, num_lt, num_eq. cbn [fst snd].
  destruct y as [y|], cy as [cy|]; cbn; try (split; [discriminate | tauto]).
  destruct wk as [wk|], cw as [cw|]; cbn;
    rewrite orb_true_iff, ?andb_true_iff, ?Z.ltb_lt, ?Z.eqb_eq, ?andb_false_r;
    intuition (try discriminate; try lia).
Qed.

(** What the listing computes (the code behind C2): when the database
    answers and no stored document is [null], the listing answers 200 with
    exactly the documents of the [check:] namespace whose status is
    ['pending'] and whose (year, week), read with [parseInt], is strictly
    earlier, in lexicographic order, than the pair the handler forms from
    the clock, [getFullYear] next to [getWeekNumber]: the calendar year and
    the week number, which is not the ISO (year, week) of the day in the
    days around 1 January.  The store is left as it was. *)
Theorem delayed_checks_exact tza db_error clock w :
  no_faults db_error ->
  (forall k, rows w !! k <> Some JNull) ->
  exists l,
    fst (get_delayed_checks tza db_error clock w) = Response 200 (JArr l)
    /\ rows (snd (get_delayed_checks tza db_error clock w)) = rows w
    /\ forall v,
         v ∈ l <->
         (exists k, String.prefix "check:" k = true /\ rows w !! k = Some v)
         /\ get_prop_opt (Some v) "status" = Some (JStr "pending")
         /\ earlier (parseInt (get_prop_opt (Some v) "year"),
                     parseInt (get_prop_opt (Some v) "week"))
                    (weekOf tza (new_Date (Some (clock (reads w))))).
Proof.
  intros healthy Hnull.
  set (today := new_Date (Some (clock (reads w)))).
  set (cy := getFullYear tza today). set (cw := getWeekNumber tza today).
  set (scan := List.map snd
                 (List.filter (fun kv => like ("check:" +:+ "%") (fst kv))
                    (map_to_list (rows w)))).
  set (q := fun v =>
              is_string (get_prop_opt (Some v) "status") "pending"
              && (num_lt (parseInt (get_prop_opt (Some v) "year")) cy
                  || (num_eq (parseInt (get_prop_opt (Some v) "year")) cy
                      && num_lt (parseInt (get_prop_opt (Some v) "week")) cw))).
  assert (Hscan : forall v, In v scan <->
                    exists k, String.prefix "check:" k = true /\ rows w !! k = Some v).
  { intros v. unfold scan. rewrite in_map_iff. split.
    - intros ([k v'] & <- & [Hin Hlike]%filter_In). exists k.
      cbn [fst snd] in *. change ("check:" +:+ "%") with "check:%" in Hlike.
      rewrite like_check in Hlike. split; [done |].
      apply elem_of_map_to_list. apply (proj2 (list_elem_of_In _ _)). exact Hin.
    - intros (k & Hp & Hk). exists (k, v). split; [done |].
      apply filter_In. split.
      + apply (proj1 (list_elem_of_In _ _)). by apply elem_of_map_to_list.
      + cbn [fst]. change ("check:" +:+ "%") with "check:%".
        by rewrite like_check. }
  assert (Hrun : filter_r (is_delayed cy cw) scan = Ok (List.filter q scan)).
  { apply filter_r_total. intros v (k & _ & Hk)%Hscan.
    apply is_delayed_value. intros ->. by apply (Hnull k). }
  exists (List.filter q scan). split; [| split].
  - unfold get_delayed_checks, handler, delayed_checks_body.
    unfold mbind at 1, M_bind, bind, getByPrefix. rewrite healthy.
    fold scan. rewrite run_now. fold today cy cw. rewrite Hrun. done.
  - unfold get_delayed_checks, handler, delayed_checks_body.
    unfold mbind at 1, M_bind, bind, getByPrefix. rewrite healthy.
    fold scan. rewrite run_now. fold today cy cw. rewrite Hrun. done.
  - intros v. rewrite list_elem_of_In, filter_In, Hscan. unfold q.
    rewrite andb_true_iff, is_string_true, earlier_bool. done.
Qed.

Lemma delayed_checks_exact_witness :
  exists l,
    fst (get_delayed_checks 0 healthy_db (fun _ => monday_2025_03_03) listing_world)
    = Response 200 (JArr l)
    /\ (pending_check "2025" "8" ∈ l)
    /\ (completed_check "2025" "9" ∉ l)
    /\ (pending_check "2025" "10" ∉ l).
Proof.
  destruct (delayed_checks_exact 0 healthy_db (fun _ => monday_2025_03_03)
              listing_world) as (l & Hl & _ & Hmem).
  - intros t r. reflexivity.
  - intros k.
    destruct (decide (k = "check:2025:8:device:1")) as [-> | H1]; [discriminate |].
    destruct (decide (k = "check:2025:9:device:1")) as [-> | H2]; [discriminate |].
    destruct (decide (k = "check:2025:10:device:1")) as [-> | H3]; [discriminate |].
    destruct (decide (k = "device:1")) as [-> | H4]; [discriminate |].
    unfold listing_world. cbn [rows]. rewrite !lookup_insert_ne by done.
    by rewrite lookup_empty.
  - exists l. split; [exact Hl |]. split; [| split].
    + apply Hmem. split; [| split].
      * exists "check:2025:8:device:1". split; vm_compute; reflexivity.
      * vm_compute. reflexivity.
      * vm_compute. right. split; reflexivity.
    + intros (_ & Hstatus & _)%Hmem. vm_compute in Hstatus. discriminate.
    + intros (_ & _ & Hearly)%Hmem. vm_compute in Hearly.
      destruct Hearly as [H | [_ H]]; discriminate.
Defined.

(** C2: the listing departs from the claim at the end of the year.  On
    Monday 30 December 2024, a day of ISO week 1 of 2025, the handler
    compares with the pair (2024, 1), the calendar year next to the week
    number: the pending checks of weeks 40 and 52 of 2024, both earlier
    than the current ISO (year, week), are not listed, and the answer is
    the empty list. *)
Lemma delayed_checks_miss_at_year_end :
  ISOString monday_2024_12_30 = "2024-12-30T00:00:00.000Z"
  /\ (IsoWeek.week_year (Day monday_2024_12_30),
      IsoWeek.week (Day monday_2024_12_30)) = (2025, 1)
  /\ weekOf 0 (new_Date (Some monday_2024_12_30)) = (Some 2024, Some 1)
  /\ rows year_end_world !! "check:2024:40:device:1"
     = Some (pending_check "2024" "40")
  /\ rows year_end_world !! "check:2024:52:device:1"
     = Some (pending_check "2024" "52")
  /\ fst (get_delayed_checks 0 healthy_db (fun _ => monday_2024_12_30)
            year_end_world)
     = Response 200 (JArr []).
Proof. vm_compute. repeat split; reflexivity. Qed.

End DelayedProperties.

(* ===================================================================== *)
(** ** Weekly plans *)
(* ===================================================================== *)

Module PlanProperties.
Import JS JsDate Kv Server Outcome Samples DateFacts HandlerFacts.

Lemma plan_key_guard P y wk v : guard_skips P (plan_key y wk) v = false.
Proof. apply StoreProperties.guard_other_namespace; reflexivity. Qed.

Lemma plan_key_not_check y wk : String.prefix "check:" (plan_key y wk) = false.
Proof. reflexivity. Qed.

Lemma new_check_triple key deviceId week year assignedAt assignedBy :
  triple (new_check key deviceId week year assignedAt assignedBy)
  = (ToString year, ToString week, ToString_json deviceId).
Proof.
  unfold triple, new_check, object, extend;
    cbn [fold_left fst snd get_prop_opt].
  rewrite !lookup_set_field. cbn. by rewrite lookup_empty.
Qed.

Lemma new_check_fields key deviceId week year assignedAt assignedBy :
  let v := Some (new_check key deviceId week year assignedAt assignedBy) in
  get_prop_opt v "assignedBy" = assignedBy
  /\ get_prop_opt v "status" = Some (JStr "pending").
Proof.
  unfold new_check, object, extend; cbn [fold_left fst snd get_prop_opt].
  rewrite !lookup_set_field. by repeat split.
Qed.

Section Written.
Variable clock : nat -> Z.
Variables week year assignedBy : jsval.

Let key (deviceId : json) : string :=
  check_key (ToString year) (ToString week) (ToString_json deviceId).
Let written := write_checks clock week year assignedBy.

Lemma write_checks_other ids n t k :
  k ∉ (key <$> ids) -> written ids n t !! k = t !! k.
Proof.
  revert n t. induction ids as [|d ids IH]; intros n t Hk; [done |].
  cbn in *. rewrite IH by set_solver.
  apply lookup_insert_ne. set_solver.
Qed.

(** The row of a listed key is the check its last listing wrote. *)
Lemma write_checks_listed ids n t k :
  k ∈ (key <$> ids) ->
  exists d m,
    key d = k
    /\ written ids n t !! k
       = Some (new_check k d week year (ISOString (clock m)) assignedBy).
Proof.
  revert n t. induction ids as [|x ids IH]; intros n t Hin;
    [by apply elem_of_nil in Hin |].
  cbn [write_checks written].
  destruct (decide (k ∈ (key <$> ids))) as [Hlater | Hnot].
  - by apply IH.
  - assert (key x = k) as <- by set_solver.
    exists x, n. split; [done |].
    fold written. rewrite write_checks_other by done.
    apply lookup_insert_eq.
Qed.

Lemma write_checks_dom ids n t :
  dom (written ids n t) = dom t ∪ list_to_set (key <$> ids).
Proof.
  revert n t. induction ids as [|x ids IH]; intros n t; cbn.
  - set_solver.
  - fold written. rewrite IH, dom_insert_L. fold (key x). set_solver.
Qed.

Lemma write_checks_keyed ids n t :
  checks_keyed t -> checks_keyed (written ids n t).
Proof.
  revert n t. induction ids as [|x ids IH]; intros n t Ht; [done |].
  cbn. apply IH. intros k v Hk Hp.
  destruct (decide (k = key x)) as [-> | Hne].
  - rewrite lookup_insert_eq in Hk. injection Hk as <-.
    by rewrite new_check_triple.
  - rewrite lookup_insert_ne in Hk by done. by apply Ht.
Qed.

End Written.

Section Loop.
Variable PREVENT_AUTO_SEED : bool.
Variable db_error : gmap string json -> db_request -> option string.
Variable clock : nat -> Z.
Variables week year assignedBy : jsval.
Hypothesis healthy : no_faults db_error.
Hypothesis ticking : valid_clock clock.

Let key (deviceId : json) : string :=
  check_key (ToString year) (ToString week) (ToString_json deviceId).
Let written := write_checks clock week year assignedBy.

Lemma run_loop ids n t :
  for_each ids
    (fun deviceId =>
       assignedAt ← (d ← now clock; lift (toISOString d));
       Kv.set PREVENT_AUTO_SEED db_error (key deviceId)
         (new_check (key deviceId) deviceId week year assignedAt assignedBy))
    (World t n)
  = (Ok tt, World (written ids n t) (n + length ids)).
Proof.
  revert n t. induction ids as [|x ids IH]; intros n t.
  - cbn. by rewrite Nat.add_0_r.
  - cbn [for_each]. unfold mbind at 1, M_bind at 1, bind at 1.
    rewrite run_now_iso by apply ticking. cbn [rows reads].
    unfold Kv.set. rewrite guard_check_key by apply check_key_prefix.
    rewrite healthy. cbn [rows reads]. rewrite IH. cbn [length].
    by rewrite Nat.add_succ_r.
Qed.
End Loop.

Section Plan.
Variable PREVENT_AUTO_SEED : bool.
Variable db_error : gmap string json -> db_request -> option string.
Variable clock : nat -> Z.
Hypothesis healthy : no_faults db_error.
Hypothesis ticking : valid_clock clock.

Lemma plan_run req w ids :
  req <> JNull ->
  get_prop_opt (Some req) "deviceIds" = Some (JArr ids) ->
  let week := get_prop_opt (Some req) "week" in
  let year := get_prop_opt (Some req) "year" in
  let assignedBy := get_prop_opt (Some req) "assignedBy" in
  let planId := plan_key (ToString year) (ToString week) in
  let plan := new_plan planId week year (Some (JArr ids)) assignedBy
                       (ISOString (clock (reads w))) in
  post_weekly_plans PREVENT_AUTO_SEED db_error clock req w
  = (Response 200 (object [("success", Some (JBool true)); ("plan", Some plan)]),
     World (write_checks clock week year assignedBy ids (S (reads w))
              (<[planId := plan]> (rows w)))
           (S (reads w) + length ids)).
Proof.
  intros Hreq Hids. cbv zeta.
  unfold post_weekly_plans, handler, weekly_plans_body.
  rewrite !(get_prop_request req) by done. rewrite !run_lift.
  rewrite run_now_iso by apply ticking.
  rewrite run_set by done. unfold put. rewrite plan_key_guard.
  rewrite Hids. cbn [iterate]. rewrite run_lift.
  unfold mbind at 1, M_bind at 1, bind at 1.
  cbn [rows reads]. by rewrite run_loop.
Qed.
End Plan.


Lemma append_cancel (s a b : string) : s +:+ a = s +:+ b -> a = b.
Proof. induction s as [|c s IH]; cbn; [done |]. intros [= H]. by apply IH. Qed.

Lemma check_key_device_inj y wk a b : check_key y wk a = check_key y wk b -> a = b.
Proof. unfold check_key. intros H. by do 5 apply append_cancel in H. Qed.

Lemma insert_plan_keyed y wk v (t : gmap string json) :
  checks_keyed t -> checks_keyed (<[plan_key y wk := v]> t).
Proof.
  intros Ht k x Hk Hp. apply Ht; [| done].
  rewrite lookup_insert_ne in Hk; [done |]. intros <-.
  by rewrite plan_key_not_check in Hp.
Qed.

(** Rows of the [check:] namespace with the same triple share their key. *)
Lemma checks_keyed_unique (t : gmap string json) k1 k2 v1 v2 :
  checks_keyed t ->
  String.prefix "check:" k1 = true -> String.prefix "check:" k2 = true ->
  t !! k1 = Some v1 -> t !! k2 = Some v2 -> triple v1 = triple v2 -> k1 = k2.
Proof.
  intros Ht Hp1 Hp2 H1 H2 Heq.
  rewrite (Ht k1 v1 H1 Hp1), (Ht k2 v2 H2 Hp2). by rewrite Heq.
Qed.



End PlanProperties.

(* ===================================================================== *)
(** ** Prefix searches *)
(* ===================================================================== *)

Module PrefixProperties.
Import JS Kv KvBatch Samples.

(** A literal pattern character matches itself and nothing else. *)
Lemma like_match_literal c pat s :
  literal c = true ->
  like_match (c :: pat) s
  = match s with
    | [] => false
    | d :: s' => Ascii.eqb c d && like_match pat s'
    end.
Proof.
  destruct c as [[] [] [] [] [] [] [] []]; intros H; try discriminate H;
    reflexivity.
Qed.

Lemma chars_append (a b : string) :
  list_ascii_of_string (a +:+ b)
  = (list_ascii_of_string a ++ list_ascii_of_string b)%list.
Proof. induction a as [|c a IH]; [done |]. simpl. by rewrite IH. Qed.

Lemma append_assoc (a b c : string) : (a +:+ b) +:+ c = a +:+ b +:+ c.
Proof.
  induction a as [|x a IH]; [done |].
  change (String x ((a +:+ b) +:+ c) = String x (a +:+ b +:+ c)). by rewrite IH.
Qed.

(** The REST layer leaves a literal character as it is. *)
Lemma star_literal c : literal c = true -> star c = c.
Proof.
  destruct c as [[] [] [] [] [] [] [] []]; intros H; try discriminate H;
    reflexivity.
Qed.

Lemma star_plain s :
  plain s -> List.map star (list_ascii_of_string s) = list_ascii_of_string s.
Proof.
  unfold plain. induction s as [|c s IH]; [done |].
  cbn [list_ascii_of_string forallb List.map].
  intros [Hc Hs]%andb_true_iff. by rewrite star_literal, IH.
Qed.

(** [like prefix + '%'] for a prefix free of wildcards selects the keys
    that start with the prefix. *)
Lemma like_plain prefix key :
  plain prefix -> like (prefix +:+ "%") key = String.prefix prefix key.
Proof.
  intros H. unfold like. rewrite chars_append, List.map_app, star_plain by done.
  change (List.map star (list_ascii_of_string "%")) with ["%"%char].
  unfold plain in H.
  revert key H. induction prefix as [|c p IH]; intros key H.
  - cbn [list_ascii_of_string app]. rewrite DelayedProperties.like_anything.
    by destruct key.
  - cbn [list_ascii_of_string forallb] in H. apply andb_true_iff in H as [Hc Hp].
    cbn [list_ascii_of_string app]. rewrite like_match_literal by done.
    destruct key as [|d key]; [done |].
    cbn [list_ascii_of_string String.prefix]. rewrite IH by done.
    destruct (Ascii.ascii_dec c d) as [-> | Hne].
    + by rewrite Ascii.eqb_refl.
    + by destruct (Ascii.eqb_spec c d).
Qed.

Lemma plain_append a b : plain a -> plain b -> plain (a +:+ b).
Proof.
  unfold plain. rewrite chars_append, forallb_app. intros -> ->. done.
Qed.

(** The rows a prefix search reads. *)
Lemma scan_rows pattern (t : gmap string json) k v :
  In (k, v) (List.filter (fun kv => like pattern (fst kv)) (map_to_list t))
  <-> t !! k = Some v /\ like pattern k = true.
Proof.
  rewrite filter_In. cbn [fst].
  rewrite <- list_elem_of_In, elem_of_map_to_list. done.
Qed.

Lemma scan_values pattern (t : gmap string json) v :
  In v (List.map snd
          (List.filter (fun kv => like pattern (fst kv)) (map_to_list t)))
  <-> exists k, t !! k = Some v /\ like pattern k = true.
Proof.
  rewrite in_map_iff. split.
  - intros ([k v'] & <- & H). exists k. by apply scan_rows.
  - intros (k & H). exists (k, v). split; [done |]. by apply scan_rows.
Qed.

(** X1: for a prefix free of the wildcards of the [like] filter ([%], [_],
    the escape character and [*], which the REST layer reads as [%]),
    [getByPrefix] answers with the values of the rows whose key starts with
    the prefix, all of them and nothing else, and changes nothing. *)
Theorem getByPrefix_plain db_error prefix w :
  plain prefix ->
  db_error (rows w) (SelectLike (prefix +:+ "%")) = None ->
  exists l,
    Kv.getByPrefix db_error prefix w = (Ok l, w)
    /\ forall v, v ∈ l <->
         exists k, rows w !! k = Some v /\ String.prefix prefix k = true.
Proof.
  intros Hp He. eexists. split.
  - unfold getByPrefix. rewrite He. reflexivity.
  - intros v. rewrite list_elem_of_In, scan_values.
    by setoid_rewrite (like_plain prefix _ Hp).
Qed.

Lemma getByPrefix_plain_witness :
  exists l,
    Kv.getByPrefix healthy_db "check:" listing_world = (Ok l, listing_world)
    /\ (pending_check "2025" "8" ∈ l).
Proof.
  destruct (getByPrefix_plain healthy_db "check:" listing_world) as (l & Hl & Hmem);
    [reflexivity | reflexivity |].
  exists l. split; [exact Hl |]. apply Hmem.
  exists "check:2025:8:device:1". split; vm_compute; reflexivity.
Defined.

End PrefixProperties.

(* ===================================================================== *)
(** ** Requests on several keys *)
(* ===================================================================== *)

Module BatchProperties.
Import JS Kv KvBatch Outcome PrefixProperties Samples MoreSamples.

Lemma key_in_spec keys k : key_in keys k = true <-> In k keys.
Proof.
  unfold key_in. rewrite existsb_exists. split.
  - intros (x & Hx & ->%String.eqb_eq). done.
  - intros H. exists k. split; [done | apply String.eqb_refl].
Qed.

Lemma key_in_false keys k : key_in keys k = false <-> ~ In k keys.
Proof. rewrite <- key_in_spec. by destruct (key_in keys k). Qed.

Lemma filter_keys_NoDup {V} (f : string * V -> bool) (l : list (string * V)) :
  NoDup (List.map fst l) -> NoDup (List.map fst (List.filter f l)).
Proof.
  induction l as [|x l IH]; [done |]. cbn [List.map List.filter].
  intros [Hx Hl]%NoDup_cons. destruct (f x); [| by apply IH].
  cbn [List.map]. apply NoDup_cons. split; [| by apply IH].
  intros Hin. apply Hx. apply list_elem_of_In. apply list_elem_of_In in Hin.
  apply in_map_iff in Hin as (y & Hy & [Hin _]%filter_In).
  apply in_map_iff. by exists y.
Qed.

(** The rows [mget] reads. *)
Lemma mget_rows keys (t : gmap string json) v :
  In v (List.map snd
          (List.filter (fun kv => key_in keys (fst kv)) (map_to_list t)))
  <-> exists k, In k keys /\ t !! k = Some v.
Proof.
  rewrite in_map_iff. split.
  - intros ([k v'] & <- & [Hin Hk]%filter_In). exists k. cbn [fst snd] in *.
    split; [by apply key_in_spec |].
    apply elem_of_map_to_list. by apply list_elem_of_In.
  - intros (k & Hk & Hv). exists (k, v). split; [done |]. apply filter_In.
    split; [| by apply key_in_spec].
    apply list_elem_of_In. by apply elem_of_map_to_list.
Qed.

Section Batch.
Variable batch_error : gmap string json -> batch_request -> option string.
Hypothesis healthy : forall t r, batch_error t r = None.

(** X2: [mget] answers with the values of the requested keys that are
    stored: a key that is not stored leaves no placeholder, a key asked
    twice is answered once, so the answer is at most as long as the request
    and its positions are not those of the request. *)
Theorem mget_stored_keys keys w :
  exists l,
    mget batch_error keys w = (Ok l, w)
    /\ (forall v, v ∈ l <-> exists k, k ∈ keys /\ rows w !! k = Some v)
    /\ (length l <= length keys)%nat
    /\ (length l <= size (rows w))%nat.
Proof.
  eexists. split; [| split; [| split]].
  - unfold mget. rewrite healthy. reflexivity.
  - intros v. rewrite list_elem_of_In, mget_rows.
    by setoid_rewrite list_elem_of_In.
  - rewrite length_map. rewrite <- (length_map fst).
    apply NoDup_incl_length.
    + apply NoDup_ListNoDup, filter_keys_NoDup, NoDup_fst_map_to_list.
    + intros k ([k' v] & <- & [_ Hk]%filter_In)%in_map_iff.
      by apply key_in_spec.
  - rewrite length_map, <- length_map_to_list.
    rewrite <- (length_map fst (map_to_list (rows w))).
    rewrite <- (length_map fst).
    apply NoDup_incl_length.
    + apply NoDup_ListNoDup, filter_keys_NoDup, NoDup_fst_map_to_list.
    + intros k ([k' v] & <- & [Hin _]%filter_In)%in_map_iff.
      apply in_map_iff. by exists (k', v).
Qed.

(** X3: [mdel] removes the rows of the keys it is given, whether stored or
    not, and no other row; a following [mget] of the same keys finds
    nothing. *)
Theorem mdel_then_mget keys w :
  exists w',
    mdel batch_error keys w = (Ok tt, w')
    /\ mget batch_error keys w' = (Ok [], w')
    /\ (forall k, k ∈ keys -> rows w' !! k = None)
    /\ (forall k, k ∉ keys -> rows w' !! k = rows w !! k).
Proof.
  eexists. split; [| split; [| split]].
  - unfold mdel. rewrite healthy. reflexivity.
  - unfold mget. rewrite healthy. cbn [rows]. f_equal. f_equal.
    match goal with |- ?x = [] => destruct x as [|v l] eqn:E; [done |] end.
    assert (Hv : In v (v :: l)) by (by left). rewrite <- E in Hv.
    apply mget_rows in Hv as (k & Hk & Hv).
    apply map_lookup_filter_Some in Hv as [_ Hf]. cbn [fst] in Hf.
    apply key_in_false in Hf. done.
  - intros k Hk%list_elem_of_In. cbn [rows]. apply map_lookup_filter_None.
    right. intros v _ Hf. cbn [fst] in Hf. by apply key_in_false in Hf.
  - intros k Hk. cbn [rows]. rewrite list_elem_of_In in Hk.
    destruct (rows w !! k) as [v|] eqn:E.
    + apply map_lookup_filter_Some. split; [done |]. by apply key_in_false.
    + apply map_lookup_filter_None. by left.
Qed.
End Batch.

Lemma mget_stored_keys_witness :
  exists l,
    mget healthy_batch ["device:1"; "device:9"; "device:1"] listing_world
    = (Ok l, listing_world)
    /\ (device_1 1 ∈ l)
    /\ (length l <= 3)%nat.
Proof.
  destruct (mget_stored_keys healthy_batch (fun _ _ => eq_refl)
              ["device:1"; "device:9"; "device:1"] listing_world)
    as (l & Hl & Hmem & Hlen & _).
  exists l. split; [exact Hl |]. split; [| exact Hlen].
  apply Hmem. exists "device:1". split; [| vm_compute; reflexivity].
  apply list_elem_of_In. left. reflexivity.
Defined.

Lemma mdel_then_mget_witness :
  exists w',
    mdel healthy_batch ["device:1"; "device:9"] listing_world = (Ok tt, w')
    /\ mget healthy_batch ["device:1"; "device:9"] w' = (Ok [], w')
    /\ rows w' !! "device:1" = None
    /\ rows w' !! "check:2025:8:device:1" = Some (pending_check "2025" "8").
Proof.
  destruct (mdel_then_mget healthy_batch (fun _ _ => eq_refl)
              ["device:1"; "device:9"] listing_world)
    as (w' & Hdel & Hget & Hgone & Hkept).
  exists w'. split; [exact Hdel |]. split; [exact Hget |]. split.
  - apply Hgone. apply list_elem_of_In. left. reflexivity.
  - rewrite Hkept; [vm_compute; reflexivity |].
    intros [H | [H | []]]%list_elem_of_In; discriminate H.
Defined.

End BatchProperties.

(* ===================================================================== *)
(** ** Device routes *)
(* ===================================================================== *)

Module DeviceProperties.
Import JS JsDate Kv KvBatch Server Outcome DeviceRoutes Naming Samples MoreSamples.
Import DateFacts HandlerFacts PrefixProperties.

Lemma prefix_append (p k : string) :
  String.prefix p k = true <-> exists r, k = p +:+ r.
Proof.
  revert k. induction p as [|c p IH]; intros k.
  - split; [by exists k | by destruct k].
  - destruct k as [|d k]; cbn [String.prefix].
    + split; [discriminate | by intros [r Hr]].
    + destruct (Ascii.ascii_dec c d) as [-> | Hne].
      * rewrite IH. split; intros [r Hr]; exists r.
        -- by rewrite Hr.
        -- by injection Hr.
      * split; [discriminate |]. intros [r Hr]. injection Hr as ? ?. done.
Qed.

Lemma plain_device : plain "device:".
Proof. reflexivity. Qed.

Lemma plain_check : plain "check:".
Proof. reflexivity. Qed.

Lemma plain_week_prefix year week :
  plain year -> plain week -> plain ("check:" +:+ year +:+ ":" +:+ week +:+ ":").
Proof.
  intros Hy Hw. repeat apply plain_append; done.
Qed.

Lemma week_prefix_key year week deviceId :
  ("check:" +:+ year +:+ ":" +:+ week +:+ ":") +:+ deviceId
  = check_key year week deviceId.
Proof. unfold check_key. by rewrite !append_assoc. Qed.

Lemma new_device_fields key (m : gmap string json) createdAt k :
  get_prop_opt (Some (new_device key (JObj m) createdAt)) k
  = if decide (k = "status") then Some (JStr "active")
    else if decide (k = "createdAt") then Some (JStr createdAt)
    else if decide (k = "id") then Some (default (JStr key) (m !! "id"))
    else m !! k.
Proof.
  unfold new_device, extend; cbn [fold_left fst snd get_prop_opt spread].
  rewrite !lookup_set_field, lookup_union.
  repeat case_decide; subst; try done.
  - rewrite lookup_singleton_eq. by destruct (m !! "id").
  - rewrite lookup_singleton_ne by done. by destruct (m !! k).
Qed.

Lemma device_key_prefix stamp suffix :
  String.prefix "device:" (device_key stamp suffix) = true
  /\ String.prefix "user:" (device_key stamp suffix) = false.
Proof.
  unfold device_key. set (r := pretty stamp +:+ ":" +:+ suffix). split.
  - apply prefix_append. by exists r.
  - reflexivity.
Qed.

Lemma sample_is_truthy ident :
  ToBoolean ident && sampleDeviceIds_has ident = sampleDeviceIds_has ident.
Proof.
  destruct ident as [[| | |[|]| |]|]; try done; apply andb_false_r.
Qed.

Lemma lookup_deleted {A} (f : A -> string) (l : list A) (t : gmap string json) k :
  fold_left (fun t x => delete (f x) t) l t !! k
  = if decide (k ∈ f <$> l) then None else t !! k.
Proof.
  revert t. induction l as [|x l IH]; intros t; [done |].
  cbn [fold_left]. rewrite IH. rewrite fmap_cons.
  destruct (decide (k ∈ f <$> l)) as [Hin | Hout].
  - rewrite decide_True by set_solver. done.
  - destruct (decide (k = f x)) as [-> | Hne].
    + rewrite decide_True by set_solver. apply lookup_delete_eq.
    + rewrite decide_False by set_solver. by apply lookup_delete_ne.
Qed.

Lemma of_device_value deviceId check :
  check <> JNull ->
  of_device deviceId check
  = Ok (is_string (get_prop_opt (Some check) "deviceId") deviceId).
Proof. intros H. unfold of_device. by rewrite get_prop_request. Qed.

Lemma ids_not_null (t : gmap string json) :
  ids_are_keys t ->
  forall k, String.prefix "check:" k = true -> t !! k <> Some JNull.
Proof. intros Hids k Hp Hk. by pose proof (Hids k JNull Hk Hp). Qed.

Lemma filter_r_throws {A} (p : A -> result bool) l x :
  In x l -> (exists e, p x = Throw e) -> exists e, filter_r p l = Throw e.
Proof.
  induction l as [|y l IH]; intros Hin Hx; [done |].
  cbn [filter_r]. destruct (p y) as [b|e] eqn:Hy; [| by exists e].
  destruct Hin as [-> | Hin].
  - destruct Hx as [e He]. congruence.
  - destruct (IH Hin Hx) as [e ->]. by exists e.
Qed.

Section Routes.
Variable PREVENT_AUTO_SEED : bool.
Variable db_error : gmap string json -> db_request -> option string.
Variable clock : nat -> Z.
Hypothesis healthy : no_faults db_error.

(** X4: for a year and a week free of the wildcards of the [like] filter
    ([%], [_], the backslash and [*]), the week listing answers with the
    checks stored under the keys [check:<year>:<week>:<deviceId>], all of
    them and nothing else, and changes nothing. *)
Theorem weekly_plan_lists_the_week year week w :
  plain year -> plain week ->
  exists l,
    get_weekly_plan db_error year week w = (Response 200 (JArr l), w)
    /\ forall v, v ∈ l <->
         exists deviceId, rows w !! check_key year week deviceId = Some v.
Proof.
  intros Hy Hw.
  eexists. split.
  - unfold get_weekly_plan, handler, weekly_plan_body.
    unfold mbind, M_bind, bind, Kv.getByPrefix. rewrite healthy. reflexivity.
  - intros v. rewrite list_elem_of_In, scan_values.
    setoid_rewrite like_plain; [| by apply plain_week_prefix]. split.
    + intros (k & Hk & [r ->]%prefix_append). exists r.
      by rewrite <- week_prefix_key.
    + intros [r Hr]. exists (check_key year week r). split; [done |].
      apply prefix_append. exists r. by rewrite week_prefix_key.
Qed.

(** A pattern with an underscore after a literal prefix. *)
Lemma like_one_character prefix pat key :
  plain prefix ->
  like_match (list_ascii_of_string prefix ++ "_"%char :: pat)
             (list_ascii_of_string key) = true
  <-> exists c r, key = prefix +:+ String c r
                  /\ like_match pat (skip_continuation (list_ascii_of_string r))
                     = true.
Proof.
  unfold plain. revert key. induction prefix as [|a p IH]; intros key H.
  - cbn [list_ascii_of_string app]. destruct key as [|d key].
    + split; [discriminate | by intros (c & r & Hk & _)].
    + change (like_match ("_"%char :: pat) (list_ascii_of_string (String d key)))
        with (like_match pat (skip_continuation (list_ascii_of_string key))).
      split.
      * intros Hm. by exists d, key.
      * intros (c & r & Hk & Hm). injection Hk as -> ->. done.
  - cbn [list_ascii_of_string forallb] in H. apply andb_true_iff in H as [Ha Hp].
    cbn [list_ascii_of_string app]. rewrite like_match_literal by done.
    destruct key as [|d key].
    + split; [discriminate | by intros (c & r & Hk & _)].
    + cbn [list_ascii_of_string]. rewrite andb_true_iff, IH by done.
      split.
      * intros [->%Ascii.eqb_eq (c & r & -> & Hm)]. by exists c, r.
      * intros (c & r & Hk & Hm). injection Hk as -> ->.
        split; [apply Ascii.eqb_refl | by exists c, r].
Qed.

(** What follows the continuation bytes at the head of a string. *)
Lemma skip_continuation_split (r : string) :
  exists a b, r = a +:+ b
              /\ forallb is_continuation (list_ascii_of_string a) = true
              /\ skip_continuation (list_ascii_of_string r)
                 = list_ascii_of_string b.
Proof.
  induction r as [|c r (a & b & Hr & Ha & Hs)].
  - by exists EmptyString, EmptyString.
  - cbn [list_ascii_of_string skip_continuation].
    destruct (is_continuation c) eqn:Hc.
    + exists (String c a), b. rewrite Hr at 1.
      cbn [list_ascii_of_string forallb]. by rewrite Hc, Ha.
    + by exists EmptyString, (String c r).
Qed.

Lemma skip_continuation_colon (a d : string) :
  forallb is_continuation (list_ascii_of_string a) = true ->
  skip_continuation (list_ascii_of_string (a +:+ String ":" d))
  = list_ascii_of_string (String ":" d).
Proof.
  induction a as [|c a IH]; [done |].
  cbn [list_ascii_of_string forallb]. intros [Hc Ha]%andb_true_iff.
  change (list_ascii_of_string (String c a +:+ String ":" d))
    with (c :: list_ascii_of_string (a +:+ String ":" d)).
  cbn [skip_continuation]. rewrite Hc. by apply IH.
Qed.

(** X5: the week and year of the listing go into the pattern of the [like]
    filter as they come: a week given as [_] lists the checks of every week
    whose number is written with one character. *)
Theorem weekly_plan_wildcard_week year w :
  plain year ->
  exists l,
    get_weekly_plan db_error year "_" w = (Response 200 (JArr l), w)
    /\ forall v, v ∈ l <->
         exists week deviceId,
           one_character week = true
           /\ rows w !! check_key year week deviceId = Some v.
Proof.
  intros Hy. eexists. split.
  - unfold get_weekly_plan, handler, weekly_plan_body.
    unfold mbind, M_bind, bind, Kv.getByPrefix. rewrite healthy. reflexivity.
  - intros v. rewrite list_elem_of_In, scan_values.
    assert (E : forall k,
               like (("check:" +:+ year +:+ ":" +:+ "_" +:+ ":") +:+ "%") k = true
               <-> exists week deviceId,
                     one_character week = true
                     /\ k = check_key year week deviceId).
    { intros k. unfold like.
      replace (("check:" +:+ year +:+ ":" +:+ "_" +:+ ":") +:+ "%")
        with (("check:" +:+ year +:+ ":") +:+ "_:%")
        by (by rewrite !append_assoc).
      rewrite chars_append, List.map_app, star_plain
        by (repeat apply plain_append; done).
      change (List.map star (list_ascii_of_string "_:%"))
        with ["_"; ":"; "%"]%char.
      rewrite like_one_character by (repeat apply plain_append; done).
      split.
      - intros (c & r & -> & Hm).
        destruct (skip_continuation_split r) as (a & b & -> & Ha & Hs).
        rewrite Hs in Hm. destruct b as [|d b]; [discriminate |].
        cbn [list_ascii_of_string] in Hm.
        rewrite (like_match_literal ":" ["%"%char]) in Hm by done.
        apply andb_true_iff in Hm as [<-%Ascii.eqb_eq _].
        exists (String c a), b. split; [exact Ha |].
        unfold check_key. rewrite !append_assoc.
        change (String c a +:+ ":" +:+ b) with (String c (a +:+ ":" +:+ b)).
        done.
      - intros (week & deviceId & Hone & ->).
        destruct week as [|c a]; [discriminate |].
        exists c, (a +:+ ":" +:+ deviceId). split.
        + unfold check_key. rewrite !append_assoc. done.
        + change (":" +:+ deviceId) with (String ":" deviceId).
          rewrite skip_continuation_colon by exact Hone.
          cbn [list_ascii_of_string].
          rewrite (like_match_literal ":" ["%"%char]) by done.
          by rewrite DelayedProperties.like_anything. }
    split.
    + intros (k & Hk & (week & deviceId & Hone & ->)%E). by exists week, deviceId.
    + intros (week & deviceId & Hone & Hk). eexists. split; [exact Hk |].
      apply E. by exists week, deviceId.
Qed.

(** *** [POST /devices] *)

Lemma run_Date_now {A} (k : Z -> M A) w :
  (Date_now clock ≫= k) w = k (clock (reads w)) (World (rows w) (S (reads w))).
Proof. done. Qed.

Lemma run_set_skipped {A} key v (k : unit -> M A) w :
  guard_skips PREVENT_AUTO_SEED key v = true ->
  (Kv.set PREVENT_AUTO_SEED db_error key v ≫= k) w = k tt w.
Proof. intros H. unfold mbind, M_bind, bind, Kv.set. by rewrite H. Qed.

(** The guard of [set] on a new device looks at the
    [identificationNumber] of the request body only. *)
Lemma device_guard stamp suffix (m : gmap string json) createdAt :
  guard_skips PREVENT_AUTO_SEED (device_key stamp suffix)
    (new_device (device_key stamp suffix) (JObj m) createdAt)
  = PREVENT_AUTO_SEED && sampleDeviceIds_has (m !! "identificationNumber").
Proof.
  unfold guard_skips. destruct (device_key_prefix stamp suffix) as [-> ->].
  cbn [andb]. rewrite sample_is_truthy, new_device_fields.
  repeat (case_decide; [discriminate |]). by destruct PREVENT_AUTO_SEED, (sampleDeviceIds_has _).
Qed.

Lemma post_devices_run suffix deviceData w :
  Z.abs (clock (S (reads w))) <= 8640000000000000 ->
  let deviceId := device_key (clock (reads w)) suffix in
  let device := new_device deviceId deviceData (ISOString (clock (S (reads w)))) in
  post_devices PREVENT_AUTO_SEED db_error clock suffix deviceData w
  = (Response 200 (object [("success", Some (JBool true)); ("device", Some device)]),
     World (put PREVENT_AUTO_SEED deviceId device (rows w)) (S (S (reads w)))).
Proof.
  intros Hclk. cbv zeta. unfold post_devices, handler, devices_post_body.
  rewrite run_Date_now, run_now_iso by done. cbn [rows reads].
  by rewrite run_set.
Qed.

(** X6: [POST /devices] stores the device under a key made of the clock
    reading and the random suffix.  The stored object is the request body
    with [status] set to ['active'] and [createdAt] to the time of the
    call, whatever the body says; its [id] is the body's [id] when the body
    has one, and the key otherwise.  No other row changes. *)
Theorem post_devices_stores suffix (m : gmap string json) w :
  Z.abs (clock (S (reads w))) <= 8640000000000000 ->
  PREVENT_AUTO_SEED && sampleDeviceIds_has (m !! "identificationNumber") = false ->
  let key := device_key (clock (reads w)) suffix in
  let out := post_devices PREVENT_AUTO_SEED db_error clock suffix (JObj m) w in
  exists device,
    fst out = Response 200 (object [("success", Some (JBool true));
                                   ("device", Some device)])
    /\ rows (snd out) = <[key := device]> (rows w)
    /\ get_prop_opt (Some device) "status" = Some (JStr "active")
    /\ get_prop_opt (Some device) "createdAt"
       = Some (JStr (ISOString (clock (S (reads w)))))
    /\ get_prop_opt (Some device) "id" = Some (default (JStr key) (m !! "id"))
    /\ forall k, k ∉ ["id"; "createdAt"; "status"] ->
                 get_prop_opt (Some device) k = m !! k.
Proof.
  intros Hclk Hguard. cbv zeta. rewrite post_devices_run by done.
  eexists. split; [reflexivity |]. cbn [snd rows]. split; [| split; [| split; [| split]]].
  - unfold put. by rewrite device_guard, Hguard.
  - by rewrite new_device_fields.
  - by rewrite new_device_fields.
  - by rewrite new_device_fields.
  - intros k Hk. rewrite new_device_fields.
    repeat case_decide; subst; try done; exfalso; apply Hk; set_solver.
Qed.

(** *** [GET /devices] *)

Lemma devices_run w :
  get_devices db_error w
  = (Response 200
       (JArr (List.map snd
                (List.filter (fun kv => like ("device:" +:+ "%") (fst kv))
                             (map_to_list (rows w))))), w).
Proof.
  unfold get_devices, handler, devices_body.
  unfold mbind, M_bind, bind, Kv.getByPrefix. by rewrite healthy.
Qed.

(** X7: a device created by [POST /devices] is in the answer of a
    following [GET /devices], next to the devices that were stored
    before. *)
Theorem created_device_is_listed suffix (m : gmap string json) w :
  Z.abs (clock (S (reads w))) <= 8640000000000000 ->
  PREVENT_AUTO_SEED && sampleDeviceIds_has (m !! "identificationNumber") = false ->
  let key := device_key (clock (reads w)) suffix in
  let out := post_devices PREVENT_AUTO_SEED db_error clock suffix (JObj m) w in
  exists device l,
    get_prop_opt (Some (body (fst out))) "device" = Some device
    /\ get_devices db_error (snd out) = (Response 200 (JArr l), snd out)
    /\ (device ∈ l)
    /\ forall k v, String.prefix "device:" k = true -> rows w !! k = Some v ->
                   k <> key -> v ∈ l.
Proof.
  intros Hclk Hguard. cbv zeta. rewrite post_devices_run by done.
  unfold put. rewrite device_guard, Hguard.
  eexists. eexists. split; [| split; [| split]].
  - unfold object, extend. cbn [fst body fold_left snd get_prop_opt].
    rewrite !lookup_set_field. reflexivity.
  - cbn [snd]. apply devices_run.
  - rewrite list_elem_of_In, scan_values. eexists. cbn [rows]. split.
    + apply lookup_insert_eq.
    + rewrite like_plain by apply plain_device.
      apply device_key_prefix.
  - intros k v Hp Hk Hne. rewrite list_elem_of_In, scan_values. exists k.
    cbn [rows]. rewrite lookup_insert_ne by done.
    by rewrite like_plain by apply plain_device.
Qed.

(** *** [DELETE /devices/:deviceId] *)

Lemma run_del {A} key (k : unit -> M A) w :
  (Kv.del db_error key ≫= k) w
  = k tt (World (delete key (rows w)) (reads w)).
Proof. unfold mbind, M_bind, bind, Kv.del. by rewrite healthy. Qed.

(** The loop that deletes the checks of the device. *)
Lemma run_cascade l w :
  (forall check, In check l -> check <> JNull) ->
  for_each l (fun check =>
    id ← lift (get_prop (Some check) "id");
    Kv.del db_error (ToString id)) w
  = (Ok tt,
     World (fold_left
              (fun t check => delete (ToString (get_prop_opt (Some check) "id")) t)
              l (rows w))
           (reads w)).
Proof.
  revert w. induction l as [|x l IH]; intros w Hl; [by destruct w |].
  cbn [for_each fold_left]. unfold mbind at 1, M_bind at 1, bind at 1.
  rewrite get_prop_request by (apply Hl; by left).
  rewrite run_lift. unfold Kv.del. rewrite healthy.
  rewrite IH by (intros; apply Hl; by right). done.
Qed.

(** X8: [DELETE /devices/:deviceId] answers 404 and changes nothing when
    no device (no truthy value) is stored under the id.  Otherwise, in a
    store whose checks carry their key as [id], it removes the row of the
    device and the rows of all the checks whose [deviceId] is the id,
    and no other row: plans that list the device stay as they are. *)
Theorem delete_device_cascade deviceId w :
  ids_are_keys (rows w) ->
  delete_device db_error deviceId w
  = if ToBoolean (rows w !! deviceId)
    then (Response 200
            (object [("success", Some (JBool true));
                     ("message",
                      str "Device and associated records deleted successfully")]),
          World (without_device deviceId (rows w)) (reads w))
    else (error_response 404 "Device not found", w).
Proof.
  intros Hids. pose proof (ids_not_null _ Hids) as Hnull.
  unfold delete_device, handler, device_delete_body.
  rewrite run_get by done.
  destruct (ToBoolean (rows w !! deviceId)); cbn [negb]; [| done].
  unfold mbind at 1, M_bind at 1, bind at 1, Kv.getByPrefix at 1.
  rewrite healthy.
  set (allChecks := List.map snd _).
  assert (Hall : forall v, In v allChecks <->
                   exists k, rows w !! k = Some v /\ String.prefix "check:" k = true).
  { intros v. unfold allChecks. rewrite scan_values.
    by setoid_rewrite (like_plain "check:" _ plain_check). }
  set (q := fun check => is_string (get_prop_opt (Some check) "deviceId") deviceId).
  assert (Hfilter : filter_r (of_device deviceId) allChecks
                    = Ok (List.filter q allChecks)).
  { apply DelayedProperties.filter_r_total. intros v (k & Hk & Hp)%Hall.
    apply of_device_value. intros ->. by apply (Hnull k). }
  rewrite Hfilter, run_lift.
  unfold mbind at 1, M_bind at 1, bind at 1.
  rewrite run_cascade.
  2:{ intros v [(k & Hk & Hp)%Hall _]%filter_In ->. by apply (Hnull k). }
  rewrite run_del. cbn [rows reads]. unfold mret, M_ret, ret. f_equal. f_equal.
  apply map_eq. intros k. unfold without_device.
  destruct (decide (k = deviceId)) as [-> | Hne].
  - rewrite lookup_delete_eq. symmetry. apply map_lookup_filter_None.
    right. intros v _ [H _]. done.
  - rewrite lookup_delete_ne by done. rewrite lookup_deleted.
    destruct (rows w !! k) as [v|] eqn:Hk.
    + destruct (String.prefix "check:" k && q v) eqn:Hq.
      * apply andb_true_iff in Hq as [Hp Hq].
        rewrite decide_True.
        -- symmetry. apply map_lookup_filter_None. right.
           intros v' Hv' [_ H]. cbn [fst snd] in H.
           rewrite Hk in Hv'. injection Hv' as <-. unfold q in Hq.
           rewrite Hp, Hq in H. discriminate.
        -- apply list_elem_of_fmap. exists v. split.
           ++ by rewrite (Hids k v Hk Hp).
           ++ apply list_elem_of_In, filter_In. split; [| done].
              apply Hall. by exists k.
      * rewrite decide_False.
        -- symmetry. apply map_lookup_filter_Some. split; [done |].
           cbn [fst snd]. done.
        -- intros (v' & Hid & Hin)%list_elem_of_fmap.
           apply list_elem_of_In, filter_In in Hin as [(k' & Hk' & Hp')%Hall Hq'].
           rewrite (Hids k' v' Hk' Hp') in Hid. cbn in Hid. subst k'.
           rewrite Hk in Hk'. injection Hk' as <-.
           rewrite Hp', Hq' in Hq. discriminate.
    + destruct (decide _); symmetry; apply map_lookup_filter_None; by left.
Qed.

(** *** [GET /devices/by-location/:location] *)

(** X9: the search by location reads [location.toLowerCase()] of every
    stored device.  One device whose [location] is not a string makes
    every search fail with status 500, whatever location is asked for. *)
Theorem by_location_needs_every_location location w k v :
  rows w !! k = Some v ->
  String.prefix "device:" k = true ->
  (forall s, get_prop_opt (Some v) "location" <> Some (JStr s)) ->
  get_devices_by_location db_error location w
  = (error_response 500 "Failed to fetch devices by location", w).
Proof.
  intros Hk Hp Hloc. unfold get_devices_by_location, handler, by_location_body.
  unfold mbind at 1, M_bind at 1, bind at 1, Kv.getByPrefix at 1.
  rewrite healthy.
  set (allDevices := List.map snd _).
  destruct (filter_r_throws (at_location location) allDevices v) as [e He].
  - unfold allDevices. apply scan_values. exists k. split; [done |].
    by rewrite like_plain by apply plain_device.
  - unfold at_location. destruct v as [| | | | |m]; cbn; eauto.
    destruct (m !! "location") as [[]|] eqn:E; eauto.
    exfalso. apply (Hloc s). cbn. done.
  - unfold mbind, M_bind, bind, lift. by rewrite He.
Qed.
End Routes.

(** X10: with [PREVENT_AUTO_SEED] on, [POST /devices] with one of the
    sample identification numbers answers 200 with [success: true] and the
    device object, but stores nothing, whatever the state of the
    database. *)
Theorem post_devices_sample_not_stored db_error clock suffix
    (m : gmap string json) w :
  Z.abs (clock (S (reads w))) <= 8640000000000000 ->
  sampleDeviceIds_has (m !! "identificationNumber") = true ->
  let out := post_devices true db_error clock suffix (JObj m) w in
  status (fst out) = 200
  /\ get_prop_opt (Some (body (fst out))) "success" = Some (JBool true)
  /\ is_Some (get_prop_opt (Some (body (fst out))) "device")
  /\ rows (snd out) = rows w.
Proof.
  intros Hclk Hsample. cbv zeta. unfold post_devices, handler, devices_post_body.
  rewrite run_Date_now, run_now_iso by done. cbn [rows reads].
  rewrite run_set_skipped by (by rewrite device_guard, Hsample).
  unfold mret, M_ret, ret, object, extend.
  cbn [fst snd status body rows fold_left get_prop_opt].
  rewrite !lookup_set_field. cbn. by repeat split.
Qed.

Section Clear.
Variable db_error : gmap string json -> db_request -> option string.
Hypothesis healthy : no_faults db_error.

Lemma run_delete_rows (l : list (string * json)) w :
  for_each l (fun row => Kv.del db_error (fst row)) w
  = (Ok tt,
     World (fold_left (fun t row => delete (fst row) t) l (rows w)) (reads w)).
Proof.
  revert w. induction l as [|x l IH]; intros w; [by destruct w |].
  cbn [for_each fold_left]. unfold mbind at 1, M_bind at 1, bind at 1.
  unfold Kv.del. rewrite healthy. by rewrite IH.
Qed.

Lemma found_keys prefix (t : gmap string json) k :
  plain prefix ->
  k ∈ fst <$> List.filter (fun kv => like (prefix +:+ "%") (fst kv)) (map_to_list t)
  <-> is_Some (t !! k) /\ String.prefix prefix k = true.
Proof.
  intros Hp. rewrite list_elem_of_fmap. split.
  - intros ([k' v] & -> & [Hv Hl]%list_elem_of_In%scan_rows).
    rewrite like_plain in Hl by done. by split; [exists v |].
  - intros [[v Hv] Hk]. exists (k, v). split; [done |].
    apply list_elem_of_In, scan_rows. by rewrite like_plain.
Qed.

(** X11: [DELETE /clear-devices] removes every row whose key starts with
    [device:], [check:] or [plan:], and no other row (users and documents
    stay).  The three counts it answers with are the numbers of keys it
    found in the three namespaces. *)
Theorem clear_devices_clears w :
  exists devices checks plans : list string,
    NoDup devices /\ NoDup checks /\ NoDup plans
    /\ (forall k, k ∈ devices <->
          is_Some (rows w !! k) /\ String.prefix "device:" k = true)
    /\ (forall k, k ∈ checks <->
          is_Some (rows w !! k) /\ String.prefix "check:" k = true)
    /\ (forall k, k ∈ plans <->
          is_Some (rows w !! k) /\ String.prefix "plan:" k = true)
    /\ clear_devices db_error w
       = (Response 200
            (object [("success", Some (JBool true));
                     ("message",
                      str "All devices and checks cleared successfully");
                     ("cleared",
                      Some (object [("devices", count devices);
                                    ("checks", count checks);
                                    ("plans", count plans)]))]),
          World (without_devices (rows w)) (reads w)).
Proof.
  set (found := fun prefix : string =>
                  List.filter (fun kv : string * json => like (prefix +:+ "%") (fst kv))
                              (map_to_list (rows w))).
  exists (fst <$> found "device:"), (fst <$> found "check:"), (fst <$> found "plan:").
  split; [| split; [| split; [| split; [| split; [| split]]]]].
  - apply BatchProperties.filter_keys_NoDup, NoDup_fst_map_to_list.
  - apply BatchProperties.filter_keys_NoDup, NoDup_fst_map_to_list.
  - apply BatchProperties.filter_keys_NoDup, NoDup_fst_map_to_list.
  - intros k. by apply found_keys.
  - intros k. by apply found_keys.
  - intros k. by apply found_keys.
  - unfold clear_devices, handler, clear_devices_body.
    unfold mbind at 1, M_bind at 1, bind at 1, getByPrefixWithKeys at 1.
    rewrite healthy. fold (found "device:").
    unfold mbind at 1, M_bind at 1, bind at 1, getByPrefixWithKeys at 1.
    rewrite healthy. fold (found "check:").
    unfold mbind at 1, M_bind at 1, bind at 1, getByPrefixWithKeys at 1.
    rewrite healthy. fold (found "plan:").
    unfold mbind at 1, M_bind at 1, bind at 1. rewrite run_delete_rows.
    unfold mbind at 1, M_bind at 1, bind at 1. rewrite run_delete_rows.
    unfold mbind at 1, M_bind at 1, bind at 1. rewrite run_delete_rows.
    cbn [rows reads]. unfold mret, M_ret, ret, count. rewrite !length_map.
    f_equal. f_equal. apply map_eq. intros k.
    rewrite !lookup_deleted. unfold without_devices.
    pose proof (found_keys "device:" (rows w) k plain_device) as Hd.
    pose proof (found_keys "check:" (rows w) k plain_check) as Hc.
    pose proof (found_keys "plan:" (rows w) k eq_refl) as Hp.
    fold (found "device:") in Hd. fold (found "check:") in Hc.
    fold (found "plan:") in Hp.
    destruct (rows w !! k) as [v|] eqn:Hk.
    + destruct (kept_by_clear k) eqn:Hkept.
      * pose proof Hkept as Hkept'.
        unfold kept_by_clear in Hkept. apply negb_true_iff in Hkept.
        apply orb_false_iff in Hkept as [[H1 H2]%orb_false_iff H3].
        rewrite !decide_False by (intros H; apply Hd in H || apply Hc in H
                                  || apply Hp in H; destruct H; congruence).
        symmetry. apply map_lookup_filter_Some. by split.
      * assert (Hgone : filter (fun kv : string * json => kept_by_clear kv.1 = true)
                          (rows w) !! k = None).
        { apply map_lookup_filter_None. right. intros v' _ H. cbn [fst] in H.
          congruence. }
        rewrite Hgone. unfold kept_by_clear in Hkept.
        apply negb_false_iff in Hkept.
        apply orb_true_iff in Hkept as [[H|H]%orb_true_iff | H].
        -- destruct (decide (k ∈ fst <$> found "plan:")); [done |].
           destruct (decide (k ∈ fst <$> found "check:")); [done |].
           rewrite decide_True; [done |]. apply Hd. by split; [exists v |].
        -- destruct (decide (k ∈ fst <$> found "plan:")); [done |].
           rewrite decide_True; [done |]. apply Hc. by split; [exists v |].
        -- rewrite decide_True; [done |]. apply Hp. by split; [exists v |].
    + assert (Hnone : filter (fun kv : string * json => kept_by_clear kv.1 = true)
                        (rows w) !! k = None).
      { apply map_lookup_filter_None. by left. }
      rewrite Hnone. by repeat destruct (decide _).
Qed.
End Clear.

Lemma clear_devices_clears_witness :
  exists devices checks plans : list string,
    fst (clear_devices healthy_db after_two_plans)
    = Response 200
        (object [("success", Some (JBool true));
                 ("message", str "All devices and checks cleared successfully");
                 ("cleared",
                  Some (object [("devices", count devices);
                                ("checks", count checks);
                                ("plans", count plans)]))])
    /\ ("plan:2025:10" ∈ plans)
    /\ rows (snd (clear_devices healthy_db after_two_plans)) !! "plan:2025:10" = None.
Proof.
  destruct (clear_devices_clears healthy_db (fun _ _ => eq_refl) after_two_plans)
    as (devices & checks & plans & _ & _ & _ & _ & _ & Hp & Hrun).
  exists devices, checks, plans. rewrite Hrun. split; [reflexivity |]. split.
  - apply Hp. split; [| reflexivity]. vm_compute. eexists. reflexivity.
  - vm_compute. reflexivity.
Defined.

Lemma ids_are_keys_insert key v (t : gmap string json) :
  ids_are_keys t ->
  (String.prefix "check:" key = true ->
   get_prop_opt (Some v) "id" = Some (JStr key)) ->
  ids_are_keys (<[key := v]> t).
Proof.
  intros Ht Hv k x Hk Hp. destruct (decide (k = key)) as [-> | Hne].
  - rewrite lookup_insert_eq in Hk. injection Hk as <-. by apply Hv.
  - rewrite lookup_insert_ne in Hk by done. by apply Ht.
Qed.

Lemma ids_are_keys_workshop : ids_are_keys (rows workshop).
Proof.
  unfold workshop, listing_world. cbn [rows].
  repeat (apply ids_are_keys_insert;
          [| first [ discriminate | intros _; vm_compute; reflexivity ]]).
  intros k v Hk. by rewrite lookup_empty in Hk.
Qed.

Lemma weekly_plan_lists_the_week_witness :
  exists l,
    get_weekly_plan healthy_db "2025" "8" workshop = (Response 200 (JArr l), workshop)
    /\ (pending_check "2025" "8" ∈ l)
    /\ (check_of "device:2" "2025" "8" ∈ l).
Proof.
  destruct (weekly_plan_lists_the_week healthy_db (fun _ _ => eq_refl) "2025" "8" workshop)
    as (l & Hl & Hmem); [reflexivity | reflexivity |].
  exists l. split; [exact Hl |]. split; apply Hmem.
  - exists "device:1". vm_compute. reflexivity.
  - exists "device:2". vm_compute. reflexivity.
Defined.

Lemma weekly_plan_wildcard_week_witness :
  exists l,
    get_weekly_plan healthy_db "2025" "_" workshop = (Response 200 (JArr l), workshop)
    /\ (pending_check "2025" "8" ∈ l)
    /\ (completed_check "2025" "9" ∈ l).
Proof.
  destruct (weekly_plan_wildcard_week healthy_db (fun _ _ => eq_refl) "2025" workshop)
    as (l & Hl & Hmem); [reflexivity |].
  exists l. split; [exact Hl |]. split; apply Hmem.
  - exists "8", "device:1". split; vm_compute; reflexivity.
  - exists "9", "device:1". split; vm_compute; reflexivity.
Defined.

Lemma post_devices_stores_witness :
  exists device,
    fst (post_devices true healthy_db ticking "k3j9x2m1q" (JObj (press "P-3")) workshop)
    = Response 200 (object [("success", Some (JBool true)); ("device", Some device)])
    /\ rows (snd (post_devices true healthy_db ticking "k3j9x2m1q"
                    (JObj (press "P-3")) workshop))
       = <[device_key 1740960000000 "k3j9x2m1q" := device]> (rows workshop)
    /\ get_prop_opt (Some device) "status" = Some (JStr "active")
    /\ get_prop_opt (Some device) "id"
       = Some (JStr (device_key 1740960000000 "k3j9x2m1q"))
    /\ get_prop_opt (Some device) "name" = Some (JStr "Press").
Proof.
  destruct (post_devices_stores true healthy_db ticking (fun _ _ => eq_refl)
              "k3j9x2m1q" (press "P-3") workshop)
    as (device & Hans & Hrows & Hstatus & _ & Hid & Hframe);
    [vm_compute; discriminate | reflexivity |].
  exists device. split; [exact Hans |]. split; [exact Hrows |].
  split; [exact Hstatus |]. split; [exact Hid |].
  rewrite Hframe; [reflexivity |].
  rewrite !not_elem_of_cons. repeat split; (discriminate || apply not_elem_of_nil).
Defined.

Lemma created_device_is_listed_witness :
  exists device l,
    get_prop_opt
      (Some (body (fst (post_devices false healthy_db ticking "k3j9x2m1q"
                          (JObj (press "P-3")) workshop)))) "device"
    = Some device
    /\ fst (get_devices healthy_db
              (snd (post_devices false healthy_db ticking "k3j9x2m1q"
                      (JObj (press "P-3")) workshop)))
       = Response 200 (JArr l)
    /\ (device ∈ l)
    /\ (device_1 1 ∈ l).
Proof.
  destruct (created_device_is_listed false healthy_db ticking (fun _ _ => eq_refl)
              "k3j9x2m1q" (press "P-3") workshop)
    as (device & l & Hdev & Hl & Hin & Hold);
    [vm_compute; discriminate | reflexivity |].
  exists device, l. split; [exact Hdev |]. split; [by rewrite Hl |].
  split; [exact Hin |].
  apply (Hold "device:1"); [reflexivity | vm_compute; reflexivity | discriminate].
Defined.

Lemma post_devices_sample_not_stored_witness :
  status (fst (post_devices true healthy_db ticking "k3j9x2m1q"
                 (JObj (press "HP-001")) workshop)) = 200
  /\ rows (snd (post_devices true healthy_db ticking "k3j9x2m1q"
                  (JObj (press "HP-001")) workshop))
     = rows workshop.
Proof.
  destruct (post_devices_sample_not_stored healthy_db ticking "k3j9x2m1q"
              (press "HP-001") workshop) as (Hs & _ & _ & Hrows);
    [vm_compute; discriminate | reflexivity |].
  split; [exact Hs | exact Hrows].
Defined.

Lemma delete_device_cascade_witness :
  fst (delete_device healthy_db "device:1" workshop)
  = Response 200
      (object [("success", Some (JBool true));
               ("message",
                str "Device and associated records deleted successfully")])
  /\ rows (snd (delete_device healthy_db "device:1" workshop))
     = <["check:2025:8:device:2" := check_of "device:2" "2025" "8"]>
         (<["device:2" := JObj (press "P-2")]> ∅)
  /\ fst (delete_device healthy_db "device:9" workshop)
     = error_response 404 "Device not found".
Proof.
  pose proof (delete_device_cascade healthy_db (fun _ _ => eq_refl) "device:1" workshop
                ids_are_keys_workshop) as H1.
  pose proof (delete_device_cascade healthy_db (fun _ _ => eq_refl) "device:9" workshop
                ids_are_keys_workshop) as H9.
  rewrite H1, H9. split; [reflexivity |]. split; [| reflexivity].
  vm_compute. reflexivity.
Defined.

Lemma by_location_needs_every_location_witness :
  get_devices_by_location healthy_db "hall" workshop
  = (error_response 500 "Failed to fetch devices by location", workshop).
Proof.
  apply (by_location_needs_every_location healthy_db (fun _ _ => eq_refl) "hall" workshop
           "device:1" (device_1 1)); [reflexivity | reflexivity |].
  intros s. vm_compute. discriminate.
Defined.

End DeviceProperties.

(* ===================================================================== *)
(** ** What the routes keep *)
(* ===================================================================== *)

Module InvariantProperties.
Import JS JsDate Kv Server Outcome DeviceRoutes Naming Samples MoreSamples.
Import HandlerFacts.

Lemma in_place_insert key v (t : gmap string json) :
  in_place t -> fits key v -> in_place (<[key := v]> t).
Proof.
  intros [Hid Hkey] Hv. split; intros k x Hk Hp.
  - destruct (decide (k = key)) as [-> | Hne].
    + rewrite lookup_insert_eq in Hk. injection Hk as <-. by apply Hv.
    + rewrite lookup_insert_ne in Hk by done. by apply Hid.
  - destruct (decide (k = key)) as [-> | Hne].
    + rewrite lookup_insert_eq in Hk. injection Hk as <-. by apply Hv.
    + rewrite lookup_insert_ne in Hk by done. by apply Hkey.
Qed.

Lemma in_place_delete key (t : gmap string json) :
  in_place t -> in_place (delete key t).
Proof.
  intros [Hid Hkey]. split; intros k x Hk Hp;
    apply lookup_delete_Some in Hk as [_ Hk]; [by apply Hid | by apply Hkey].
Qed.

Lemma in_place_lookup key v (t : gmap string json) :
  in_place t -> t !! key = Some v -> fits key v.
Proof. intros [Hid Hkey] Hk Hp. split; [by apply Hid | by apply Hkey]. Qed.

Lemma fits_other key v : String.prefix "check:" key = false -> fits key v.
Proof. intros H Hp. congruence. Qed.

Lemma fits_updated_check key v completedBy completedAt comment :
  fits key v -> fits key (updated_check (Some v) completedBy completedAt comment).
Proof.
  intros Hv Hp. destruct (Hv Hp) as [Hid Hkey].
  destruct v as [| | | | |c]; try discriminate Hid.
  rewrite CompletionProperties.updated_check_triple. split; [| done].
  rewrite CompletionProperties.updated_check_frame; [done |].
  rewrite !not_elem_of_cons; repeat split; (discriminate || apply not_elem_of_nil).
Qed.

Lemma fits_updated_device key v completedAt completedBy :
  fits key v -> fits key (updated_device (Some v) completedAt completedBy).
Proof.
  intros Hv Hp. destruct (Hv Hp) as [Hid Hkey].
  destruct v as [| | | | |d]; try discriminate Hid.
  rewrite CompletionProperties.updated_device_triple. split; [| done].
  rewrite CompletionProperties.updated_device_frame; [done |].
  rewrite !not_elem_of_cons; repeat split; (discriminate || apply not_elem_of_nil).
Qed.

Lemma fits_next_check deviceId week year completedAt :
  let key := check_key (Number_toString year) (Number_toString week)
                       (ToString deviceId) in
  fits key (next_check key deviceId week year completedAt).
Proof.
  intros key _.
  destruct (CompletionProperties.next_check_fields key deviceId week year
              completedAt) as (Hi & Hd & Hy & Hw & _).
  split; [done |]. unfold triple, key_of_triple. cbn [fst snd].
  by rewrite Hd, Hy, Hw.
Qed.

Lemma fits_new_check deviceId week year assignedAt assignedBy :
  let key := check_key (ToString year) (ToString week) (ToString_json deviceId) in
  fits key (new_check key deviceId week year assignedAt assignedBy).
Proof.
  intros key _. rewrite PlanProperties.new_check_triple. split; [| done].
  unfold new_check, object, extend; cbn [fold_left fst snd get_prop_opt].
  by rewrite !lookup_set_field.
Qed.

(** *** Rules *)

Lemma keeps_ret {A} (a : A) (post : A -> Prop) : post a -> keeps (mret a) post.
Proof. intros H w Hw. split; [done |]. intros a' [= <-]. done. Qed.

Lemma keeps_lift {A} (r : result A) (post : A -> Prop) :
  (forall a, r = Ok a -> post a) -> keeps (lift r) post.
Proof. intros H w Hw. split; [done |]. intros a Ha. by apply H. Qed.

Lemma keeps_bind {A B} (m : M A) (f : A -> M B) (mid : A -> Prop)
    (post : B -> Prop) :
  keeps m mid -> (forall a, mid a -> keeps (f a) post) -> keeps (m ≫= f) post.
Proof.
  intros Hm Hf w Hw. destruct (Hm w Hw) as [Hrows Hres].
  unfold mbind, M_bind, bind. destruct (m w) as [[a|e] w'] eqn:E.
  - apply (Hf a); [by apply Hres | done].
  - split; [done | discriminate].
Qed.

Lemma keeps_weaken {A} (m : M A) (post post' : A -> Prop) :
  keeps m post -> (forall a, post a -> post' a) -> keeps m post'.
Proof.
  intros Hm H w Hw. destruct (Hm w Hw) as [Hrows Hres].
  split; [done |]. intros a Ha. by apply H, Hres.
Qed.

Lemma keeps_for_each {A} (l : list A) (body : A -> M unit) :
  (forall x, keeps (body x) (fun _ => True)) ->
  keeps (for_each l body) (fun _ => True).
Proof.
  intros Hbody. induction l as [|x l IH]; [by apply keeps_ret |].
  cbn [for_each]. apply keeps_bind with (mid := fun _ => True); [apply Hbody |].
  intros _ _. apply IH.
Qed.

Section Rules.
Variable PREVENT_AUTO_SEED : bool.
Variable db_error : gmap string json -> db_request -> option string.
Variable clock : nat -> Z.

Lemma keeps_now : keeps (now clock) (fun _ => True).
Proof. intros w Hw. done. Qed.

Lemma keeps_Date_now : keeps (Date_now clock) (fun _ => True).
Proof. intros w Hw. done. Qed.

Lemma keeps_stamp :
  keeps (now clock ≫= fun d => lift (toISOString d)) (fun _ => True).
Proof.
  apply keeps_bind with (mid := fun _ => True); [apply keeps_now |].
  intros d _. by apply keeps_lift.
Qed.

Lemma keeps_get key :
  keeps (Kv.get db_error key) (fun v => forall x, v = Some x -> fits key x).
Proof.
  intros w Hw. unfold Kv.get. destruct (db_error _ _); [done |].
  split; [done |]. intros a [= <-] x Hx. by apply in_place_lookup with (rows w).
Qed.

Lemma keeps_set key v :
  fits key v -> keeps (Kv.set PREVENT_AUTO_SEED db_error key v) (fun _ => True).
Proof.
  intros Hv w Hw. unfold Kv.set. destruct (guard_skips _ _ _); [done |].
  destruct (db_error _ _); [done |]. split; [| done].
  by apply in_place_insert.
Qed.

Lemma keeps_del key : keeps (Kv.del db_error key) (fun _ => True).
Proof.
  intros w Hw. unfold Kv.del. destruct (db_error _ _); [done |].
  split; [| done]. by apply in_place_delete.
Qed.

Lemma keeps_getByPrefix prefix :
  keeps (Kv.getByPrefix db_error prefix) (fun _ => True).
Proof. intros w Hw. unfold Kv.getByPrefix. by destruct (db_error _ _). Qed.

Lemma keeps_handler message (m : M response) w :
  keeps m (fun _ => True) -> in_place (rows w) ->
  in_place (rows (snd (handler message m w))).
Proof.
  intros Hm Hw. destruct (Hm w Hw) as [Hrows _]. unfold handler.
  by destruct (m w) as [[r|e] w'].
Qed.

Lemma keeps_weekly_plans req :
  keeps (weekly_plans_body PREVENT_AUTO_SEED db_error clock req) (fun _ => True).
Proof.
  unfold weekly_plans_body.
  do 4 (apply keeps_bind with (mid := fun _ => True);
        [by apply keeps_lift | intros ? _]).
  apply keeps_bind with (mid := fun _ => True); [apply keeps_stamp | intros ? _].
  apply keeps_bind with (mid := fun _ => True).
  { apply keeps_set, fits_other, PlanProperties.plan_key_not_check. }
  intros _ _.
  apply keeps_bind with (mid := fun _ => True); [by apply keeps_lift | intros ids _].
  apply keeps_bind with (mid := fun _ => True); [| intros; by apply keeps_ret].
  apply keeps_for_each. intros deviceId.
  apply keeps_bind with (mid := fun _ => True); [apply keeps_stamp | intros ? _].
  apply keeps_set, fits_new_check.
Qed.

Lemma keeps_complete tza checkId req :
  keeps (complete_body tza PREVENT_AUTO_SEED db_error clock checkId req)
        (fun _ => True).
Proof.
  unfold complete_body.
  do 2 (apply keeps_bind with (mid := fun _ => True);
        [by apply keeps_lift | intros ? _]).
  eapply keeps_bind; [apply keeps_get |]. intros check Hcheck.
  destruct (ToBoolean check) eqn:Tc; cbn [negb]; [| by apply keeps_ret].
  destruct check as [c|]; [| discriminate]. specialize (Hcheck c eq_refl).
  apply keeps_bind with (mid := fun _ => True); [by apply keeps_lift |].
  intros deviceId _.
  eapply keeps_bind; [apply keeps_get |]. intros device Hdevice.
  destruct (ToBoolean device) eqn:Td; cbn [negb]; [| by apply keeps_ret].
  destruct device as [d|]; [| discriminate]. specialize (Hdevice d eq_refl).
  apply keeps_bind with (mid := fun _ => True); [apply keeps_stamp |].
  intros completedAt _.
  apply keeps_bind with (mid := fun _ => True).
  { by apply keeps_set, fits_updated_check. }
  intros _ _.
  apply keeps_bind with (mid := fun _ => True).
  { by apply keeps_set, fits_updated_device. }
  intros _ _.
  apply keeps_bind with (mid := fun _ => True); [apply keeps_now |].
  intros currentDate _.
  apply keeps_bind with (mid := fun _ => True); [by apply keeps_lift |].
  intros plannedFrequency _.
  apply keeps_bind with (mid := fun _ => True).
  { apply keeps_set, fits_next_check. }
  intros _ _.
  apply keeps_bind with (mid := fun _ => True); [by apply keeps_lift |].
  intros; by apply keeps_ret.
Qed.

Lemma keeps_post_devices suffix deviceData :
  keeps (devices_post_body PREVENT_AUTO_SEED db_error clock suffix deviceData)
        (fun _ => True).
Proof.
  unfold devices_post_body.
  apply keeps_bind with (mid := fun _ => True); [apply keeps_Date_now |].
  intros stamp _.
  apply keeps_bind with (mid := fun _ => True); [apply keeps_stamp |].
  intros createdAt _.
  apply keeps_bind with (mid := fun _ => True); [| intros; by apply keeps_ret].
  apply keeps_set, fits_other. reflexivity.
Qed.

Lemma keeps_delete_device deviceId :
  keeps (device_delete_body db_error deviceId) (fun _ => True).
Proof.
  unfold device_delete_body.
  apply keeps_bind with (mid := fun _ => True).
  { eapply keeps_weaken; [apply keeps_get | done]. }
  intros device _.
  destruct (ToBoolean device); cbn [negb]; [| by apply keeps_ret].
  apply keeps_bind with (mid := fun _ => True); [apply keeps_getByPrefix |].
  intros allChecks _.
  apply keeps_bind with (mid := fun _ => True); [by apply keeps_lift |].
  intros deviceChecks _.
  apply keeps_bind with (mid := fun _ => True).
  { apply keeps_for_each. intros check.
    apply keeps_bind with (mid := fun _ => True); [by apply keeps_lift |].
    intros id _. apply keeps_del. }
  intros _ _.
  apply keeps_bind with (mid := fun _ => True); [apply keeps_del |].
  intros; by apply keeps_ret.
Qed.

Lemma keeps_getByPrefixWithKeys prefix :
  keeps (KvBatch.getByPrefixWithKeys db_error prefix) (fun _ => True).
Proof.
  intros w Hw. unfold KvBatch.getByPrefixWithKeys. by destruct (db_error _ _).
Qed.

Lemma keeps_clear_devices : keeps (clear_devices_body db_error) (fun _ => True).
Proof.
  unfold clear_devices_body.
  do 3 (apply keeps_bind with (mid := fun _ => True);
        [apply keeps_getByPrefixWithKeys | intros ? _]).
  do 3 (apply keeps_bind with (mid := fun _ => True);
        [apply keeps_for_each; intros row; apply keeps_del | intros _ _]).
  by apply keeps_ret.
Qed.

(** X12: every write of the edge function keeps the [check:] namespace in
    place: a row stored under a [check:] key has that key as its [id] and
    is the key its [year], [week] and [deviceId] give.  This holds for any
    request body, whatever the database answers and whatever the clock
    reads, also when the handler fails half-way with status 500. *)
Theorem routes_keep_checks_in_place tza w :
  in_place (rows w) ->
  (forall req,
     in_place (rows (snd (post_weekly_plans PREVENT_AUTO_SEED db_error clock
                            req w))))
  /\ (forall checkId req,
        in_place (rows (snd (put_complete tza PREVENT_AUTO_SEED db_error clock
                               checkId req w))))
  /\ (forall suffix deviceData,
        in_place (rows (snd (post_devices PREVENT_AUTO_SEED db_error clock
                               suffix deviceData w))))
  /\ (forall deviceId,
        in_place (rows (snd (delete_device db_error deviceId w))))
  /\ in_place (rows (snd (clear_devices db_error w))).
Proof.
  intros Hw. split; [| split; [| split; [| split]]]; intros;
    (apply keeps_handler; [| done]).
  - apply keeps_weekly_plans.
  - apply keeps_complete.
  - apply keeps_post_devices.
  - apply keeps_delete_device.
  - apply keeps_clear_devices.
Qed.
End Rules.

Lemma in_place_empty : in_place ∅.
Proof. split; intros k v Hk; by rewrite lookup_empty in Hk. Qed.

Lemma routes_keep_checks_in_place_witness :
  in_place (rows (snd (put_complete 0 false healthy_db ticking
                         "check:2025:8:device:1" (request_by "E1") workshop)))
  /\ in_place (rows (snd (delete_device healthy_db "device:1" workshop))).
Proof.
  destruct (routes_keep_checks_in_place false healthy_db ticking 0 workshop)
    as (_ & Hc & _ & Hd & _).
  - unfold workshop, listing_world. cbn [rows].
    repeat (apply in_place_insert;
            [| first [ by apply fits_other
                     | intros _; split; vm_compute; reflexivity ]]).
    apply in_place_empty.
  - split; [apply Hc | apply Hd].
Defined.

End InvariantProperties.

(* ===================================================================== *)
(** ** Numbers written and read back *)
(* ===================================================================== *)

Module NumberProperties.
Import JS.

Lemma small_digit (d : N) :
  (d < 10)%N ->
  d = 0%N \/ d = 1%N \/ d = 2%N \/ d = 3%N \/ d = 4%N \/ d = 5%N \/ d = 6%N
  \/ d = 7%N \/ d = 8%N \/ d = 9%N.
Proof. lia. Qed.

Ltac each_digit H :=
  apply small_digit in H;
  repeat (destruct H as [-> | H]); [.. | subst].

Lemma digit_val_char d :
  (d < 10)%N -> digit_val 10 (pretty_N_char d) = Some (Z.of_N d).
Proof. intros H. each_digit H; reflexivity. Qed.

Lemma char_not_white d : (d < 10)%N -> is_white (pretty_N_char d) = false.
Proof. intros H. each_digit H; reflexivity. Qed.

Lemma char_no_sign d l :
  (d < 10)%N -> strip_sign (pretty_N_char d :: l) = (1, pretty_N_char d :: l).
Proof. intros H. each_digit H; reflexivity. Qed.

Lemma chars_no_hex d ds :
  (d < 10)%N -> Forall (fun d => (d < 10)%N) ds ->
  strip_hex (List.map pretty_N_char (d :: ds)) = None.
Proof.
  intros H Hds. destruct ds as [|e ds].
  - each_digit H; reflexivity.
  - apply Forall_cons in Hds as [He _].
    each_digit H; try reflexivity. each_digit He; reflexivity.
Qed.

(** The decimal digits [pretty] writes, most significant first. *)
Lemma pretty_digits (x : N) s :
  exists ds,
    list_ascii_of_string (pretty_N_go x s)
    = (List.map pretty_N_char ds ++ list_ascii_of_string s)%list
    /\ Forall (fun d => (d < 10)%N) ds
    /\ fold_left (fun a d => a * 10 + Z.of_N d) ds 0 = Z.of_N x
    /\ ((0 < x)%N -> ds <> []).
Proof.
  revert s. induction (N.lt_wf_0 x) as [x _ IH]; intros s.
  destruct (decide (x = 0%N)) as [-> | Hx].
  - exists []. rewrite pretty_N_go_0. repeat split; [done | lia].
  - rewrite pretty_N_go_step by lia.
    destruct (IH (x `div` 10)%N) with (s := String (pretty_N_char (x `mod` 10)) s)
      as (ds & Hl & Hds & Hv & _); [apply N.div_lt; lia |].
    exists (ds ++ [(x `mod` 10)%N])%list. split; [| split; [| split]].
    + rewrite Hl, map_app, <- app_assoc. done.
    + apply Forall_app. split; [done |]. apply Forall_cons. split; [| done].
      apply N.mod_lt. lia.
    + rewrite fold_left_app. cbn [fold_left]. rewrite Hv.
      rewrite (N.div_mod x 10) at 3 by lia. lia.
    + intros _ E. by apply app_eq_nil in E as [_ E].
Qed.

Lemma read_digits_chars ds rest acc count :
  Forall (fun d => (d < 10)%N) ds ->
  read_digits 10 (List.map pretty_N_char ds ++ rest) acc count
  = read_digits 10 rest (fold_left (fun a d => a * 10 + Z.of_N d) ds acc)
                (count + length ds).
Proof.
  revert acc count. induction ds as [|d ds IH]; intros acc count Hds.
  - cbn. by rewrite Nat.add_0_r.
  - apply Forall_cons in Hds as [Hd Hds].
    cbn [List.map app read_digits fold_left length].
    rewrite digit_val_char by done. rewrite IH by done.
    by rewrite Nat.add_succ_r.
Qed.

Lemma parseInt_positive (p : positive) :
  parseInt_string (pretty (Npos p)) = Some (Zpos p)
  /\ parseInt_string ("-" +:+ pretty (Npos p)) = Some (Zneg p).
Proof.
  unfold pretty, pretty_N. rewrite decide_False by done.
  destruct (pretty_digits (Npos p) EmptyString) as (ds & Hl & Hds & Hv & Hne).
  destruct ds as [|d ds]; [by destruct Hne |].
  pose proof Hds as Hds'. apply Forall_cons in Hds' as [Hd Hds'].
  cbn [list_ascii_of_string] in Hl. rewrite app_nil_r in Hl.
  assert (Hread : read_digits 10 (List.map pretty_N_char (d :: ds)) 0 0
                  = (Zpos p, S (length ds), [])).
  { rewrite <- (app_nil_r (List.map _ _)), read_digits_chars by done.
    rewrite Hv. done. }
  unfold parseInt_string. split.
  - rewrite Hl. cbn [List.map skip_white]. rewrite (char_not_white d Hd).
    rewrite (char_no_sign d _ Hd).
    change (pretty_N_char d :: List.map pretty_N_char ds)
      with (List.map pretty_N_char (d :: ds)).
    rewrite (chars_no_hex d ds Hd Hds'), Hread. done.
  - change (list_ascii_of_string ("-" +:+ pretty_N_go (N.pos p) EmptyString))
      with ("-"%char :: list_ascii_of_string (pretty_N_go (N.pos p) EmptyString)).
    rewrite Hl.
    set (l := List.map pretty_N_char (d :: ds)) in *.
    change (skip_white ("-"%char :: l)) with ("-"%char :: l).
    change (strip_sign ("-"%char :: l)) with (-1, l). subst l. cbv iota.
    rewrite (chars_no_hex d ds Hd Hds'), Hread. done.
Qed.

Lemma parseInt_pretty (n : Z) : parseInt_string (pretty n) = Some n.
Proof. destruct n as [|p|p]; [done | apply parseInt_positive..]. Qed.

(** X13: a number written into a key or a field as a decimal string, as
    the completion does with the year and the week of the successor, is
    read back by [parseInt] as the same number; [NaN] is written as
    ['NaN'] and read back as [NaN].  A JSON number is read as itself.
    (Below 10^21, where a number is written without an exponent.) *)
Theorem parseInt_reads_back (n : Z) :
  Z.abs n < 10 ^ 21 ->
  parseInt (Some (JStr (Number_toString (Some n)))) = Some n
  /\ parseInt (Some (JNum n)) = Some n
  /\ parseInt (Some (JStr (Number_toString None))) = None.
Proof.
  intros H. change (10 ^ 21) with 1000000000000000000000 in H.
  unfold parseInt. cbn [ToString ToString_json].
  rewrite WeekFacts.Number_toString_small by done.
  pose proof (parseInt_pretty n). done.
Qed.

Lemma parseInt_reads_back_witness :
  parseInt (Some (JStr (Number_toString (Some 2025)))) = Some 2025
  /\ parseInt (Some (JNum 2025)) = Some 2025
  /\ parseInt (Some (JStr (Number_toString None))) = None.
Proof. apply (parseInt_reads_back 2025). reflexivity. Defined.

End NumberProperties.

(* ===================================================================== *)
(** ** Weekly plans with an unusual device list *)
(* ===================================================================== *)

Module PlanEdgeProperties.
Import JS JsDate Kv KvBatch Server Outcome Samples DeviceRoutes MoreSamples.
Import HandlerFacts PrefixProperties DeviceProperties.

Section Plan.
Variable PREVENT_AUTO_SEED : bool.
Variable db_error : gmap string json -> db_request -> option string.
Variable clock : nat -> Z.
Hypothesis healthy : no_faults db_error.

(** The request up to the loop: the plan row is written first. *)
Lemma plan_row_first req w :
  req <> JNull ->
  Z.abs (clock (reads w)) <= 8640000000000000 ->
  let week := get_prop_opt (Some req) "week" in
  let year := get_prop_opt (Some req) "year" in
  let deviceIds := get_prop_opt (Some req) "deviceIds" in
  let assignedBy := get_prop_opt (Some req) "assignedBy" in
  let planId := plan_key (ToString year) (ToString week) in
  let plan := new_plan planId week year deviceIds assignedBy
                       (ISOString (clock (reads w))) in
  post_weekly_plans PREVENT_AUTO_SEED db_error clock req w
  = handler "Failed to create weekly plan"
      (ids ← lift (iterate deviceIds);
       for_each ids (fun deviceId =>
         let checkId :=
           check_key (ToString year) (ToString week) (ToString_json deviceId) in
         assignedAt ← (d ← now clock; lift (toISOString d));
         Kv.set PREVENT_AUTO_SEED db_error checkId
           (new_check checkId deviceId week year assignedAt assignedBy));;
       mret (Response 200 (object [("success", Some (JBool true));
                                   ("plan", Some plan)])))
      (World (<[planId := plan]> (rows w)) (S (reads w))).
Proof.
  intros Hreq Hclk. cbv zeta.
  unfold post_weekly_plans, handler, weekly_plans_body.
  rewrite !(get_prop_request req) by done. rewrite !run_lift.
  rewrite run_now_iso by done.
  rewrite run_set by done. unfold put.
  by rewrite PlanProperties.plan_key_guard.
Qed.


Lemma plan_run_iterable req w ids :
  req <> JNull ->
  valid_clock clock ->
  iterate (get_prop_opt (Some req) "deviceIds") = Ok ids ->
  let week := get_prop_opt (Some req) "week" in
  let year := get_prop_opt (Some req) "year" in
  let assignedBy := get_prop_opt (Some req) "assignedBy" in
  let planId := plan_key (ToString year) (ToString week) in
  let plan := new_plan planId week year (get_prop_opt (Some req) "deviceIds")
                       assignedBy (ISOString (clock (reads w))) in
  post_weekly_plans PREVENT_AUTO_SEED db_error clock req w
  = (Response 200 (object [("success", Some (JBool true)); ("plan", Some plan)]),
     World (write_checks clock week year assignedBy ids (S (reads w))
              (<[planId := plan]> (rows w)))
           (S (reads w) + length ids)).
Proof.
  intros Hreq Hclk Hids. cbv zeta. rewrite plan_row_first by (done || apply Hclk).
  rewrite Hids. unfold handler. rewrite run_lift.
  unfold mbind at 1, M_bind at 1, bind at 1.
  by rewrite (PlanProperties.run_loop PREVENT_AUTO_SEED db_error clock
                (get_prop_opt (Some req) "week") (get_prop_opt (Some req) "year")
                (get_prop_opt (Some req) "assignedBy") healthy Hclk).
Qed.

Lemma write_checks_member week year assignedBy ids n t name :
  name ∈ ToString_json <$> ids ->
  exists x m,
    x ∈ ids
    /\ ToString_json x = name
    /\ write_checks clock week year assignedBy ids n t
       !! check_key (ToString year) (ToString week) name
       = Some (new_check
                 (check_key (ToString year) (ToString week) (ToString_json x))
                 x week year (ISOString (clock m)) assignedBy).
Proof.
  revert n t. induction ids as [|y ids IH]; intros n t Hin;
    [by apply elem_of_nil in Hin |].
  cbn [write_checks].
  destruct (decide (name ∈ ToString_json <$> ids)) as [Hl | Hn].
  - destruct (IH (S n)
                (<[check_key (ToString year) (ToString week) (ToString_json y)
                   := new_check
                        (check_key (ToString year) (ToString week)
                           (ToString_json y))
                        y week year (ISOString (clock n)) assignedBy]> t) Hl)
      as (x & m & Hx & Hxs & Hrow).
    exists x, m. split; [set_solver |]. done.
  - assert (ToString_json y = name) as <- by set_solver.
    exists y, n. split; [set_solver |]. split; [done |].
    rewrite PlanProperties.write_checks_other.
    + apply lookup_insert_eq.
    + intros (z & Hz%PlanProperties.check_key_device_inj & Hzin)%list_elem_of_fmap.
      apply Hn. apply list_elem_of_fmap. by exists z.
Qed.

End Plan.




End PlanEdgeProperties.

(* ===================================================================== *)
(** ** Completions that go half-way *)
(* ===================================================================== *)

Module CompletionEdgeProperties.
Import JS JsDate Kv Server Outcome Samples IsoWeek MoreSamples.
Import DateFacts WeekFacts HandlerFacts.

Lemma device_prefix_not_user key :
  String.prefix "device:" key = true -> String.prefix "user:" key = false.
Proof.
  destruct key as [|a key]; [done |].
  destruct (Ascii.ascii_dec "d" a) as [<- | Hne].
  - intros _. reflexivity.
  - change (String.prefix "device:" (String a key))
      with (if Ascii.ascii_dec "d" a then String.prefix "evice:" key else false).
    destruct (Ascii.ascii_dec "d" a); [done | discriminate].
Qed.

Lemma next_check_date_nan tza currentDate plannedFrequency :
  ToNumber plannedFrequency = None ->
  next_check_date tza currentDate plannedFrequency = None.
Proof.
  intros H. unfold next_check_date, setDate. rewrite H.
  destruct (new_Date currentDate); [| done]. cbn.
  by destruct (getDate tza currentDate).
Qed.

Section Completion.
Variable tza : Z.
Variable PREVENT_AUTO_SEED : bool.
Variable db_error : gmap string json -> db_request -> option string.
Variable clock : nat -> Z.
Variable checkId : string.
Variable req : json.
Variable w : world.
Variables c d : gmap string json.
Variable dev : string.

Hypothesis healthy : no_faults db_error.
Hypothesis request_object : req <> JNull.
Hypothesis check_stored : rows w !! checkId = Some (JObj c).
Hypothesis check_device : c !! "deviceId" = Some (JStr dev).
Hypothesis device_stored : rows w !! dev = Some (JObj d).
Hypothesis clock_first : Z.abs (clock (reads w)) <= 8640000000000000.

Let completedBy := get_prop_opt (Some req) "completedBy".
Let comment := get_prop_opt (Some req) "comment".
Let completedAt := ISOString (clock (reads w)).
Let out := put_complete tza PREVENT_AUTO_SEED db_error clock checkId req w.

End Completion.

Lemma put_not_null P key v (t : gmap string json) :
  v <> JNull ->
  (forall k, String.prefix "check:" k = true -> t !! k <> Some JNull) ->
  forall k, String.prefix "check:" k = true -> put P key v t !! k <> Some JNull.
Proof.
  intros Hv Ht k Hk. unfold put. destruct (guard_skips _ _ _); [by apply Ht |].
  destruct (decide (k = key)) as [-> | Hne].
  - rewrite lookup_insert_eq. congruence.
  - rewrite lookup_insert_ne by done. by apply Ht.
Qed.

(** The listing of delayed checks, when no row of the namespace is
    [null]. *)
Lemma delayed_listing tza db_error clock w :
  no_faults db_error ->
  (forall k, String.prefix "check:" k = true -> rows w !! k <> Some JNull) ->
  exists l,
    get_delayed_checks tza db_error clock w
    = (Response 200 (JArr l), World (rows w) (S (reads w)))
    /\ forall v,
         v ∈ l <->
         (exists k, String.prefix "check:" k = true /\ rows w !! k = Some v)
         /\ get_prop_opt (Some v) "status" = Some (JStr "pending")
         /\ earlier (parseInt (get_prop_opt (Some v) "year"),
                     parseInt (get_prop_opt (Some v) "week"))
                    (weekOf tza (new_Date (Some (clock (reads w))))).
Proof.
  intros healthy Hnull.
  set (today := new_Date (Some (clock (reads w)))).
  set (cy := getFullYear tza today). set (cw := getWeekNumber tza today).
  set (scan := List.map snd
                 (List.filter (fun kv => like ("check:" +:+ "%") (fst kv))
                    (map_to_list (rows w)))).
  set (q := fun v =>
              is_string (get_prop_opt (Some v) "status") "pending"
              && (num_lt (parseInt (get_prop_opt (Some v) "year")) cy
                  || (num_eq (parseInt (get_prop_opt (Some v) "year")) cy
                      && num_lt (parseInt (get_prop_opt (Some v) "week")) cw))).
  assert (Hscan : forall v, In v scan <->
                    exists k, String.prefix "check:" k = true /\ rows w !! k = Some v).
  { intros v. unfold scan. rewrite PrefixProperties.scan_values.
    setoid_rewrite (PrefixProperties.like_plain "check:" _ DeviceProperties.plain_check).
    split; intros (k & ? & ?); by exists k. }
  assert (Hrun : filter_r (is_delayed cy cw) scan = Ok (List.filter q scan)).
  { apply DelayedProperties.filter_r_total. intros v (k & Hp & Hk)%Hscan.
    apply DelayedProperties.is_delayed_value. intros ->. by apply (Hnull k). }
  exists (List.filter q scan). split.
  - unfold get_delayed_checks, handler, delayed_checks_body.
    unfold mbind at 1, M_bind at 1, bind at 1, Kv.getByPrefix. rewrite healthy.
    fold scan. rewrite run_now. fold today cy cw.
    unfold mbind, M_bind, bind, lift. rewrite Hrun. done.
  - intros v. rewrite list_elem_of_In, filter_In, Hscan. unfold q.
    rewrite andb_true_iff, DelayedProperties.is_string_true,
      DelayedProperties.earlier_bool. done.
Qed.

Section Afterwards.
Variable tza : Z.
Variable PREVENT_AUTO_SEED : bool.
Variable db_error : gmap string json -> db_request -> option string.
Variable clock : nat -> Z.
Variable checkId : string.
Variable req : json.
Variable w : world.
Variables c d : gmap string json.
Variable dev : string.
Variable f : Z.

Hypothesis healthy : no_faults db_error.
Hypothesis request_object : req <> JNull.
Hypothesis check_stored : rows w !! checkId = Some (JObj c).
Hypothesis check_device : c !! "deviceId" = Some (JStr dev).
Hypothesis device_stored : rows w !! dev = Some (JObj d).
Hypothesis device_frequency : d !! "plannedFrequency" = Some (JNum f).
Hypothesis clock_first : Z.abs (clock (reads w)) <= 8640000000000000.
Hypothesis clock_second : Z.abs (clock (S (reads w))) <= 8640000000000000.

Let completedBy := get_prop_opt (Some req) "completedBy".
Let comment := get_prop_opt (Some req) "comment".
Let completedAt := ISOString (clock (reads w)).
Let nextDate := TimeClip (clock (S (reads w)) + f * 7 * msPerDay).
Let nextYear := getFullYear tza nextDate.
Let nextWeek := getWeekNumber tza nextDate.
Let key := check_key (Number_toString nextYear) (Number_toString nextWeek) dev.
Let out := put_complete tza PREVENT_AUTO_SEED db_error clock checkId req w.

Lemma completion_rows :
  rows (snd out)
  = <[key := next_check key (Some (JStr dev)) nextWeek nextYear completedAt]>
      (put PREVENT_AUTO_SEED dev
         (updated_device (Some (JObj d)) completedAt completedBy)
         (put PREVENT_AUTO_SEED checkId
            (updated_check (Some (JObj c)) completedBy completedAt comment)
            (rows w)))
  /\ reads (snd out) = S (S (reads w)).
Proof.
  unfold out.
  by rewrite (CompletionProperties.complete_well_formed tza PREVENT_AUTO_SEED
                db_error clock checkId req w c d dev f).
Qed.

(** X18: with [PREVENT_AUTO_SEED] on, completing a check of a device whose
    [identificationNumber] is one of the sample ids answers 200 and
    completes the check, but the device row is not written: the device
    keeps its old [lastCheckedAt] and [lastCheckedBy]. *)
Theorem complete_skips_sample_device :
  PREVENT_AUTO_SEED = true ->
  String.prefix "device:" dev = true ->
  sampleDeviceIds_has (d !! "identificationNumber") = true ->
  dev <> checkId ->
  Z.abs (clock (S (reads w)) + f * 7 * msPerDay) <= 8640000000000000 ->
  status (fst out) = 200
  /\ rows (snd out) !! dev = Some (JObj d)
  /\ (String.prefix "check:" checkId = true -> key <> checkId ->
      get_prop_opt (rows (snd out) !! checkId) "status" = Some (JStr "completed")).
Proof.
  intros HP Hdev Hsample Hne Hnext. split; [| split].
  - unfold out.
    rewrite (CompletionProperties.complete_well_formed tza PREVENT_AUTO_SEED
               db_error clock checkId req w c d dev f) by done.
    by rewrite TimeClip_valid.
  - destruct completion_rows as [-> _].
    rewrite lookup_insert_ne by apply CompletionProperties.check_key_not_device.
    unfold put at 1.
    assert (Hg : guard_skips PREVENT_AUTO_SEED dev
                   (updated_device (Some (JObj d)) completedAt completedBy) = true).
    { unfold guard_skips. rewrite HP, Hdev, (device_prefix_not_user dev Hdev).
      cbn [andb]. rewrite DeviceProperties.sample_is_truthy.
      rewrite CompletionProperties.updated_device_frame; [by rewrite Hsample |].
      rewrite !not_elem_of_cons; repeat split;
        (discriminate || apply not_elem_of_nil). }
    rewrite Hg. by rewrite CompletionProperties.lookup_put_ne.
  - intros Hns Hk. destruct completion_rows as [-> _].
    rewrite lookup_insert_ne by done.
    rewrite CompletionProperties.lookup_put_ne by done.
    rewrite CompletionProperties.lookup_put_check by done.
    pose proof (CompletionProperties.updated_check_stamp (Some (JObj c))
                  completedBy completedAt comment) as Hs.
    cbv zeta in Hs. by destruct Hs as (-> & _).
Qed.

Hypothesis rows_not_null :
  forall k, String.prefix "check:" k = true -> rows w !! k <> Some JNull.

Lemma completion_not_null :
  forall k, String.prefix "check:" k = true -> rows (snd out) !! k <> Some JNull.
Proof.
  destruct completion_rows as [-> _]. intros k Hk.
  destruct (decide (k = key)) as [-> | Hne].
  - by rewrite lookup_insert_eq.
  - rewrite lookup_insert_ne by done.
    apply put_not_null; [done | | done]. by apply put_not_null.
Qed.

(** X19: a check that has just been completed is no longer in the list of
    delayed checks: every check listed after the completion is a pending
    row stored under another key. *)
Theorem completed_check_leaves_delayed_list :
  String.prefix "check:" checkId = true ->
  dev <> checkId ->
  key <> checkId ->
  exists l,
    fst (get_delayed_checks tza db_error clock (snd out)) = Response 200 (JArr l)
    /\ forall v, v ∈ l ->
         exists k, k <> checkId /\ rows (snd out) !! k = Some v
                   /\ get_prop_opt (Some v) "status" = Some (JStr "pending").
Proof.
  intros Hns Hdev Hkey.
  destruct (delayed_listing tza db_error clock (snd out) healthy completion_not_null)
    as (l & Hl & Hmem).
  exists l. split; [by rewrite Hl |].
  intros v ((k & Hp & Hk) & Hstatus & _)%Hmem. exists k. split; [| done].
  intros ->. unfold out in Hk.
  rewrite (CompletionProperties.completed_row tza PREVENT_AUTO_SEED db_error clock
             checkId req w c d dev f) in Hk by done.
  assert (Hv : v = updated_check (Some (JObj c))
                      (get_prop_opt (Some req) "completedBy")
                      (ISOString (clock (reads w)))
                      (get_prop_opt (Some req) "comment")) by congruence.
  rewrite Hv in Hstatus.
  pose proof (CompletionProperties.updated_check_stamp (Some (JObj c))
                (get_prop_opt (Some req) "completedBy")
                (ISOString (clock (reads w)))
                (get_prop_opt (Some req) "comment")) as Hs.
  cbv zeta in Hs. destruct Hs as (Hs & _).
  rewrite Hs in Hstatus. discriminate.
Qed.

(** X20: the successor is stored with the calendar year and the week number
    of its date.  When that pair is earlier than the pair of the day on
    which the list is next computed (a successor due in the last days of
    December that belong to week 1, or a frequency that is not positive),
    the successor is listed as delayed as soon as it is written. *)
Theorem successor_can_be_delayed_at_once :
  let next := clock (S (reads w)) + f * 7 * msPerDay in
  let today := clock (S (S (reads w))) in
  usual tza next ->
  usual tza today ->
  YearFromTime (next + tza) < YearFromTime (today + tza)
  \/ (YearFromTime (next + tza) = YearFromTime (today + tza)
      /\ week (Day (next + tza)) < week (Day (today + tza))) ->
  exists l successor,
    fst (get_delayed_checks tza db_error clock (snd out)) = Response 200 (JArr l)
    /\ rows (snd out) !! key = Some successor
    /\ get_prop_opt (Some successor) "assignedBy" = Some (JStr "system")
    /\ (successor ∈ l).
Proof.
  intros next today Hnext Htoday Hearly.
  destruct (delayed_listing tza db_error clock (snd out) healthy completion_not_null)
    as (l & Hl & Hmem).
  destruct completion_rows as [Hrows Hreads].
  assert (Hrow : rows (snd out) !! key
                 = Some (next_check key (Some (JStr dev)) nextWeek nextYear
                           completedAt)).
  { rewrite Hrows. apply lookup_insert_eq. }
  pose proof (CompletionProperties.next_check_fields key (Some (JStr dev))
                nextWeek nextYear completedAt) as Hfields.
  cbv zeta in Hfields. destruct Hfields as (_ & _ & Hy & Hw & Hs & Hby).
  assert (Ey : nextYear = Some (YearFromTime (next + tza))).
  { unfold nextYear, nextDate. fold next.
    by rewrite TimeClip_valid by (by apply usual_time with tza). }
  assert (Ew : nextWeek = Some (week (Day (next + tza)))).
  { unfold nextWeek, nextDate. fold next.
    rewrite TimeClip_valid by (by apply usual_time with tza).
    by apply server_getWeekNumber. }
  exists l, (next_check key (Some (JStr dev)) nextWeek nextYear completedAt).
  split; [by rewrite Hl |]. split; [done |]. split; [done |].
  apply Hmem. split; [| split].
  - exists key. split; [apply check_key_prefix | done].
  - done.
  - rewrite Hy, Hw, Ey, Ew.
    pose proof (usual_year tza next Hnext) as By.
    pose proof (week_range (Day (next + tza))) as Bw.
    rewrite !Number_toString_small by lia. unfold parseInt.
    cbn [ToString ToString_json]. rewrite !NumberProperties.parseInt_pretty.
    rewrite Hreads. fold today. unfold weekOf, new_Date. cbn [mbind option_bind].
    rewrite TimeClip_valid by (by apply usual_time with tza).
    rewrite server_getWeekNumber by done.
    unfold earlier, getFullYear, LocalTime. cbn [fst snd mbind option_bind].
    done.
Qed.
End Afterwards.


Lemma complete_skips_sample_device_witness :
  status (fst (put_complete 0 true healthy_db (fun _ => monday_2025_03_03)
                 "check:2025:9:device:7" (request_by "E1") sample_store)) = 200
  /\ rows (snd (put_complete 0 true healthy_db (fun _ => monday_2025_03_03)
                  "check:2025:9:device:7" (request_by "E1") sample_store))
     !! "device:7" = Some (JObj (press "HP-001")).
Proof.
  pose proof (complete_skips_sample_device 0 true healthy_db
                (fun _ => monday_2025_03_03) "check:2025:9:device:7"
                (request_by "E1") sample_store
                (check_fields "device:7" "2025" "9") (press "HP-001")
                "device:7" 1) as H.
  cbv zeta in H. destruct H as (Hans & Hrow & _).
  - intros t r. reflexivity.
  - discriminate.
  - vm_compute. reflexivity.
  - vm_compute. reflexivity.
  - vm_compute. reflexivity.
  - vm_compute. reflexivity.
  - vm_compute. discriminate.
  - vm_compute. discriminate.
  - reflexivity.
  - reflexivity.
  - vm_compute. reflexivity.
  - discriminate.
  - vm_compute. discriminate.
  - split; [exact Hans | exact Hrow].
Defined.

Lemma completed_check_leaves_delayed_list_witness :
  exists l,
    fst (get_delayed_checks 0 healthy_db (fun _ => monday_2025_03_03)
           (snd (put_complete 0 false healthy_db (fun _ => monday_2025_03_03)
                   "check:2025:9:device:7" (request_by "E1") sample_store)))
    = Response 200 (JArr l)
    /\ forall v, v ∈ l ->
         exists k, k <> "check:2025:9:device:7"
                   /\ rows (snd (put_complete 0 false healthy_db
                                   (fun _ => monday_2025_03_03)
                                   "check:2025:9:device:7" (request_by "E1")
                                   sample_store)) !! k = Some v
                   /\ get_prop_opt (Some v) "status" = Some (JStr "pending").
Proof.
  apply (completed_check_leaves_delayed_list 0 false healthy_db
           (fun _ => monday_2025_03_03) "check:2025:9:device:7"
           (request_by "E1") sample_store
           (check_fields "device:7" "2025" "9") (press "HP-001") "device:7" 1).
  - intros t r. reflexivity.
  - discriminate.
  - vm_compute. reflexivity.
  - vm_compute. reflexivity.
  - vm_compute. reflexivity.
  - vm_compute. reflexivity.
  - vm_compute. discriminate.
  - vm_compute. discriminate.
  - intros k Hp Hk. unfold sample_store in Hk. cbn [rows] in Hk.
    destruct (decide (k = "check:2025:9:device:7")) as [-> | H1]; [discriminate |].
    destruct (decide (k = "device:7")) as [-> | H2]; [discriminate |].
    rewrite !lookup_insert_ne, lookup_empty in Hk by done. discriminate.
  - reflexivity.
  - discriminate.
  - vm_compute. discriminate.
Defined.

Lemma successor_can_be_delayed_at_once_witness :
  exists l successor,
    fst (get_delayed_checks 0 healthy_db (fun _ => monday_2024_12_23)
           (snd december_completion))
    = Response 200 (JArr l)
    /\ get_prop_opt (Some successor) "assignedBy" = Some (JStr "system")
    /\ (successor ∈ l).
Proof.
  destruct (successor_can_be_delayed_at_once 0 false healthy_db
              (fun _ => monday_2024_12_23) "check:2024:51:device:1"
              (request_by "E1") december_world
              (extend ∅ [("id", str (check_key "2024" "51" "device:1"));
                         ("deviceId", str "device:1"); ("week", str "51");
                         ("year", str "2024"); ("status", str "pending");
                         ("assignedAt", str "2024-12-16T08:00:00.000Z");
                         ("assignedBy", str "admin")])
              (extend ∅ [("id", str "device:1"); ("name", str "Press");
                         ("plannedFrequency", Some (JNum 1))])
              "device:1" 1)
    as (l & successor & Hl & _ & Hby & Hin).
  - intros t r. reflexivity.
  - discriminate.
  - vm_compute. reflexivity.
  - vm_compute. reflexivity.
  - vm_compute. reflexivity.
  - vm_compute. reflexivity.
  - vm_compute. discriminate.
  - vm_compute. discriminate.
  - intros k Hp Hk. unfold december_world, sample_world in Hk. cbn [rows] in Hk.
    destruct (decide (k = check_key "2024" "51" "device:1")) as [-> | H1];
      [discriminate |].
    destruct (decide (k = "device:1")) as [-> | H2]; [discriminate |].
    rewrite !lookup_insert_ne, lookup_empty in Hk by done. discriminate.
  - split; [vm_compute; discriminate |]. split; vm_compute; discriminate.
  - split; [vm_compute; discriminate |]. split; vm_compute; discriminate.
  - right. split; vm_compute; reflexivity.
  - exists l, successor. split; [exact Hl |]. split; [exact Hby | exact Hin].
Defined.

End CompletionEdgeProperties.

(* ===================================================================== *)
(** ** Week numbers from week to week *)
(* ===================================================================== *)

Module WeekSequenceProperties.
Import JS JsDate IsoWeek DateFacts WeekFacts Samples.

Lemma thursday_next_week d : thursday (d + 7) = thursday d + 7.
Proof. unfold thursday. Z.to_euclidean_division_equations; lia. Qed.

(** From one week to the next the number goes up by one or starts again
    at 1. *)
Lemma week_next d :
  week (d + 7) = week d + 1 \/ (week (d + 7) = 1 /\ 52 <= week d).
Proof.
  unfold week, week_year. rewrite thursday_next_week.
  set (T := thursday d).
  pose proof (YearFromDay_spec T) as [Hl Hu].
  pose proof (DayFromYear_succ (YearFromDay T)) as Hs.
  pose proof (DayFromYear_succ (YearFromDay T + 1)) as Hs'.
  unfold DaysInYear in Hs, Hs'.
  destruct (Z_lt_ge_dec (T + 7) (DayFromYear (YearFromDay T + 1))) as [Hin | Hout].
  - left. rewrite (YearFromDay_unique (T + 7) (YearFromDay T)) by lia.
    Z.to_euclidean_division_equations; lia.
  - right. rewrite (YearFromDay_unique (T + 7) (YearFromDay T + 1)).
    + destruct (isLeap (YearFromDay T)); Z.to_euclidean_division_equations; lia.
    + destruct (isLeap (YearFromDay T)), (isLeap (YearFromDay T + 1)); lia.
Qed.

(** The days of one Monday-to-Sunday week share the week number. *)
Lemma week_same_thursday d d' :
  thursday d = thursday d' -> week d = week d' /\ week_year d = week_year d'.
Proof. unfold week, week_year. by intros ->. Qed.

Lemma week_of_monday d :
  week (d - (d + 3) mod 7) = week d.
Proof.
  apply week_same_thursday.
  unfold thursday. Z.to_euclidean_division_equations; lia.
Qed.

Lemma week_of_sunday d :
  week (d - (d + 3) mod 7 + 6) = week d.
Proof.
  apply week_same_thursday.
  unfold thursday. Z.to_euclidean_division_equations; lia.
Qed.

(** X21: for a date such that it and the date seven days later are both
    usual (local days from 8 January of year 100 to ten days before the end
    of the [Date] range, fixed offset of at most a day), both week helpers
    give a number from 1 to 53, and seven days later they give the next
    number, or 1 after a week 52 or 53. *)
Theorem getWeekNumber_week_after tza t :
  usual tza t ->
  usual tza (t + 7 * msPerDay) ->
  exists n m,
    Server_week.getWeekNumber tza (Some t) = Some n
    /\ Client_week.getWeekNumber tza (Some t) = Some n
    /\ Server_week.getWeekNumber tza (Some (t + 7 * msPerDay)) = Some m
    /\ Client_week.getWeekNumber tza (Some (t + 7 * msPerDay)) = Some m
    /\ 1 <= n <= 53
    /\ (m = n + 1 \/ (m = 1 /\ 52 <= n)).
Proof.
  intros Ht Ht'. exists (week (Day (t + tza))), (week (Day (t + tza) + 7)).
  rewrite !server_getWeekNumber, !client_getWeekNumber by done.
  replace (t + 7 * msPerDay + tza) with (t + tza + 7 * msPerDay) by lia.
  rewrite Day_add_days.
  repeat split; try apply week_range. apply week_next.
Qed.

Lemma getWeekNumber_week_after_witness :
  exists n m,
    Server_week.getWeekNumber 0 (Some monday_2024_12_23) = Some n
    /\ Client_week.getWeekNumber 0 (Some monday_2024_12_23) = Some n
    /\ Server_week.getWeekNumber 0 (Some (monday_2024_12_23 + 7 * msPerDay)) = Some m
    /\ Client_week.getWeekNumber 0 (Some (monday_2024_12_23 + 7 * msPerDay)) = Some m
    /\ 1 <= n <= 53
    /\ (m = n + 1 \/ (m = 1 /\ 52 <= n)).
Proof.
  apply (getWeekNumber_week_after 0 monday_2024_12_23).
  - split; [vm_compute; discriminate |]. split; vm_compute; discriminate.
  - split; [vm_compute; discriminate |]. split; vm_compute; discriminate.
Defined.

End WeekSequenceProperties.

(* ===================================================================== *)
(** ** The date helpers of the screens *)
(* ===================================================================== *)

Module ScreenProperties.
Import JS JsDate IsoWeek DateFacts WeekFacts Screens DelayedDevices.
Import Samples MoreSamples NumberProperties.
Import WeekSequenceProperties.

Lemma day_bound_time tza t :
  Z.abs tza <= msPerDay -> first_day <= Day (t + tza) <= last_day ->
  Z.abs t <= 8640000000000000 - 8 * msPerDay.
Proof.
  unfold Day, first_day, last_day, msPerDay. intros H1 H2.
  Z.to_euclidean_division_equations; lia.
Qed.

(** X22: the range shown on the device-check screen runs from the Monday on
    or before today to the Sunday after it, at today's time of day; the
    three dates have the same week number, the one shown next to the
    range. *)
Theorem current_week_range tza current :
  Z.abs tza <= msPerDay ->
  first_day + 6 <= Day (current + tza) <= last_day - 6 ->
  let monday := current - ((WeekDay (current + tza) + 6) mod 7) * msPerDay in
  let sunday := monday + 6 * msPerDay in
  currentWeek_dates tza current = (Some monday, Some sunday)
  /\ WeekDay (monday + tza) = 1
  /\ WeekDay (sunday + tza) = 0
  /\ monday <= current <= sunday
  /\ Client_week.getWeekNumber tza (Some monday)
     = Client_week.getWeekNumber tza (Some current)
  /\ Client_week.getWeekNumber tza (Some sunday)
     = Client_week.getWeekNumber tza (Some current).
Proof.
  intros Hz Hd. cbv zeta.
  set (wd := WeekDay (current + tza)).
  set (k := (wd + 6) mod 7).
  assert (Hwd : 0 <= wd < 7) by (unfold wd, WeekDay; Z.to_euclidean_division_equations; lia).
  assert (Hk : 0 <= k < 7) by (unfold k; Z.to_euclidean_division_equations; lia).
  assert (Hc : Z.abs current <= 8640000000000000 - 8 * msPerDay).
  { apply day_bound_time with tza; [done | lia]. }
  assert (Hm : Day (current - k * msPerDay + tza) = Day (current + tza) - k).
  { replace (current - k * msPerDay + tza) with (current + tza + (- k) * msPerDay) by lia.
    rewrite Day_add_days. lia. }
  assert (Hs : Day (current - k * msPerDay + 6 * msPerDay + tza)
               = Day (current + tza) - k + 6).
  { replace (current - k * msPerDay + 6 * msPerDay + tza)
      with (current + tza + (6 - k) * msPerDay) by lia.
    rewrite Day_add_days. lia. }
  assert (Hkd : k = (Day (current + tza) + 3) mod 7).
  { unfold k, wd, WeekDay. Z.to_euclidean_division_equations; lia. }
  split; [| split; [| split; [| split; [| split]]]].
  - unfold currentWeek_dates, new_Date. cbn [mbind option_bind].
    rewrite (TimeClip_valid current) by (unfold msPerDay in *; lia).
    cbn [mbind option_bind].
    rewrite (TimeClip_valid current) by (unfold msPerDay in *; lia).
    change (getDay tza (Some current)) with (Some wd).
    change (getDate tza (Some current)) with (Some (DateFromTime (current + tza))).
    assert (E : num_add (num_sub (Some (DateFromTime (current + tza))) (Some wd))
                  match Some wd with
                  | Some 0 => Some (-6)
                  | _ => Some 1
                  end
                = Some (DateFromTime (current + tza) - k)).
    { unfold k. destruct wd as [|p|p] eqn:E; cbn; f_equal;
        Z.to_euclidean_division_equations; lia. }
    cbv beta iota. rewrite E, setDate_shift.
    replace (current + (DateFromTime (current + tza) - k
                        - DateFromTime (current + tza)) * msPerDay)
      with (current - k * msPerDay) by lia.
    rewrite (TimeClip_valid (current - k * msPerDay)) by (unfold msPerDay in *; lia).
    cbn [mbind option_bind].
    rewrite (TimeClip_valid (current - k * msPerDay)) by (unfold msPerDay in *; lia).
    rewrite setDate_getDate_plus.
    by rewrite TimeClip_valid by (unfold msPerDay in *; lia).
  - unfold WeekDay. rewrite Hm. fold (WeekDay (current + tza)). fold wd.
    unfold k, wd, WeekDay in *. Z.to_euclidean_division_equations; lia.
  - unfold WeekDay. rewrite Hs.
    unfold k, wd, WeekDay in *. Z.to_euclidean_division_equations; lia.
  - unfold msPerDay. lia.
  - rewrite !client_getWeekNumber; try (split; [done |]; rewrite ?Hm; lia).
    rewrite Hm, Hkd. by rewrite week_of_monday.
  - rewrite !client_getWeekNumber; try (split; [done |]; rewrite ?Hs; lia).
    rewrite Hs, Hkd. by rewrite week_of_sunday.
Qed.

(** X23: for a year from 101 on and a week from 1 to 52, the range shown
    for a delayed check starts on the Monday of that ISO week of that year
    (local midnight) and ends six days later; the week number of both ends,
    as the screen computes it, is the week asked for. *)
Theorem week_date_range_round_trip tza y w :
  Z.abs tza <= msPerDay ->
  101 <= y <= 275000 ->
  1 <= w <= 52 ->
  exists monday,
    weekDateRange_dates tza (Some y) (Some w)
    = (Some (monday * msPerDay - tza), Some ((monday + 6) * msPerDay - tza))
    /\ (monday + 4) mod 7 = 1
    /\ week_year monday = y
    /\ week monday = w
    /\ Client_week.getWeekNumber tza (Some (monday * msPerDay - tza)) = Some w
    /\ Client_week.getWeekNumber tza (Some ((monday + 6) * msPerDay - tza))
       = Some w.
Proof.
  intros Hz Hy Hw.
  set (J := DayFromYear y + (w - 1) * 7).
  set (dow := (J + 4) mod 7).
  set (M := if dow <=? 4 then J - dow + 1 else J + 8 - dow).
  assert (Hdow : 0 <= dow < 7) by (unfold dow; Z.to_euclidean_division_equations; lia).
  pose proof (DayFromYear_mono 101 y ltac:(lia)) as Hlo.
  pose proof (DayFromYear_mono y 275000 ltac:(lia)) as Hhi.
  change (DayFromYear 101) with (-682638) in Hlo.
  change (DayFromYear 275000) with 99722160 in Hhi.
  pose proof (DayFromYear_succ y) as Hsucc. unfold DaysInYear in Hsucc.
  assert (HM : J - 3 <= M <= J + 3 /\ (M + 3) mod 7 = 0).
  { unfold M. destruct (Z.leb_spec dow 4); unfold dow in *;
      Z.to_euclidean_division_equations; lia. }
  destruct HM as [HMJ HM7].
  assert (Hth : thursday M = M + 3).
  { unfold thursday. rewrite HM7. lia. }
  assert (Hyear : week_year M = y).
  { unfold week_year. rewrite Hth. apply YearFromDay_unique.
    rewrite Hsucc. unfold J in *. destruct (isLeap y); lia. }
  assert (Hweek : week M = w).
  { unfold week. rewrite Hyear, Hth. unfold J in *.
    Z.to_euclidean_division_equations; lia. }
  assert (Hth6 : thursday (M + 6) = thursday M).
  { unfold thursday. Z.to_euclidean_division_equations; lia. }
  assert (Husual : forall d, M <= d <= M + 6 -> usual tza (d * msPerDay - tza)).
  { intros d Hd. split; [done |].
    replace (d * msPerDay - tza + tza) with (d * msPerDay) by lia.
    rewrite Day_of_days. unfold first_day, last_day, J in *. lia. }
  exists M. split; [| split; [| split; [| split; [| split]]]]; try done.
  - unfold weekDateRange_dates.
    change (num_add (Some 1) (num_mul (num_sub (Some w) (Some 1)) (Some 7)))
      with (Some (1 + (w - 1) * 7)).
    assert (Esimple : new_Date_ymd tza (Some y) (Some 0) (Some (1 + (w - 1) * 7))
                      = Some (J * msPerDay - tza)).
    { unfold new_Date_ymd, UTC, MakeDate, MakeTime. cbn [mbind option_bind].
      rewrite MakeFullYear_late, MakeDay_january by lia.
      replace ((DayFromYear y + (1 + (w - 1) * 7) - 1) * msPerDay
               + (0 * msPerHour + 0 * msPerMinute + 0 * msPerSecond + 0) - tza)
        with (J * msPerDay - tza) by (unfold J; lia).
      apply TimeClip_valid. unfold msPerDay, J in *. lia. }
    rewrite Esimple, getDay_midnight, getDate_midnight. fold dow.
    change (num_le (Some dow) (Some 4)) with (dow <=? 4).
    assert (Estart :
              (if dow <=? 4
               then setDate tza (Some (J * msPerDay - tza))
                      (num_add (num_sub (Some (DateFromTime (J * msPerDay)))
                                        (Some dow)) (Some 1))
               else setDate tza (Some (J * msPerDay - tza))
                      (num_sub (num_add (Some (DateFromTime (J * msPerDay)))
                                        (Some 8)) (Some dow)))
              = Some (M * msPerDay - tza)).
    { unfold M. destruct (dow <=? 4).
      - change (num_add (num_sub (Some ?a) (Some dow)) (Some 1))
          with (Some (a - dow + 1)).
        rewrite setDate_midnight.
        replace (J + (DateFromTime (J * msPerDay) - dow + 1
                      - DateFromTime (J * msPerDay)))
          with (J - dow + 1) by lia.
        apply TimeClip_valid. unfold msPerDay, J in *. lia.
      - change (num_sub (num_add (Some ?a) (Some 8)) (Some dow))
          with (Some (a + 8 - dow)).
        rewrite setDate_midnight.
        replace (J + (DateFromTime (J * msPerDay) + 8 - dow
                      - DateFromTime (J * msPerDay)))
          with (J + 8 - dow) by lia.
        apply TimeClip_valid. unfold msPerDay, J in *. lia. }
    rewrite Estart. f_equal.
    unfold new_Date. cbn [mbind option_bind].
    rewrite (TimeClip_valid (M * msPerDay - tza)) by (unfold msPerDay, J in *; lia).
    rewrite setDate_getDate_plus.
    replace (M * msPerDay - tza + 6 * msPerDay) with ((M + 6) * msPerDay - tza) by lia.
    apply TimeClip_valid. unfold msPerDay, J in *. lia.
  - Z.to_euclidean_division_equations; lia.
  - rewrite client_getWeekNumber by (apply Husual; lia).
    replace (M * msPerDay - tza + tza) with (M * msPerDay) by lia.
    by rewrite Day_of_days, Hweek.
  - rewrite client_getWeekNumber by (apply Husual; lia).
    replace ((M + 6) * msPerDay - tza + tza) with ((M + 6) * msPerDay) by lia.
    rewrite Day_of_days. f_equal. rewrite <- Hweek.
    by apply week_same_thursday.
Qed.

(** X24: the date announced for the next e-mail is a Monday at 07:00 of
    the browser's clock, strictly after the instant four hours from now
    that the helper starts from, and at most seven days after it. *)
Theorem next_monday_is_a_monday tza current :
  Z.abs tza <= msPerDay ->
  Z.abs current <= 8640000000000000 - 10 * msPerDay ->
  let gstNow := current + 4 * 60 * 60 * 1000 in
  exists nextMonday,
    getNextMondayGST tza current = Some nextMonday
    /\ WeekDay (nextMonday + tza) = 1
    /\ TimeWithinDay (nextMonday + tza) = 7 * msPerHour
    /\ gstNow < nextMonday <= gstNow + 7 * msPerDay.
Proof.
  intros Hz Hc. cbv zeta.
  set (g := current + 4 * 60 * 60 * 1000).
  set (wd := WeekDay (g + tza)).
  set (hour := HourFromTime (g + tza)).
  set (k := if (wd =? 1) && (hour <? 7) then 0
            else if wd =? 0 then 1 else 8 - wd).
  assert (Hwd : 0 <= wd < 7) by (unfold wd, WeekDay; Z.to_euclidean_division_equations; lia).
  assert (Hk : 0 <= k <= 7).
  { unfold k. destruct (wd =? 1), (hour <? 7), (Z.eqb_spec wd 0); cbn; lia. }
  set (r := (Day (g + tza) + k) * msPerDay + 7 * msPerHour - tza).
  assert (Hrun : getNextMondayGST tza current = Some r).
  { unfold getNextMondayGST, new_Date, getTime. cbn [mbind option_bind].
    rewrite (TimeClip_valid current) by (unfold msPerDay in *; lia).
    change (num_add (Some current) (Some (4 * 60 * 60 * 1000))) with (Some g).
    cbn [mbind option_bind].
    rewrite (TimeClip_valid g) by (unfold g, msPerDay in *; lia).
    change (getDay tza (Some g)) with (Some wd).
    change (getHours tza (Some g)) with (Some hour).
    change (num_eq (Some wd) (Some 1)) with (wd =? 1).
    change (num_lt (Some hour) (Some 7)) with (hour <? 7).
    assert (E : (if (wd =? 1) && (hour <? 7) then Some 0
                 else match Some wd with
                      | Some 0 => Some 1
                      | _ => num_sub (Some 8) (Some wd)
                      end) = Some k).
    { unfold k. destruct ((wd =? 1) && (hour <? 7)); [done |].
      by destruct wd. }
    cbv beta iota in E |- *. rewrite E.
    cbn [mbind option_bind].
    rewrite (TimeClip_valid g) by (unfold g, msPerDay in *; lia).
    rewrite setDate_getDate_plus.
    rewrite (TimeClip_valid (g + k * msPerDay)) by (unfold g, msPerDay in *; lia).
    unfold setHours, LocalTime, UTC, MakeDate, MakeTime. cbn [mbind option_bind].
    replace (g + k * msPerDay + tza) with (g + tza + k * msPerDay) by lia.
    rewrite Day_add_days.
    replace ((Day (g + tza) + k) * msPerDay
             + (7 * msPerHour + 0 * msPerMinute + 0 * msPerSecond + 0) - tza)
      with r by (unfold r; lia).
    apply TimeClip_valid. unfold r, g, Day, msPerDay, msPerHour in *.
    Z.to_euclidean_division_equations; lia. }
  exists r. split; [done |].
  assert (Hr : r + tza = (Day (g + tza) + k) * msPerDay + 7 * msPerHour)
    by (unfold r; lia).
  split; [| split].
  - replace (r + tza) with (7 * msPerHour + (Day (g + tza) + k) * msPerDay) by lia.
    unfold WeekDay. rewrite Day_add_days. change (Day (7 * msPerHour)) with 0.
    set (D := Day (g + tza)) in *. unfold k, wd, WeekDay. fold D.
    destruct (Z.eqb_spec ((D + 4) mod 7) 1); destruct (hour <? 7);
      destruct (Z.eqb_spec ((D + 4) mod 7) 0);
      cbn [andb]; Z.to_euclidean_division_equations; lia.
  - replace (r + tza) with (7 * msPerHour + (Day (g + tza) + k) * msPerDay) by lia.
    unfold TimeWithinDay.
    rewrite Z.mod_add by (unfold msPerDay; lia). reflexivity.
  - assert (Hg : g + tza = Day (g + tza) * msPerDay + TimeWithinDay (g + tza)).
    { unfold Day, TimeWithinDay, msPerDay. Z.to_euclidean_division_equations; lia. }
    assert (Ht : 0 <= TimeWithinDay (g + tza) < msPerDay).
    { unfold TimeWithinDay, msPerDay. Z.to_euclidean_division_equations; lia. }
    assert (Hh : hour = TimeWithinDay (g + tza) / msPerHour).
    { unfold hour, HourFromTime, TimeWithinDay, msPerDay, msPerHour.
      Z.to_euclidean_division_equations; lia. }
    unfold k in *. unfold msPerDay, msPerHour in *.
    destruct (Z.eqb_spec wd 1); destruct (Z.ltb_spec hour 7);
      destruct (Z.eqb_spec wd 0); cbn [andb] in *;
      Z.to_euclidean_division_equations; lia.
Qed.

Lemma current_pair tza current :
  usual tza current ->
  getFullYear tza (new_Date (Some current)) = Some (YearFromTime (current + tza))
  /\ getWeekNumber tza (new_Date (Some current))
     = Some (week (Day (current + tza))).
Proof.
  intros Hu. unfold new_Date. cbn [mbind option_bind].
  rewrite TimeClip_valid by (by apply usual_time with tza).
  split; [done |]. unfold getWeekNumber. by apply client_getWeekNumber.
Qed.

(** X25: for a check whose year and week are earlier than the pair the
    screen itself forms for today ([getFullYear] and [getWeekNumber] of the
    browser's clock, in the browser's zone) and whose week is a week number,
    the day count of the screen is a multiple of 7 that is never negative.
    It is at least 7 when the check is of the current year, and it is 0
    only for a week 53 seen from week 1 of the following year. *)
Theorem delayed_check_days_overdue tza current (check : gmap string json) y wk :
  usual tza current ->
  parseInt (check !! "year") = Some y ->
  parseInt (check !! "week") = Some wk ->
  1 <= wk <= 53 ->
  Outcome.earlier (Some y, Some wk)
    (getFullYear tza (new_Date (Some current)),
     getWeekNumber tza (new_Date (Some current))) ->
  exists n,
    getDaysOverdue tza current check = Some n
    /\ 0 <= n
    /\ n mod 7 = 0
    /\ (getFullYear tza (new_Date (Some current)) = Some y -> 7 <= n)
    /\ (n = 0 -> wk = 53
                 /\ getWeekNumber tza (new_Date (Some current)) = Some 1
                 /\ getFullYear tza (new_Date (Some current)) = Some (y + 1)).
Proof.
  intros Hu Hy Hw Hwk.
  pose proof (week_range (Day (current + tza))) as Hcw.
  destruct (current_pair tza current Hu) as [Ey Ew].
  unfold getDaysOverdue. rewrite Hy, Hw, Ey, Ew.
  set (cy := YearFromTime (current + tza)) in *.
  set (cw := week (Day (current + tza))) in *.
  change (num_mul (num_add (num_mul (num_sub (Some cy) (Some y)) (Some 52))
                     (num_sub (Some cw) (Some wk))) (Some 7))
    with (Some (((cy - y) * 52 + (cw - wk)) * 7)).
  unfold Outcome.earlier. cbn [fst snd]. intros Hearly.
  exists (((cy - y) * 52 + (cw - wk)) * 7).
  split; [done |]. split; [lia |]. split; [| split].
  - apply Z.mod_mul. lia.
  - intros E. assert (cy = y) by congruence. lia.
  - intros E. assert (cy = y + 1 /\ cw = 1 /\ wk = 53) as (-> & -> & ->) by lia.
    done.
Qed.


(** X27: adding a recipient who is already selected changes nothing, so a
    selection without repetitions stays one; removing a recipient removes
    it altogether and keeps the others in order; removing one that was
    just added gives back the selection. *)
Theorem recipient_selection employeeId (selected : list string) :
  NoDup selected ->
  NoDup (handleEmployeeAdd employeeId selected)
  /\ (employeeId ∈ handleEmployeeAdd employeeId selected)
  /\ handleEmployeeAdd employeeId (handleEmployeeAdd employeeId selected)
     = handleEmployeeAdd employeeId selected
  /\ (employeeId ∉ handleEmployeeRemove employeeId selected)
  /\ (forall other, other <> employeeId ->
        (other ∈ handleEmployeeRemove employeeId selected <-> other ∈ selected))
  /\ (employeeId ∉ selected ->
      handleEmployeeRemove employeeId (handleEmployeeAdd employeeId selected)
      = selected).
Proof.
  intros Hnd.
  assert (Hin : existsb (String.eqb employeeId) selected = true
                <-> employeeId ∈ selected).
  { rewrite existsb_exists, list_elem_of_In. split.
    - by intros (x & Hx & ->%String.eqb_eq).
    - intros H. exists employeeId. split; [done | apply String.eqb_refl]. }
  assert (Hrm : forall x, x ∈ handleEmployeeRemove employeeId selected
                          <-> x ∈ selected /\ x <> employeeId).
  { intros x. unfold handleEmployeeRemove.
    rewrite !list_elem_of_In, filter_In, negb_true_iff.
    by rewrite String.eqb_neq. }
  assert (Hkeep : forall l : list string,
             employeeId ∉ l ->
             List.filter (fun id => negb (String.eqb id employeeId)) l = l).
  { intros l. induction l as [|x l IH]; intros Hl; [done |].
    cbn [List.filter]. destruct (String.eqb_spec x employeeId) as [-> | Hne].
    - exfalso. apply Hl. left.
    - cbn [negb]. f_equal. apply IH. intros H. apply Hl. by right. }
  assert (Hother : forall other, other <> employeeId ->
            (other ∈ handleEmployeeRemove employeeId selected <-> other ∈ selected)).
  { intros other Hne. rewrite Hrm. tauto. }
  assert (Hgone : employeeId ∉ handleEmployeeRemove employeeId selected).
  { by intros [_ H]%Hrm. }
  unfold handleEmployeeAdd.
  destruct (existsb (String.eqb employeeId) selected) eqn:E; cbn [negb].
  - assert (Hmem : employeeId ∈ selected) by (by apply Hin).
    rewrite E. cbn [negb].
    split; [done |]. split; [done |]. split; [done |]. split; [done |].
    split; [done |]. done.
  - assert (Hout : employeeId ∉ selected).
    { intros H%Hin. discriminate. }
    assert (E' : existsb (String.eqb employeeId) (selected ++ [employeeId]) = true).
    { rewrite existsb_app. cbn. by rewrite String.eqb_refl, orb_true_r. }
    rewrite E'. cbn [negb].
    split; [| split; [| split; [done |]; split; [done |]; split; [done |]]].
    + apply NoDup_app. repeat split; [done | | apply NoDup_singleton].
      intros x Hx ->%list_elem_of_singleton. done.
    + set_solver.
    + intros _. unfold handleEmployeeRemove. rewrite List.filter_app.
      rewrite Hkeep by done. cbn. rewrite String.eqb_refl. cbn.
      apply app_nil_r.
Qed.

Lemma current_week_range_witness :
  currentWeek_dates 14400000 wednesday_2025_03_05
  = (Some (wednesday_2025_03_05 - 2 * msPerDay),
     Some (wednesday_2025_03_05 + 4 * msPerDay))
  /\ Client_week.getWeekNumber 14400000 (Some (wednesday_2025_03_05 - 2 * msPerDay))
     = Client_week.getWeekNumber 14400000 (Some wednesday_2025_03_05).
Proof.
  pose proof (current_week_range 14400000 wednesday_2025_03_05) as H.
  cbv zeta in H. destruct H as (Hrange & _ & _ & _ & Hweek & _).
  - vm_compute. discriminate.
  - split; vm_compute; discriminate.
  - split; [exact Hrange | exact Hweek].
Defined.

Lemma week_date_range_round_trip_witness :
  exists monday,
    weekDateRange_dates 14400000 (Some 2025) (Some 10)
    = (Some (monday * msPerDay - 14400000),
       Some ((monday + 6) * msPerDay - 14400000))
    /\ (monday + 4) mod 7 = 1
    /\ week_year monday = 2025
    /\ week monday = 10
    /\ Client_week.getWeekNumber 14400000 (Some (monday * msPerDay - 14400000))
       = Some 10
    /\ Client_week.getWeekNumber 14400000
         (Some ((monday + 6) * msPerDay - 14400000)) = Some 10.
Proof.
  apply (week_date_range_round_trip 14400000 2025 10).
  - vm_compute. discriminate.
  - split; vm_compute; discriminate.
  - split; vm_compute; discriminate.
Defined.

Lemma next_monday_is_a_monday_witness :
  exists nextMonday,
    getNextMondayGST 14400000 wednesday_2025_03_05 = Some nextMonday
    /\ WeekDay (nextMonday + 14400000) = 1
    /\ TimeWithinDay (nextMonday + 14400000) = 7 * msPerHour
    /\ wednesday_2025_03_05 + 4 * 60 * 60 * 1000 < nextMonday
       <= wednesday_2025_03_05 + 4 * 60 * 60 * 1000 + 7 * msPerDay.
Proof.
  apply (next_monday_is_a_monday 14400000 wednesday_2025_03_05).
  - vm_compute. discriminate.
  - vm_compute. discriminate.
Defined.

Lemma delayed_check_days_overdue_witness :
  exists n,
    getDaysOverdue 0 monday_2025_03_03 (check_fields "device:7" "2025" "9") = Some n
    /\ 7 <= n.
Proof.
  destruct (delayed_check_days_overdue 0 monday_2025_03_03
              (check_fields "device:7" "2025" "9") 2025 9)
    as (n & Hn & _ & _ & Hsame & _).
  - split; [vm_compute; discriminate |]. split; vm_compute; discriminate.
  - vm_compute. reflexivity.
  - vm_compute. reflexivity.
  - lia.
  - right. split; vm_compute; reflexivity.
  - exists n. split; [exact Hn |]. apply Hsame. vm_compute. reflexivity.
Defined.

Lemma recipient_selection_witness :
  handleEmployeeAdd "E2" (handleEmployeeAdd "E2" ["E1"; "E3"])
  = handleEmployeeAdd "E2" ["E1"; "E3"]
  /\ handleEmployeeRemove "E2" (handleEmployeeAdd "E2" ["E1"; "E3"]) = ["E1"; "E3"].
Proof.
  destruct (recipient_selection "E2" ["E1"; "E3"]) as (_ & _ & Hagain & _ & _ & Hback).
  - apply (bool_decide_unpack _). vm_compute. reflexivity.
  - split; [exact Hagain |]. apply Hback.
    apply (bool_decide_unpack _). vm_compute. reflexivity.
Defined.

(** X28: the end of the week the planner shows for a start date is the
    Sunday on or after that date, at the same time of day; it lies in the
    same week, so its week number is the one of the start date. *)
Theorem week_end_is_the_sunday tza t :
  Z.abs tza <= msPerDay ->
  first_day <= Day (t + tza) <= last_day - 6 ->
  let sunday := t + ((7 - WeekDay (t + tza)) mod 7) * msPerDay in
  getWeekEndDate tza (Some t) = Some sunday
  /\ WeekDay (sunday + tza) = 0
  /\ t <= sunday < t + 7 * msPerDay
  /\ Client_week.getWeekNumber tza (Some sunday)
     = Client_week.getWeekNumber tza (Some t).
Proof.
  intros Hz Hd. cbv zeta.
  set (wd := WeekDay (t + tza)).
  set (k := (7 - wd) mod 7).
  assert (Hwd : 0 <= wd < 7) by (unfold wd, WeekDay; Z.to_euclidean_division_equations; lia).
  assert (Hk : 0 <= k < 7) by (unfold k; Z.to_euclidean_division_equations; lia).
  assert (Ht : Z.abs t <= 8640000000000000 - 8 * msPerDay).
  { apply day_bound_time with tza; [done | lia]. }
  assert (Hs : Day (t + k * msPerDay + tza) = Day (t + tza) + k).
  { replace (t + k * msPerDay + tza) with (t + tza + k * msPerDay) by lia.
    apply Day_add_days. }
  split; [| split; [| split]].
  - unfold getWeekEndDate, new_Date. cbn [mbind option_bind].
    rewrite (TimeClip_valid t) by (unfold msPerDay in *; lia).
    change (getDay tza (Some t)) with (Some wd).
    assert (E : num_rem (num_sub (Some 7) (Some wd)) (Some 7) = Some k).
    { unfold num_rem, num_sub. cbn [mbind option_bind]. cbn [Z.eqb]. f_equal.
      unfold k. rewrite Z.rem_mod_nonneg by lia. done. }
    rewrite E, setDate_getDate_plus.
    apply TimeClip_valid. unfold msPerDay in *. lia.
  - unfold WeekDay. rewrite Hs. unfold k, wd, WeekDay.
    Z.to_euclidean_division_equations; lia.
  - unfold msPerDay. lia.
  - rewrite !client_getWeekNumber; try (split; [done |]; rewrite ?Hs; lia).
    rewrite Hs. f_equal. apply week_same_thursday.
    unfold thursday, k, wd, WeekDay. Z.to_euclidean_division_equations; lia.
Qed.

Lemma week_end_is_the_sunday_witness :
  getWeekEndDate 14400000 (Some wednesday_2025_03_05)
  = Some (wednesday_2025_03_05 + 4 * msPerDay)
  /\ Client_week.getWeekNumber 14400000 (Some (wednesday_2025_03_05 + 4 * msPerDay))
     = Client_week.getWeekNumber 14400000 (Some wednesday_2025_03_05).
Proof.
  pose proof (week_end_is_the_sunday 14400000 wednesday_2025_03_05) as H.
  cbv zeta in H. destruct H as (Hend & _ & _ & Hweek).
  - vm_compute. discriminate.
  - split; vm_compute; discriminate.
  - split; [exact Hend | exact Hweek].
Defined.



(** X30: a click on a device in the planner switches its selection: the
    device is selected afterwards exactly when it was not before, the other
    devices keep their state, a selection without repetitions stays one,
    and a second click gives back the same set of devices. *)
Theorem device_toggle deviceId (prev : list string) :
  NoDup prev ->
  NoDup (handleDeviceToggle deviceId prev)
  /\ (deviceId ∈ handleDeviceToggle deviceId prev <-> deviceId ∉ prev)
  /\ (forall other, other <> deviceId ->
        (other ∈ handleDeviceToggle deviceId prev <-> other ∈ prev))
  /\ (forall x, x ∈ handleDeviceToggle deviceId (handleDeviceToggle deviceId prev)
                <-> x ∈ prev).
Proof.
  intros Hnd.
  assert (Hin : forall l, existsb (String.eqb deviceId) l = true <-> deviceId ∈ l).
  { intros l. rewrite existsb_exists, list_elem_of_In. split.
    - by intros (x & Hx & ->%String.eqb_eq).
    - intros H. exists deviceId. split; [done | apply String.eqb_refl]. }
  assert (Hrm : forall l x,
             x ∈ List.filter (fun id => negb (String.eqb id deviceId)) l
             <-> x ∈ l /\ x <> deviceId).
  { intros l x. rewrite !list_elem_of_In, filter_In, negb_true_iff.
    by rewrite String.eqb_neq. }
  assert (Hmem : forall l x,
             x ∈ handleDeviceToggle deviceId l
             <-> (x ∈ l /\ x <> deviceId) \/ (x = deviceId /\ deviceId ∉ l)).
  { intros l x. unfold handleDeviceToggle.
    destruct (existsb (String.eqb deviceId) l) eqn:E.
    - apply Hin in E. rewrite Hrm. tauto.
    - assert (deviceId ∉ l) by (intros H%Hin; congruence).
      rewrite list_elem_of_In, in_app_iff, <- !list_elem_of_In.
      rewrite list_elem_of_singleton.
      destruct (decide (x = deviceId)) as [-> | Hne]; tauto. }
  split; [| split; [| split]].
  - unfold handleDeviceToggle. destruct (existsb (String.eqb deviceId) prev) eqn:E.
    + apply NoDup_ListNoDup, List.NoDup_filter. by apply NoDup_ListNoDup.
    + assert (deviceId ∉ prev) by (intros H%Hin; congruence).
      apply NoDup_app. repeat split; [done | | apply NoDup_singleton].
      intros x Hx ->%list_elem_of_singleton. done.
  - rewrite Hmem. tauto.
  - intros other Hne. rewrite Hmem. tauto.
  - intros x. rewrite !Hmem.
    destruct (decide (x = deviceId)) as [-> | Hne];
      destruct (decide (deviceId ∈ prev)); tauto.
Qed.

Lemma device_toggle_witness :
  ("D2" ∈ handleDeviceToggle "D2" ["D1"; "D3"])
  /\ ("D1" ∉ handleDeviceToggle "D1" ["D1"; "D3"]).
Proof.
  assert (Hnd : NoDup ["D1"; "D3"]).
  { apply (bool_decide_unpack _). vm_compute. reflexivity. }
  destruct (device_toggle "D2" ["D1"; "D3"] Hnd) as (_ & H2 & _).
  destruct (device_toggle "D1" ["D1"; "D3"] Hnd) as (_ & H1 & _).
  split.
  - apply H2. apply (bool_decide_unpack _). vm_compute. reflexivity.
  - intros H%H1. apply H. apply list_elem_of_In. left. reflexivity.
Defined.

End ScreenProperties.
